(** * transmission-mcp: the session-token RPC client and the tool dispatcher

    A shallow embedding of [transmission_server.py].  The module keeps one
    piece of state, the global [transmission_session_id]; every other effect
    is an HTTP POST issued through [httpx].  The embedding threads a [World]
    (the global, plus the log of the POSTs issued so far) through a small
    state-and-exception monad, and takes the daemon as a function from the
    log of requests to the reply to the last of them.

    Python values that reach the code as JSON (tool arguments, response
    bodies) are the type [value]; the operations the code applies to them
    ([d[k]], [.get], [.lower()], [/], [>], truthiness, ...) are modelled with
    the exceptions CPython raises on operands of the wrong type. *)

From Stdlib Require Import ZArith String List Ascii Bool Lia DecimalString SpecFloat.
Import ListNotations.

Set Warnings "-register-all".
Local Open Scope string_scope.
Local Open Scope Z_scope.

(** ** Strings

    A Python [str] is modelled as a Rocq [string] whose characters are
    the code points below 256 (Latin-1), one character for one code
    point. *)

(** The code points that [str.lower] changes: the letters A-Z, and the
    accented capitals 192 to 222 but for the multiplication sign 215.
    Each goes to the letter 32 places up, one character for one; every
    other code point below 256 is left as it is. *)
Definition is_upper (c : ascii) : bool :=
  let n := N_of_ascii c in
  ((65 <=? n)%N && (n <=? 90)%N)
  || ((192 <=? n)%N && (n <=? 222)%N && negb (n =? 215)%N).

Definition char_lower (c : ascii) : ascii :=
  if is_upper c then ascii_of_N (N_of_ascii c + 32) else c.

(** [s.lower()] *)
Fixpoint lower (s : string) : string :=
  match s with
  | EmptyString => EmptyString
  | String c s' => String (char_lower c) (lower s')
  end.



(** [b.lower()] on the bytes of a header name, as [httpx] folds them: the
    ASCII letters only. *)
Definition is_ascii_upper (c : ascii) : bool :=
  let n := N_of_ascii c in (65 <=? n)%N && (n <=? 90)%N.

Definition ascii_lower (c : ascii) : ascii :=
  if is_ascii_upper c then ascii_of_N (N_of_ascii c + 32) else c.

Fixpoint bytes_lower (s : string) : string :=
  match s with
  | EmptyString => EmptyString
  | String c s' => String (ascii_lower c) (bytes_lower s')
  end.

(** [s.startswith(p)] *)
Definition startswith (s p : string) : bool := String.prefix p s.

(** [needle in hay] on two strings: [needle] occurs as a substring. *)
Fixpoint str_contains (needle hay : string) : bool :=
  String.prefix needle hay ||
  match hay with
  | EmptyString => false
  | String _ hay' => str_contains needle hay'
  end.

(** [sep.join(l)] *)
Fixpoint join (sep : string) (l : list string) : string :=
  match l with
  | [] => ""
  | [s] => s
  | s :: l' => s ++ sep ++ join sep l'
  end.

(** [str(n)] for an [int] *)
Definition string_of_Z (z : Z) : string := NilZero.string_of_int (Z.to_int z).

(** Truth value of a string: [""] is false. *)
Definition str_truthy (s : string) : bool :=
  match s with EmptyString => false | _ => true end.

(** ** Python values *)

Inductive value : Type :=
  | VNone
  | VBool (b : bool)
  | VInt (z : Z)
  | VFloat (f : spec_float)
  | VStr (s : string)
  | VList (l : list value)
  | VDict (d : list (string * value)).

(** A [dict] with string keys, in insertion order.  A lookup takes the
    first binding of the key. *)
Definition dict := list (string * value).

Fixpoint assoc {A : Type} (k : string) (d : list (string * A)) : option A :=
  match d with
  | [] => None
  | (k', v) :: d' => if String.eqb k k' then Some v else assoc k d'
  end.

(** [d[k] = v]: replaces the binding of [k] where it stands, or adds one at
    the end. *)
Fixpoint dict_set {A : Type} (d : list (string * A)) (k : string) (v : A)
  : list (string * A) :=
  match d with
  | [] => [(k, v)]
  | (k', v') :: d' =>
      if String.eqb k k' then (k, v) :: d' else (k', v') :: dict_set d' k v
  end.

(** ** Exceptions

    The classes the code names or that CPython and httpx raise in it, with
    their base classes.  [CancelledError], [KeyboardInterrupt] and
    [SystemExit] derive from [BaseException] only. *)

Inductive exc_class : Type :=
  | BaseException | Exception
  | KeyError | IndexError | TypeError | AttributeError | ValueError
  | OverflowError | ZeroDivisionError
  | JSONDecodeError
  | RequestError | HTTPStatusError
  | CancelledError | KeyboardInterrupt | SystemExit.

Definition exc_class_eqb (c d : exc_class) : bool :=
  match c, d with
  | BaseException, BaseException | Exception, Exception
  | KeyError, KeyError | IndexError, IndexError | TypeError, TypeError
  | ZeroDivisionError, ZeroDivisionError
  | AttributeError, AttributeError | ValueError, ValueError
  | OverflowError, OverflowError | JSONDecodeError, JSONDecodeError
  | RequestError, RequestError | HTTPStatusError, HTTPStatusError
  | CancelledError, CancelledError | KeyboardInterrupt, KeyboardInterrupt
  | SystemExit, SystemExit => true
  | _, _ => false
  end.

(** The class and its bases, most derived first (classes that the code
    never names, such as [LookupError] or [httpx.HTTPError], are left out). *)
Definition mro (c : exc_class) : list exc_class :=
  match c with
  | BaseException => [BaseException]
  | Exception => [Exception; BaseException]
  | JSONDecodeError => [JSONDecodeError; ValueError; Exception; BaseException]
  | CancelledError | KeyboardInterrupt | SystemExit => [c; BaseException]
  | _ => [c; Exception; BaseException]
  end.

Definition issubclass (c d : exc_class) : bool :=
  existsb (exc_class_eqb d) (mro c).

(** ** HTTP *)

Record Response : Type := mkResponse {
  status_code : Z;
  resp_headers : list (string * string);
  (** [response.text] *)
  text : string;
  (** what [response.json()] gives: the parsed body, or the message of the
      [JSONDecodeError] when the body is not JSON *)
  json : value + string
}.

(** An exception object: its class, [str(e)], [e.response] (set by
    [raise_for_status]) and [e.__context__], the exception that was being
    handled when this one was raised. *)
Inductive exc : Type :=
  | Exc (cls : exc_class) (msg : string)
        (response : option Response) (context : option exc).

Definition exc_cls (e : exc) : exc_class := let (c, _, _, _) := e in c.
Definition exc_msg (e : exc) : string := let (_, m, _, _) := e in m.
Definition exc_response (e : exc) : option Response :=
  let (_, _, r, _) := e in r.
Definition exc_context (e : exc) : option exc :=
  let (_, _, _, c) := e in c.

Definition isinstance (e : exc) (c : exc_class) : bool :=
  issubclass (exc_cls e) c.

(** What [httpx.AsyncClient(timeout=30.0, auth=auth).post(url, json=payload,
    headers=headers)] puts on the wire.  The JSON body is kept as the value
    that is serialized, the Basic credentials as the pair they encode. *)
Record Request : Type := mkRequest {
  req_method : string;
  req_url : string;
  req_json : value;
  req_headers : list (string * string);
  req_auth : option (string * string);
  req_timeout : Z
}.

(** The outcome of one POST: a response, whatever its status, or a
    network-level failure ([httpx.RequestError], with its [str]). *)
Inductive Reply : Type :=
  | Responded (r : Response)
  | Failed (cause : string).

(** The daemon and the network between: the reply to the last request of
    the log of all requests sent so far. *)
Definition Network := list Request -> Reply.

(** [response.headers.get(name)]: header names compare without regard to
    the case of their ASCII letters, and several headers of one name are
    joined with [", "]. *)
Definition header_values (hs : list (string * string)) (name : string)
  : list string :=
  map snd
    (filter (fun h => String.eqb (bytes_lower (fst h)) (bytes_lower name)) hs).

Definition headers_get (hs : list (string * string)) (name : string)
  : option string :=
  match header_values hs name with
  | [] => None
  | vs => Some (join ", " vs)
  end.

(** ** Configuration (the module-level constants read from the environment) *)

Record Config : Type := mkConfig {
  TRANSMISSION_HOST : string;
  TRANSMISSION_PORT : Z;
  TRANSMISSION_USERNAME : option string;
  TRANSMISSION_PASSWORD : option string
}.

Definition TRANSMISSION_URL (cfg : Config) : string :=
  "http://" ++ TRANSMISSION_HOST cfg ++ ":" ++
  string_of_Z (TRANSMISSION_PORT cfg) ++ "/transmission/rpc".

(** ** The state and the monad *)

Record World : Type := mkWorld {
  (** the global [transmission_session_id] *)
  transmission_session_id : option string;
  (** every POST issued so far, oldest first *)
  posts : list Request
}.

Inductive Res (A : Type) : Type :=
  | Ok (a : A)
  | Raise (e : exc).
Arguments Ok {A} a.
Arguments Raise {A} e.

Definition M (A : Type) : Type := World -> Res A * World.

Definition ret {A} (a : A) : M A := fun w => (Ok a, w).
Definition raise {A} (e : exc) : M A := fun w => (Raise e, w).
Definition bind {A B} (m : M A) (k : A -> M B) : M B :=
  fun w => match m w with
           | (Ok a, w') => k a w'
           | (Raise e, w') => (Raise e, w')
           end.
(** A pure computation that may raise. *)
Definition lift {A} (r : Res A) : M A := fun w => (r, w).

(** [try: m  except <classes>: h(e)], the first matching clause taken;
    an exception no clause matches propagates. *)
Fixpoint select_handler {A} (hs : list (exc_class * (exc -> M A))) (e : exc)
  : M A :=
  match hs with
  | [] => raise e
  | (c, h) :: hs' => if isinstance e c then h e else select_handler hs' e
  end.

Definition try_except {A} (m : M A) (hs : list (exc_class * (exc -> M A)))
  : M A :=
  fun w => match m w with
           | (Ok a, w') => (Ok a, w')
           | (Raise e, w') => select_handler hs e w'
           end.

Declare Scope py_scope.
Delimit Scope py_scope with py.
Notation "x <- m ;; k" := (bind m (fun x => k))
  (at level 100, m at next level, right associativity) : py_scope.
Notation "m ;;; k" := (bind m (fun _ => k))
  (at level 100, right associativity) : py_scope.
Local Open Scope py_scope.

Definition get_session_id : M (option string) :=
  fun w => (Ok (transmission_session_id w), w).

Definition set_session_id (t : string) : M unit :=
  fun w => (Ok tt, mkWorld (Some t) (posts w)).

(** ** The client *)

Record TransmissionClient : Type := mkClient {
  url : string;
  (** set to [None] by [__init__] and never written again *)
  session_id : option string
}.

(** [TransmissionClient(url)] *)
Definition new_client (u : string) : TransmissionClient := mkClient u None.

Definition X_Session_Id : string := "X-Transmission-Session-Id".

(** [client.post(self.url, json=payload, headers=headers)] on the client
    built with [timeout=30.0, auth=auth]: one request goes out and is
    logged; the daemon's reply comes back as a response or as a
    [RequestError].  The payload is a JSON value, which [httpx] serializes
    as it stands. *)
Definition client_post (net : Network) (auth : option (string * string))
    (u : string) (payload : value) (headers : list (string * string))
  : M Response :=
  fun w =>
    let req := mkRequest "POST" u payload headers auth 30 in
    let log := (posts w ++ [req])%list in
    let w' := mkWorld (transmission_session_id w) log in
    match net log with
    | Responded r => (Ok r, w')
    | Failed cause => (Raise (Exc RequestError cause None None), w')
    end.

(** [response.raise_for_status()]: raises for every status outside 2xx.
    The code never reads [str(e)] of this exception; it is left empty. *)
Definition raise_for_status (r : Response) : M unit :=
  if (200 <=? status_code r) && (status_code r <=? 299) then ret tt
  else raise (Exc HTTPStatusError "" (Some r) None).

(** [response.json()] *)
Definition response_json (r : Response) : M value :=
  match json r with
  | inl v => ret v
  | inr m => raise (Exc JSONDecodeError m None None)
  end.

(** The [headers] dict as it stands before the first POST. *)
Definition initial_headers (sid : option string) : list (string * string) :=
  let headers := [("Content-Type", "application/json")] in
  match sid with
  | Some t => if str_truthy t then dict_set headers X_Session_Id t else headers
  | None => headers
  end.

(** The [payload] dict.  [arguments or {}] is the caller's mapping unless
    it is [None] or empty; ["tag"] is added under [if tag:]. *)
Definition arguments_or_empty (arguments : option dict) : dict :=
  match arguments with
  | Some (b :: d) => b :: d
  | _ => []
  end.

Definition build_payload (method : string) (arguments : option dict)
    (tag : option Z) : dict :=
  let payload := [("method", VStr method);
                  ("arguments", VDict (arguments_or_empty arguments))] in
  match tag with
  | Some t => if t =? 0 then payload else dict_set payload "tag" (VInt t)
  | None => payload
  end.

(** [auth]: Basic credentials under
    [if TRANSMISSION_USERNAME and TRANSMISSION_PASSWORD:]. *)
Definition build_auth (cfg : Config) : option (string * string) :=
  match TRANSMISSION_USERNAME cfg, TRANSMISSION_PASSWORD cfg with
  | Some u, Some p =>
      if str_truthy u && str_truthy p then Some (u, p) else None
  | _, _ => None
  end.

Section Client.

Variable cfg : Config.
Variable net : Network.

(** [TransmissionClient._make_request] *)
Definition _make_request (self : TransmissionClient) (method : string)
    (arguments : option dict) (tag : option Z) : M value :=
  sid <- get_session_id ;;
  let headers := initial_headers sid in
  let payload := build_payload method arguments tag in
  let auth := build_auth cfg in
  try_except
    (response <- client_post net auth (url self) (VDict payload) headers ;;
     response <-
       (if status_code response =? 409 then
          match headers_get (resp_headers response) X_Session_Id with
          | Some new_session_id =>
              if str_truthy new_session_id then
                set_session_id new_session_id ;;;
                let headers := dict_set headers X_Session_Id new_session_id in
                client_post net auth (url self) (VDict payload) headers
              else ret response
          | None => ret response
          end
        else ret response) ;;
     raise_for_status response ;;;
     response_json response)
    [(RequestError, fun e =>
        raise (Exc Exception ("Network error: " ++ exc_msg e) None (Some e)));
     (HTTPStatusError, fun e =>
        match exc_response e with
        | Some r =>
            raise (Exc Exception
                     ("HTTP error " ++ string_of_Z (status_code r) ++ ": "
                      ++ text r) None (Some e))
        | None =>
            raise (Exc AttributeError
                     "'NoneType' object has no attribute 'status_code'"
                     None (Some e))
        end)].

(** The module-level [transmission_client]. *)
Definition transmission_client : TransmissionClient :=
  new_client (TRANSMISSION_URL cfg).

End Client.

(** ** Operations on Python values

    Each operation returns what CPython returns, or the exception it raises
    on an operand of the wrong type (message wording as of CPython 3.11). *)

Definition rbind {A B} (r : Res A) (k : A -> Res B) : Res B :=
  match r with
  | Ok a => k a
  | Raise e => Raise e
  end.

Definition error {A} (c : exc_class) (m : string) : Res A :=
  Raise (Exc c m None None).

Notation "x <~ r ;; k" := (bind (lift r) (fun x => k))
  (at level 100, r at next level, right associativity) : py_scope.

Definition type_name (v : value) : string :=
  match v with
  | VNone => "NoneType"
  | VBool _ => "bool"
  | VInt _ => "int"
  | VFloat _ => "float"
  | VStr _ => "str"
  | VList _ => "list"
  | VDict _ => "dict"
  end.

Definition no_attribute {A} (v : value) (attr : string) : Res A :=
  error AttributeError
    ("'" ++ type_name v ++ "' object has no attribute '" ++ attr ++ "'").

(** [repr(k)] of a key that holds no quote, backslash or control character
    (the keys the code subscripts with are such literals). *)
Definition repr_key (k : string) : string := "'" ++ k ++ "'".

(** [bool(v)] *)
Definition py_truthy (v : value) : bool :=
  match v with
  | VNone => false
  | VBool b => b
  | VInt z => negb (z =? 0)
  | VFloat (S754_zero _) => false
  | VFloat _ => true
  | VStr s => str_truthy s
  | VList [] => false
  | VList _ => true
  | VDict [] => false
  | VDict _ => true
  end.

(** The exact comparison of a float with an integer; [None] for NaN. *)
Definition float_cmp_Z (f : spec_float) (z : Z) : option comparison :=
  match f with
  | S754_zero _ => Some (0 ?= z)
  | S754_infinity s => Some (if s then Lt else Gt)
  | S754_nan => None
  | S754_finite s m e =>
      let n := if s then Z.neg m else Z.pos m in
      Some (if 0 <=? e then (n * 2 ^ e ?= z) else (n ?= z * 2 ^ (- e)))
  end.

(** How a value compares with an [int]: [Some c] for a number ([bool]s are
    the integers 0 and 1), [None] for NaN and for values that are not
    numbers. *)
Definition num_cmp_Z (v : value) (z : Z) : option comparison :=
  match v with
  | VBool b => Some ((if b then 1 else 0) ?= z)
  | VInt n => Some (n ?= z)
  | VFloat f => float_cmp_Z f z
  | _ => None
  end.

(** [v == z] for an integer literal [z] *)
Definition py_eq_int (v : value) (z : Z) : bool :=
  match num_cmp_Z v z with Some Eq => true | _ => false end.

(** [v == s] for a string literal [s] *)
Definition py_eq_str (v : value) (s : string) : bool :=
  match v with VStr s' => String.eqb s' s | _ => false end.

(** [v > z] for an integer literal [z] *)
Definition py_gt_int (v : value) (z : Z) : Res bool :=
  match v with
  | VBool _ | VInt _ | VFloat _ =>
      Ok (match num_cmp_Z v z with Some Gt => true | _ => false end)
  | _ => error TypeError
           ("'>' not supported between instances of '" ++ type_name v
            ++ "' and 'int'")
  end.

(** [hash(v)] succeeds: lists and dicts are unhashable. *)
Definition check_hashable (v : value) : Res unit :=
  match v with
  | VList _ | VDict _ =>
      error TypeError ("unhashable type: '" ++ type_name v ++ "'")
  | _ => Ok tt
  end.

(** [d[k]] on a dict *)
Definition dict_getitem (d : dict) (k : string) : Res value :=
  match assoc k d with
  | Some v => Ok v
  | None => error KeyError (repr_key k)
  end.

(** [d.get(k, default)] on a dict *)
Definition dict_get (d : dict) (k : string) (default : value) : value :=
  match assoc k d with
  | Some v => v
  | None => default
  end.

(** [k in d] on a dict *)
Definition dict_contains (d : dict) (k : string) : bool :=
  match assoc k d with Some _ => true | None => false end.

(** [v.get(k, default)] on any value: only a dict has [get]. *)
Definition py_get (v : value) (k : string) (default : value) : Res value :=
  match v with
  | VDict d => Ok (dict_get d k default)
  | _ => no_attribute v "get"
  end.

(** [v[k]] for a string literal [k] *)
Definition py_getitem_str (v : value) (k : string) : Res value :=
  match v with
  | VDict d => dict_getitem d k
  | VList _ =>
      error TypeError "list indices must be integers or slices, not str"
  | VStr _ => error TypeError "string indices must be integers, not 'str'"
  | _ => error TypeError ("'" ++ type_name v ++ "' object is not subscriptable")
  end.

(** [v[0]] *)
Definition py_getitem_0 (v : value) : Res value :=
  match v with
  | VList (x :: _) => Ok x
  | VList [] => error IndexError "list index out of range"
  | VStr (String c _) => Ok (VStr (String c EmptyString))
  | VStr EmptyString => error IndexError "string index out of range"
  | VDict _ => error KeyError "0"
  | _ => error TypeError ("'" ++ type_name v ++ "' object is not subscriptable")
  end.

(** The items of [for t in v]: the elements of a list, the characters of a
    string, the keys of a dict. *)
Definition py_iter (v : value) : Res (list value) :=
  match v with
  | VList l => Ok l
  | VStr s => Ok (map (fun c => VStr (String c EmptyString)) (list_ascii_of_string s))
  | VDict d => Ok (map (fun kv => VStr (fst kv)) d)
  | _ => error TypeError ("'" ++ type_name v ++ "' object is not iterable")
  end.

(** [v.lower()] *)
Definition py_lower (v : value) : Res string :=
  match v with
  | VStr s => Ok (lower s)
  | _ => no_attribute v "lower"
  end.

(** [v.startswith(p)] *)
Definition py_startswith (v : value) (p : string) : Res bool :=
  match v with
  | VStr s => Ok (startswith s p)
  | _ => no_attribute v "startswith"
  end.

(** [[x for x in l if p(x)]], the test evaluated element by element; the
    first exception ends the comprehension. *)
Fixpoint filter_res {A} (p : A -> Res bool) (l : list A) : Res (list A) :=
  match l with
  | [] => Ok []
  | x :: l' =>
      rbind (p x) (fun b =>
      rbind (filter_res p l') (fun r =>
      Ok (if b then x :: r else r)))
  end.

Fixpoint map_res {A B} (f : A -> Res B) (l : list A) : Res (list B) :=
  match l with
  | [] => Ok []
  | x :: l' =>
      rbind (f x) (fun y =>
      rbind (map_res f l') (fun r =>
      Ok (y :: r)))
  end.

(** *** Arithmetic: Python floats are IEEE 754 binary64. *)

Definition float_of_Z (z : Z) : Res spec_float :=
  match binary_normalize 53 1024 z 0 false with
  | S754_infinity _ => error OverflowError "int too large to convert to float"
  | f => Ok f
  end.

(** [a / b] on two ints: the correctly rounded quotient. *)
Definition int_truediv (a b : Z) : Res spec_float :=
  let fl (z : Z) : spec_float :=
    match z with
    | Z0 => S754_zero false
    | Zpos m => S754_finite false m 0
    | Zneg m => S754_finite true m 0
    end in
  if b =? 0 then error ZeroDivisionError "division by zero"
  else match SFdiv 53 1024 (fl a) (fl b) with
       | S754_infinity _ =>
           error OverflowError "integer division result too large for a float"
       | f => Ok f
       end.

Definition bad_operands {A} (op : string) (v : value) : Res A :=
  error TypeError
    ("unsupported operand type(s) for " ++ op ++ ": '" ++ type_name v
     ++ "' and 'int'").

(** [v / d] for an integer literal [d] *)
Definition py_truediv (v : value) (d : Z) : Res value :=
  match v with
  | VBool b => rbind (int_truediv (if b then 1 else 0) d) (fun f => Ok (VFloat f))
  | VInt z => rbind (int_truediv z d) (fun f => Ok (VFloat f))
  | VFloat f =>
      rbind (float_of_Z d) (fun g =>
      match g with
      | S754_zero _ => error ZeroDivisionError "float division by zero"
      | _ => Ok (VFloat (SFdiv 53 1024 f g))
      end)
  | _ => bad_operands "/" v
  end.

Fixpoint repeat_string (n : nat) (s : string) : string :=
  match n with
  | O => ""
  | S n' => s ++ repeat_string n' s
  end.

(** [v * n] for an integer literal [n]; strings and lists are repeated. *)
Definition py_mul (v : value) (n : Z) : Res value :=
  match v with
  | VBool b => Ok (VInt ((if b then 1 else 0) * n))
  | VInt z => Ok (VInt (z * n))
  | VFloat f => rbind (float_of_Z n) (fun g => Ok (VFloat (SFmul 53 1024 f g)))
  | VStr s => Ok (VStr (repeat_string (Z.to_nat n) s))
  | VList l => Ok (VList (concat (repeat l (Z.to_nat n))))
  | _ => bad_operands "*" v
  end.

(** *** Text

    [format(x, ".Nf")] on a float: the exact binary value rounded to [N]
    decimals, ties to even. *)

Definition round_half_even (num den : Z) : Z :=
  let q := num / den in
  match 2 * (num mod den) ?= den with
  | Lt => q
  | Gt => q + 1
  | Eq => if Z.even q then q else q + 1
  end.

(** The decimal digits of [n >= 0] with the point before the last
    [digits] of them. *)
Definition place_point (digits : nat) (n : Z) : string :=
  let s := string_of_Z n in
  let s := repeat_string (S digits - String.length s) "0" ++ s in
  let k := (String.length s - digits)%nat in
  match digits with
  | O => s
  | _ => substring 0 k s ++ "." ++ substring k digits s
  end.

Definition format_fixed (digits : nat) (f : spec_float) : string :=
  match f with
  | S754_nan => "nan"
  | S754_infinity s => if s then "-inf" else "inf"
  | S754_zero s => (if s then "-" else "") ++ place_point digits 0
  | S754_finite s m e =>
      let p := 10 ^ Z.of_nat digits in
      let n := if 0 <=? e then Z.pos m * 2 ^ e * p
               else round_half_even (Z.pos m * p) (2 ^ (- e)) in
      (if s then "-" else "") ++ place_point digits n
  end.

(** How CPython writes the [repr] of a float (the shortest decimal that
    reads back as the same float) and how it quotes and escapes a string
    inside the [repr] of a list or dict are the interpreter's business; the
    code only splices the results into its messages.  They are taken as an
    interface. *)

Class Renderer : Type := {
  float_repr : spec_float -> string;
  str_repr : string -> string
}.

Definition nl : string := String (ascii_of_N 10) EmptyString.

Section Text.

Context {R : Renderer}.

(** [repr(v)] *)
Fixpoint py_repr (v : value) : string :=
  match v with
  | VNone => "None"
  | VBool true => "True"
  | VBool false => "False"
  | VInt z => string_of_Z z
  | VFloat f => float_repr f
  | VStr s => str_repr s
  | VList l => "[" ++ join ", " (map py_repr l) ++ "]"
  | VDict d =>
      "{" ++ join ", " (map (fun kv => str_repr (fst kv) ++ ": "
                                        ++ py_repr (snd kv)) d) ++ "}"
  end.

(** [str(v)], which is also what a bare f-string field [{v}] gives *)
Definition py_str (v : value) : string :=
  match v with
  | VStr s => s
  | _ => py_repr v
  end.

(** [format(v, ".Nf")], the f-string field [{v:.Nf}] *)
Definition py_format_f (digits : nat) (v : value) : Res string :=
  match v with
  | VBool b =>
      rbind (float_of_Z (if b then 1 else 0)) (fun f =>
      Ok (format_fixed digits f))
  | VInt z => rbind (float_of_Z z) (fun f => Ok (format_fixed digits f))
  | VFloat f => Ok (format_fixed digits f)
  | VStr _ =>
      error ValueError "Unknown format code 'f' for object of type 'str'"
  | _ => error TypeError
           ("unsupported format string passed to " ++ type_name v
            ++ ".__format__")
  end.

(** [{v / d1 / ... / dn:.Nf}] *)
Fixpoint div_all (v : value) (ds : list Z) : Res value :=
  match ds with
  | [] => Ok v
  | d :: ds' => rbind (py_truediv v d) (fun v' => div_all v' ds')
  end.

Definition format_div (digits : nat) (v : value) (ds : list Z) : Res string :=
  rbind (div_all v ds) (py_format_f digits).

(** [{v * n:.Nf}] *)
Definition format_mul (digits : nat) (v : value) (n : Z) : Res string :=
  rbind (py_mul v n) (py_format_f digits).

End Text.

(** ** The tool layer *)

Module types.
Record TextContent : Type := mkTextContent {
  type : string;
  text : string
}.
End types.

(** [[types.TextContent(type="text", text=s)]] *)
Definition text_content (s : string) : list types.TextContent :=
  [types.mkTextContent "text" s].

(** [status_map.get(key, "Unknown")] with the seven integer keys of the
    display table *)
Definition status_names : list (Z * string) :=
  [(0, "Stopped"); (1, "Check queued"); (2, "Checking");
   (3, "Download queued"); (4, "Downloading"); (5, "Seed queued");
   (6, "Seeding")].

Definition status_name (key : value) : Res string :=
  rbind (check_hashable key) (fun _ =>
  Ok (match find (fun kv => py_eq_int key (fst kv)) status_names with
      | Some kv => snd kv
      | None => "Unknown"
      end)).

(** [priority_map.get(priority, 0)] *)
Definition priority_map : list (string * Z) :=
  [("high", 1); ("normal", 0); ("low", -1)].

Definition priority_value (priority : value) : Res Z :=
  rbind (check_hashable priority) (fun _ =>
  Ok (match priority with
      | VStr s => match assoc s priority_map with Some n => n | None => 0 end
      | _ => 0
      end)).

(** The filter table of [search_torrents] *)
Definition filter_status_map : list (string * list Z) :=
  [("downloading", [4]); ("seeding", [6]); ("paused", [0]);
   ("completed", [6])].

(** [t.get("status") in codes] *)
Definition status_in (codes : list Z) (t : value) : Res bool :=
  rbind (py_get t "status" VNone) (fun s => Ok (existsb (py_eq_int s) codes)).

(** [query in t.get("name", "").lower()] *)
Definition name_matches (query : string) (t : value) : Res bool :=
  rbind (py_get t "name" (VStr "")) (fun n =>
  rbind (py_lower n) (fun l => Ok (str_contains query l))).

(** The two filters of [search_torrents], applied to the items of the
    daemon's torrent list: by name, then by status unless the filter is
    ["all"] or is not a key of the table. *)
Definition select_torrents (query : string) (status_filter : value)
    (torrents : list value) : Res (list value) :=
  rbind (filter_res (name_matches query) torrents) (fun matching_torrents =>
  if negb (py_eq_str status_filter "all") then
    rbind (check_hashable status_filter) (fun _ =>
    match status_filter with
    | VStr s =>
        match assoc s filter_status_map with
        | Some codes => filter_res (status_in codes) matching_torrents
        | None => Ok matching_torrents
        end
    | _ => Ok matching_torrents
    end)
  else Ok matching_torrents).

Section Tools.

Context {R : Renderer}.
Variable cfg : Config.
Variable net : Network.

(** [await transmission_client._make_request(method, arguments)] *)
Definition rpc (method : string) (arguments : option dict) : M value :=
  _make_request cfg net (transmission_client cfg) method arguments None.

(** [result.get("result") == "success"] *)
Definition is_success (result : value) : Res bool :=
  rbind (py_get result "result" VNone) (fun r => Ok (py_eq_str r "success")).

(** The [else] branch every tool shares:
    [f"<what>: {result.get('result', 'Unknown error')}"] *)
Definition failure (what : string) (result : value)
  : M (list types.TextContent) :=
  r <~ py_get result "result" (VStr "Unknown error") ;;
  ret (text_content (what ++ ": " ++ py_str r)).

Definition add_torrent (arguments : dict) : M (list types.TextContent) :=
  url <~ dict_getitem arguments "url" ;;
  let download_dir := dict_get arguments "download_dir" VNone in
  let paused := dict_get arguments "paused" (VBool false) in
  let args : dict := [] in
  is_magnet <~ py_startswith url "magnet:" ;;
  args <- (if is_magnet then ret (dict_set args "filename" url)
           else
             is_http <~ py_startswith url "http" ;;
             if is_http then ret (dict_set args "filename" url)
             else ret (dict_set args "metainfo" url)) ;;
  let args :=
    if py_truthy download_dir then dict_set args "download-dir" download_dir
    else args in
  let args := dict_set args "paused" paused in
  result <- rpc "torrent-add" (Some args) ;;
  ok <~ is_success result ;;
  if ok then
    a <~ py_get result "arguments" (VDict []) ;;
    torrent_added <~ py_get a "torrent-added" VNone ;;
    a <~ py_get result "arguments" (VDict []) ;;
    torrent_duplicate <~ py_get a "torrent-duplicate" VNone ;;
    if py_truthy torrent_added then
      n <~ py_getitem_str torrent_added "name" ;;
      i <~ py_getitem_str torrent_added "id" ;;
      ret (text_content ("Successfully added torrent '" ++ py_str n
                         ++ "' (ID: " ++ py_str i ++ ")"))
    else if py_truthy torrent_duplicate then
      n <~ py_getitem_str torrent_duplicate "name" ;;
      i <~ py_getitem_str torrent_duplicate "id" ;;
      ret (text_content ("Torrent already exists: '" ++ py_str n
                         ++ "' (ID: " ++ py_str i ++ ")"))
    else ret (text_content "Torrent added successfully")
  else failure "Failed to add torrent" result.

Definition remove_torrent (arguments : dict) : M (list types.TextContent) :=
  torrent_id <~ dict_getitem arguments "torrent_id" ;;
  let delete_local_data :=
    dict_get arguments "delete_local_data" (VBool false) in
  let args := [("ids", VList [torrent_id]);
               ("delete-local-data", delete_local_data)] in
  result <- rpc "torrent-remove" (Some args) ;;
  ok <~ is_success result ;;
  if ok then
    let action := if py_truthy delete_local_data
                  then "removed and local data deleted" else "removed" in
    ret (text_content ("Torrent " ++ py_str torrent_id ++ " successfully "
                       ++ action))
  else failure "Failed to remove torrent" result.

Definition start_torrent (arguments : dict) : M (list types.TextContent) :=
  torrent_id <~ dict_getitem arguments "torrent_id" ;;
  result <- rpc "torrent-start" (Some [("ids", VList [torrent_id])]) ;;
  ok <~ is_success result ;;
  if ok then
    ret (text_content ("Torrent " ++ py_str torrent_id
                       ++ " started successfully"))
  else failure "Failed to start torrent" result.

Definition stop_torrent (arguments : dict) : M (list types.TextContent) :=
  torrent_id <~ dict_getitem arguments "torrent_id" ;;
  result <- rpc "torrent-stop" (Some [("ids", VList [torrent_id])]) ;;
  ok <~ is_success result ;;
  if ok then
    ret (text_content ("Torrent " ++ py_str torrent_id
                       ++ " stopped successfully"))
  else failure "Failed to stop torrent" result.

Definition info_fields : list value :=
  map VStr ["id"; "name"; "status"; "totalSize"; "percentDone";
            "rateDownload"; "rateUpload"; "uploadRatio"; "eta";
            "peersConnected"; "downloadDir"; "error"; "errorString";
            "addedDate"; "doneDate"; "trackerStats"; "files"; "fileStats";
            "pieces"; "pieceCount"; "pieceSize"].

(** The f-string [info] of [get_torrent_info], its fields evaluated from
    left to right. *)
Definition torrent_info_text (torrent : value) (status : string)
  : Res string :=
  rbind (py_get torrent "name" (VStr "N/A")) (fun name =>
  rbind (py_get torrent "id" (VStr "N/A")) (fun id =>
  rbind (py_get torrent "totalSize" (VInt 0)) (fun totalSize =>
  rbind (format_div 2 totalSize [1024; 1024]) (fun size =>
  rbind (py_get torrent "percentDone" (VInt 0)) (fun percentDone =>
  rbind (format_mul 1 percentDone 100) (fun progress =>
  rbind (py_get torrent "rateDownload" (VInt 0)) (fun rateDownload =>
  rbind (format_div 1 rateDownload [1024]) (fun down =>
  rbind (py_get torrent "rateUpload" (VInt 0)) (fun rateUpload =>
  rbind (format_div 1 rateUpload [1024]) (fun up =>
  rbind (py_get torrent "uploadRatio" (VInt 0)) (fun uploadRatio =>
  rbind (py_format_f 2 uploadRatio) (fun ratio =>
  rbind (py_get torrent "eta" (VInt (-1))) (fun eta_test =>
  rbind (if negb (py_eq_int eta_test (-1))
         then py_get torrent "eta" (VInt (-1))
         else Ok (VStr "Unknown")) (fun eta =>
  rbind (py_get torrent "peersConnected" (VInt 0)) (fun peers =>
  rbind (py_get torrent "downloadDir" (VStr "N/A")) (fun downloadDir =>
  Ok ("Torrent Information:" ++ nl
      ++ "Name: " ++ py_str name ++ nl
      ++ "ID: " ++ py_str id ++ nl
      ++ "Status: " ++ status ++ nl
      ++ "Size: " ++ size ++ " MB" ++ nl
      ++ "Progress: " ++ progress ++ "%" ++ nl
      ++ "Download Rate: " ++ down ++ " KB/s" ++ nl
      ++ "Upload Rate: " ++ up ++ " KB/s" ++ nl
      ++ "Ratio: " ++ ratio ++ nl
      ++ "ETA: " ++ py_str eta ++ " seconds" ++ nl
      ++ "Peers: " ++ py_str peers ++ nl
      ++ "Download Dir: " ++ py_str downloadDir ++ nl))))))))))))))))).

Definition get_torrent_info (arguments : dict)
  : M (list types.TextContent) :=
  torrent_id <~ dict_getitem arguments "torrent_id" ;;
  result <- rpc "torrent-get"
              (Some [("ids", VList [torrent_id]);
                     ("fields", VList info_fields)]) ;;
  ok <~ is_success result ;;
  if ok then
    a <~ py_get result "arguments" (VDict []) ;;
    torrents <~ py_get a "torrents" (VList []) ;;
    if py_truthy torrents then
      torrent <~ py_getitem_0 torrents ;;
      key <~ py_get torrent "status" (VInt 0) ;;
      status <~ status_name key ;;
      info <~ torrent_info_text torrent status ;;
      err <~ py_get torrent "error" VNone ;;
      info <- (if py_truthy err then
                 s <~ py_get torrent "errorString" (VStr "N/A") ;;
                 ret (info ++ "Error: " ++ py_str s ++ nl)
               else ret info) ;;
      ret (text_content info)
    else
      ret (text_content ("Torrent " ++ py_str torrent_id ++ " not found"))
  else failure "Failed to get torrent info" result.

Definition set_torrent_priority (arguments : dict)
  : M (list types.TextContent) :=
  torrent_id <~ dict_getitem arguments "torrent_id" ;;
  priority <~ dict_getitem arguments "priority" ;;
  priority_value <~ priority_value priority ;;
  result <- rpc "torrent-set"
              (Some [("ids", VList [torrent_id]);
                     ("bandwidthPriority", VInt priority_value)]) ;;
  ok <~ is_success result ;;
  if ok then
    ret (text_content ("Torrent " ++ py_str torrent_id
                       ++ " priority set to " ++ py_str priority))
  else failure "Failed to set priority" result.

(** One of the two [if "..._limit" in arguments:] blocks. *)
Definition add_limit (arguments : dict) (key enabled_key limit_key : string)
    (args : dict) : Res dict :=
  if dict_contains arguments key then
    rbind (dict_getitem arguments key) (fun limit =>
    rbind (py_gt_int limit 0) (fun enabled =>
    Ok (dict_set (dict_set args enabled_key (VBool enabled))
                 limit_key limit)))
  else Ok args.

Definition set_speed_limits (arguments : dict)
  : M (list types.TextContent) :=
  let args : dict := [] in
  args <~ add_limit arguments "download_limit"
            "speed-limit-down-enabled" "speed-limit-down" args ;;
  args <~ add_limit arguments "upload_limit"
            "speed-limit-up-enabled" "speed-limit-up" args ;;
  result <- rpc "session-set" (Some args) ;;
  ok <~ is_success result ;;
  if ok then ret (text_content "Speed limits updated successfully")
  else failure "Failed to set speed limits" result.

Definition search_fields : list value :=
  map VStr ["id"; "name"; "status"; "totalSize"; "percentDone";
            "rateDownload"; "rateUpload"].

(** The line [result_text] of one matching torrent. *)
Definition result_text (torrent : value) : Res string :=
  rbind (py_get torrent "status" (VInt 0)) (fun key =>
  rbind (status_name key) (fun status =>
  rbind (py_get torrent "id" VNone) (fun id =>
  rbind (py_get torrent "name" VNone) (fun name =>
  rbind (py_get torrent "percentDone" (VInt 0)) (fun percentDone =>
  rbind (format_mul 1 percentDone 100) (fun progress =>
  Ok ("ID: " ++ py_str id ++ " | " ++ py_str name ++ " | Status: "
      ++ status ++ " | Progress: " ++ progress ++ "%"))))))).

Definition search_torrents (arguments : dict)
  : M (list types.TextContent) :=
  q <~ dict_getitem arguments "query" ;;
  query <~ py_lower q ;;
  let status_filter := dict_get arguments "status_filter" (VStr "all") in
  result <- rpc "torrent-get" (Some [("fields", VList search_fields)]) ;;
  ok <~ is_success result ;;
  if ok then
    a <~ py_get result "arguments" (VDict []) ;;
    torrents <~ py_get a "torrents" (VList []) ;;
    items <~ py_iter torrents ;;
    matching_torrents <~ select_torrents query status_filter items ;;
    match matching_torrents with
    | _ :: _ =>
        results <~ map_res result_text matching_torrents ;;
        ret (text_content
               ("Found "
                ++ string_of_Z (Z.of_nat (length matching_torrents))
                ++ " matching torrents:" ++ nl ++ join nl results))
    | [] =>
        ret (text_content "No torrents found matching the search criteria")
    end
  else failure "Failed to search torrents" result.

(** The f-string [stats_text] of [get_session_stats]. *)
Definition stats_text (stats current cumulative : value) : Res string :=
  let field_div (d : value) (k : string) (digits : nat) (ds : list Z) :=
    rbind (py_get d k (VInt 0)) (fun v => format_div digits v ds) in
  let field (d : value) (k : string) :=
    rbind (py_get d k (VInt 0)) (fun v => Ok (py_str v)) in
  rbind (field_div current "downloadSpeed" 1%nat [1024]) (fun c_down =>
  rbind (field_div current "uploadSpeed" 1%nat [1024]) (fun c_up =>
  rbind (field_div current "downloadedBytes" 2%nat [1024; 1024]) (fun c_dl =>
  rbind (field_div current "uploadedBytes" 2%nat [1024; 1024]) (fun c_ul =>
  rbind (field current "filesAdded") (fun c_files =>
  rbind (field stats "activeTorrentCount") (fun active =>
  rbind (field stats "pausedTorrentCount") (fun paused =>
  rbind (field stats "torrentCount") (fun total =>
  rbind (field_div cumulative "downloadedBytes" 2%nat [1024; 1024; 1024])
        (fun t_dl =>
  rbind (field_div cumulative "uploadedBytes" 2%nat [1024; 1024; 1024])
        (fun t_ul =>
  rbind (field cumulative "filesAdded") (fun t_files =>
  rbind (field cumulative "sessionCount") (fun sessions =>
  rbind (field_div cumulative "secondsActive" 1%nat [3600]) (fun uptime =>
  Ok ("Transmission Session Statistics:" ++ nl
      ++ nl
      ++ "Current Session:" ++ nl
      ++ "- Download Speed: " ++ c_down ++ " KB/s" ++ nl
      ++ "- Upload Speed: " ++ c_up ++ " KB/s" ++ nl
      ++ "- Downloaded: " ++ c_dl ++ " MB" ++ nl
      ++ "- Uploaded: " ++ c_ul ++ " MB" ++ nl
      ++ "- Files Added: " ++ c_files ++ nl
      ++ "- Active Torrents: " ++ active ++ nl
      ++ "- Paused Torrents: " ++ paused ++ nl
      ++ "- Total Torrents: " ++ total ++ nl
      ++ nl
      ++ "Cumulative:" ++ nl
      ++ "- Downloaded: " ++ t_dl ++ " GB" ++ nl
      ++ "- Uploaded: " ++ t_ul ++ " GB" ++ nl
      ++ "- Files Added: " ++ t_files ++ nl
      ++ "- Sessions: " ++ sessions ++ nl
      ++ "- Uptime: " ++ uptime ++ " hours" ++ nl)))))))))))))).

Definition get_session_stats : M (list types.TextContent) :=
  result <- rpc "session-stats" None ;;
  ok <~ is_success result ;;
  if ok then
    stats <~ py_get result "arguments" (VDict []) ;;
    current <~ py_get stats "current-stats" (VDict []) ;;
    cumulative <~ py_get stats "cumulative-stats" (VDict []) ;;
    t <~ stats_text stats current cumulative ;;
    ret (text_content t)
  else failure "Failed to get session stats" result.

(** The [try] block of [handle_call_tool]: the [if]/[elif] chain on the
    tool name. *)
Definition dispatch (name : string) (arguments : dict)
  : M (list types.TextContent) :=
  if String.eqb name "add_torrent" then add_torrent arguments
  else if String.eqb name "remove_torrent" then remove_torrent arguments
  else if String.eqb name "start_torrent" then start_torrent arguments
  else if String.eqb name "stop_torrent" then stop_torrent arguments
  else if String.eqb name "get_torrent_info" then get_torrent_info arguments
  else if String.eqb name "set_torrent_priority"
    then set_torrent_priority arguments
  else if String.eqb name "set_speed_limits" then set_speed_limits arguments
  else if String.eqb name "search_torrents" then search_torrents arguments
  else if String.eqb name "get_session_stats" then get_session_stats
  else ret (text_content ("Unknown tool: " ++ name)).

(** [handle_call_tool]: the chain under [try], with
    [except Exception as e] turning the exception into a message (the
    [logger.error] line writes to the log only). *)
Definition handle_call_tool (name : string) (arguments : dict)
  : M (list types.TextContent) :=
  try_except (dispatch name arguments)
    [(Exception, fun e =>
        ret (text_content ("Error executing " ++ name ++ ": " ++ exc_msg e)))].

End Tools.

(** The names [handle_list_tools] declares. *)
Definition tool_names : list string :=
  ["add_torrent"; "remove_torrent"; "start_torrent"; "stop_torrent";
   "get_torrent_info"; "set_torrent_priority"; "set_speed_limits";
   "search_torrents"; "get_session_stats"].

(** A run of calls, one after the other, each on a client of its own
    choice (the token is a module global, shared by all clients). *)
Record Call : Type := mkCall {
  call_self : TransmissionClient;
  call_method : string;
  call_arguments : option dict;
  call_tag : option Z
}.

Definition run_call (cfg : Config) (net : Network) (c : Call) (w : World)
  : World :=
  snd (_make_request cfg net (call_self c) (call_method c) (call_arguments c)
         (call_tag c) w).

Definition run_calls (cfg : Config) (net : Network) (cs : list Call)
    (w : World) : World :=
  fold_left (fun w c => run_call cfg net c w) cs w.

(** The state when the module has just been loaded. *)
Definition initial_world : World := mkWorld None [].

(** ** Observations on a call

    What the properties below speak of: the POSTs a call added to the log,
    the daemon's replies to them, and the token a reply hands out. *)

(** The POSTs issued between two states of the world. *)
Definition issued (w w' : World) : list Request :=
  skipn (length (posts w)) (posts w').

(** The daemon's reply to the [n]-th POST (from 1) issued after [w]. *)
Definition reply_to (net : Network) (w w' : World) (n : nat) : Reply :=
  net (firstn (length (posts w) + n) (posts w')).

(** The token of a session challenge: the reply is a 409 whose
    session-id header holds a non-empty value. *)
Definition refreshed_token (rep : Reply) : option string :=
  match rep with
  | Responded r =>
      if status_code r =? 409 then
        match headers_get (resp_headers r) X_Session_Id with
        | Some t => if str_truthy t then Some t else None
        | None => None
        end
      else None
  | Failed _ => None
  end.

(** The request a call sends first from the state [w], and the one it
    sends again with the token [t]. *)
Definition first_request (cfg : Config) (self : TransmissionClient)
    (method : string) (arguments : option dict) (tag : option Z) (w : World)
  : Request :=
  mkRequest "POST" (url self) (VDict (build_payload method arguments tag))
    (initial_headers (transmission_session_id w)) (build_auth cfg) 30.

Definition retry_request (cfg : Config) (self : TransmissionClient)
    (method : string) (arguments : option dict) (tag : option Z) (w : World)
    (t : string) : Request :=
  mkRequest "POST" (url self) (VDict (build_payload method arguments tag))
    (dict_set (initial_headers (transmission_session_id w)) X_Session_Id t)
    (build_auth cfg) 30.

(** The exception a call raises for a network failure, and the one for a
    response outside 2xx. *)
Definition network_error (cause : string) : exc :=
  Exc Exception ("Network error: " ++ cause) None
    (Some (Exc RequestError cause None None)).

Definition http_error (r : Response) : exc :=
  Exc Exception
    ("HTTP error " ++ string_of_Z (status_code r) ++ ": " ++ text r) None
    (Some (Exc HTTPStatusError "" (Some r) None)).

(** What a call returns once [r] is the response it settles on. *)
Definition outcome (r : Response) : Res value :=
  if (200 <=? status_code r) && (status_code r <=? 299) then
    match json r with
    | inl v => Ok v
    | inr m => Raise (Exc JSONDecodeError m None None)
    end
  else Raise (http_error r).

(** A field of the JSON body of a request, and its session-id header. *)
Definition body_field (rq : Request) (k : string) : option value :=
  match req_json rq with
  | VDict d => assoc k d
  | _ => None
  end.

Definition session_header (rq : Request) : option string :=
  assoc X_Session_Id (req_headers rq).

(** What every request of a call on the module's client looks like, but
    for its session-id header. *)
Definition well_formed_request (cfg : Config) (method : string)
    (arguments : option dict) (rq : Request) : Prop :=
  req_method rq = "POST"
  /\ req_url rq = "http://" ++ TRANSMISSION_HOST cfg ++ ":"
                  ++ string_of_Z (TRANSMISSION_PORT cfg)
                  ++ "/transmission/rpc"
  /\ assoc "Content-Type" (req_headers rq) = Some "application/json"
  /\ body_field rq "method" = Some (VStr method)
  /\ body_field rq "arguments"
     = Some (VDict (match arguments with Some d => d | None => [] end))
  /\ forall u p,
       req_auth rq = Some (u, p) <->
       TRANSMISSION_USERNAME cfg = Some u /\ TRANSMISSION_PASSWORD cfg = Some p
       /\ u <> "" /\ p <> "".

(** The stored token is never the empty string: it starts as [None] and
    only a non-empty header value is ever stored. *)
Definition token_ok (w : World) : Prop :=
  transmission_session_id w <> Some "".

(** No reply to a log that extends [log0] is a session challenge. *)
Definition no_challenge_after (net : Network) (log0 : list Request) : Prop :=
  forall more, refreshed_token (net (log0 ++ more)%list) = None.


(** An exception that [except Exception] catches. *)
Definition catchable (e : exc) : Prop := isinstance e Exception = true.

Definition res_catchable {A} (r : Res A) : Prop :=
  match r with
  | Ok _ => True
  | Raise e => catchable e
  end.

Definition raises_catchable {A} (m : M A) : Prop :=
  forall w, res_catchable (fst (m w)).

(** ** Sample inputs *)

Module Sample.

Definition cfg : Config := mkConfig "localhost" 9091 None None.

Definition cfg_auth : Config :=
  mkConfig "nas.local" 9091 (Some "admin") (Some "secret").

(** Floats as [<mantissa>p<exponent>], strings in single quotes. *)
#[global] Instance renderer : Renderer := {|
  float_repr := fun f =>
    match f with
    | S754_zero s => if s then "-0.0" else "0.0"
    | S754_infinity s => if s then "-inf" else "inf"
    | S754_nan => "nan"
    | S754_finite s m e =>
        (if s then "-" else "") ++ string_of_Z (Z.pos m) ++ "p"
        ++ string_of_Z e
    end;
  str_repr := fun s => "'" ++ s ++ "'"
|}.

Definition torrents : list value :=
  [VDict [("id", VInt 1); ("name", VStr "Ubuntu ISO"); ("status", VInt 6)];
   VDict [("id", VInt 2); ("name", VStr "debian"); ("status", VInt 4)]].

Definition success_body : value :=
  VDict [("result", VStr "success");
         ("arguments", VDict [("torrents", VList torrents)])].

Definition ok_response : Response :=
  mkResponse 200 [] "{}" (inl success_body).

Definition challenge : Response :=
  mkResponse 409 [("X-Transmission-Session-Id", "abc123")] "Conflict"
    (inr "Expecting value: line 1 column 1 (char 0)").

Definition bare_409 : Response :=
  mkResponse 409 [] "Conflict"
    (inr "Expecting value: line 1 column 1 (char 0)").

Definition server_error : Response :=
  mkResponse 500 [] "Internal Server Error"
    (inr "Expecting value: line 1 column 1 (char 0)").

(** Scenario 1: the daemon answers 200 at once. *)
Definition net_ok : Network := fun _ => Responded ok_response.

(** Scenario 2: a challenge to the first request, 200 afterwards. *)
Definition net_challenge : Network := fun log =>
  match log with
  | [_] => Responded challenge
  | _ => Responded ok_response
  end.

(** Scenario 3: 409 with no session header. *)
Definition net_bare_409 : Network := fun _ => Responded bare_409.

(** Scenario 4: connection refused. *)
Definition net_refused : Network := fun _ => Failed "Connection refused".

Definition net_500 : Network := fun _ => Responded server_error.

(** A challenge to every request. *)
Definition net_always_409 : Network := fun _ => Responded challenge.

Definition client : TransmissionClient := transmission_client cfg.

(** One call, [session-get] with no arguments and no tag, on the
    freshly loaded module. *)
Definition run (net : Network) : Res value * World :=
  _make_request cfg net client "session-get" None None initial_world.

End Sample.

(** ** Resources

    [handle_list_resources] and [handle_read_resource]. *)

Record Resource : Type := mkResource {
  uri : string;
  resource_name : string;
  resource_description : string;
  mimeType : string
}.

Definition handle_list_resources : list Resource :=
  [mkResource "transmission://session" "Transmission Session Info"
     "Current Transmission session information and statistics"
     "application/json";
   mkResource "transmission://torrents" "All Torrents"
     "List of all torrents in Transmission" "application/json";
   mkResource "transmission://stats" "Transmission Statistics"
     "Transmission session statistics" "application/json"].

(** *** [json.dumps(v, indent=2)]

    Strings are written with [ensure_ascii]: the quote, the backslash and
    every character outside the printable ASCII range are escaped
    (characters are taken as code points below 256). *)

Definition dquote : string := String (ascii_of_N 34) EmptyString.

Definition hex_digit (n : N) : ascii :=
  if (n <? 10)%N then ascii_of_N (48 + n) else ascii_of_N (87 + n).

Definition json_escape (c : ascii) : string :=
  let n := N_of_ascii c in
  if (n =? 34)%N then "\" ++ dquote
  else if (n =? 92)%N then "\\"
  else if (n =? 10)%N then "\n"
  else if (n =? 13)%N then "\r"
  else if (n =? 9)%N then "\t"
  else if (n =? 8)%N then "\b"
  else if (n =? 12)%N then "\f"
  else if (n <? 32)%N || (126 <? n)%N then
    "\u00" ++ String (hex_digit (n / 16))
                (String (hex_digit (n mod 16)) EmptyString)
  else String c EmptyString.

Fixpoint json_escape_all (s : string) : string :=
  match s with
  | EmptyString => EmptyString
  | String c s' => json_escape c ++ json_escape_all s'
  end.

Definition json_string (s : string) : string :=
  dquote ++ json_escape_all s ++ dquote.

Definition indent (level : nat) : string := repeat_string level "  ".

Section Json.

Context {R : Renderer}.

(** A float: [NaN], [Infinity] and [-Infinity] by name, any other by its
    [repr]. *)
Definition json_float (f : spec_float) : string :=
  match f with
  | S754_nan => "NaN"
  | S754_infinity false => "Infinity"
  | S754_infinity true => "-Infinity"
  | _ => float_repr f
  end.

(** The text of [v] when it stands at nesting depth [level]. *)
Fixpoint json_dumps_at (level : nat) (v : value) : string :=
  match v with
  | VNone => "null"
  | VBool true => "true"
  | VBool false => "false"
  | VInt z => string_of_Z z
  | VFloat f => json_float f
  | VStr s => json_string s
  | VList [] => "[]"
  | VList l =>
      "[" ++ nl ++ indent (S level)
      ++ join ("," ++ nl ++ indent (S level))
           (map (json_dumps_at (S level)) l)
      ++ nl ++ indent level ++ "]"
  | VDict [] => "{}"
  | VDict d =>
      "{" ++ nl ++ indent (S level)
      ++ join ("," ++ nl ++ indent (S level))
           (map (fun kv => json_string (fst kv) ++ ": "
                           ++ json_dumps_at (S level) (snd kv)) d)
      ++ nl ++ indent level ++ "}"
  end.

Definition json_dumps (v : value) : string := json_dumps_at 0 v.

End Json.

Definition torrent_fields : list value :=
  map VStr ["id"; "name"; "status"; "totalSize"; "percentDone";
            "rateDownload"; "rateUpload"; "uploadRatio"; "eta";
            "peersConnected"; "downloadDir"; "error"; "errorString";
            "addedDate"; "doneDate"; "trackerStats"].

Section Resources.

Context {R : Renderer}.
Variable cfg : Config.
Variable net : Network.

(** [json.dumps(result.get("arguments", {}), indent=2)] *)
Definition dump_arguments (result : value) : M string :=
  a <~ py_get result "arguments" (VDict []) ;;
  ret (json_dumps a).

(** The [try] block of [handle_read_resource]. *)
Definition read_resource (uri : string) : M string :=
  if String.eqb uri "transmission://session" then
    result <- rpc cfg net "session-get" None ;;
    dump_arguments result
  else if String.eqb uri "transmission://torrents" then
    result <- rpc cfg net "torrent-get"
                (Some [("fields", VList torrent_fields)]) ;;
    dump_arguments result
  else if String.eqb uri "transmission://stats" then
    result <- rpc cfg net "session-stats" None ;;
    dump_arguments result
  else raise (Exc ValueError ("Unknown resource: " ++ uri) None None).

(** [handle_read_resource]: [except Exception as e] answers with the
    message. *)
Definition handle_read_resource (uri : string) : M string :=
  try_except (read_resource uri)
    [(Exception, fun e =>
        ret ("Error reading resource " ++ uri ++ ": " ++ exc_msg e))].

End Resources.

(** ** The tool catalogue: [handle_list_tools] *)

Record Tool : Type := mkTool {
  tool_name : string;
  tool_description : string;
  inputSchema : value
}.

(** [{"type": "object", "properties": {...}, "required": [...]}]; the
    [required] entry is left out of the schema when [required] is
    [None]. *)
Definition object_schema (properties : dict) (required : option (list string))
  : value :=
  VDict ([("type", VStr "object"); ("properties", VDict properties)]
         ++ match required with
            | Some ks => [("required", VList (map VStr ks))]
            | None => []
            end)%list.

(** [{"type": ty, "description": d}] *)
Definition property (ty description : string) : value :=
  VDict [("type", VStr ty); ("description", VStr description)].

Definition torrent_id_property (description : string) : string * value :=
  ("torrent_id", property "integer" description).

Definition handle_list_tools : list Tool :=
  [mkTool "add_torrent" "Add a new torrent by URL or magnet link"
     (object_schema
        [("url", property "string"
                   "Torrent URL, magnet link, or base64-encoded .torrent file");
         ("download_dir", property "string" "Download directory (optional)");
         ("paused",
          VDict [("type", VStr "boolean");
                 ("description",
                  VStr "Start paused (optional, default false)");
                 ("default", VBool false)])]
        (Some ["url"]));
   mkTool "remove_torrent" "Remove a torrent by ID"
     (object_schema
        [torrent_id_property "Torrent ID to remove";
         ("delete_local_data",
          VDict [("type", VStr "boolean");
                 ("description",
                  VStr "Also delete local data (default false)");
                 ("default", VBool false)])]
        (Some ["torrent_id"]));
   mkTool "start_torrent" "Start/resume a torrent by ID"
     (object_schema [torrent_id_property "Torrent ID to start"]
        (Some ["torrent_id"]));
   mkTool "stop_torrent" "Stop/pause a torrent by ID"
     (object_schema [torrent_id_property "Torrent ID to stop"]
        (Some ["torrent_id"]));
   mkTool "get_torrent_info"
     "Get detailed information about a specific torrent"
     (object_schema [torrent_id_property "Torrent ID to get info for"]
        (Some ["torrent_id"]));
   mkTool "set_torrent_priority" "Set download priority for a torrent"
     (object_schema
        [torrent_id_property "Torrent ID";
         ("priority",
          VDict [("type", VStr "string");
                 ("enum", VList [VStr "high"; VStr "normal"; VStr "low"]);
                 ("description", VStr "Priority level")])]
        (Some ["torrent_id"; "priority"]));
   mkTool "set_speed_limits" "Set global download/upload speed limits"
     (object_schema
        [("download_limit",
          property "integer" "Download speed limit in KB/s (0 = unlimited)");
         ("upload_limit",
          property "integer" "Upload speed limit in KB/s (0 = unlimited)")]
        None);
   mkTool "search_torrents" "Search torrents by name"
     (object_schema
        [("query", property "string" "Search query (torrent name)");
         ("status_filter",
          VDict [("type", VStr "string");
                 ("enum", VList [VStr "all"; VStr "downloading";
                                 VStr "seeding"; VStr "paused";
                                 VStr "completed"]);
                 ("description", VStr "Filter by status (optional)");
                 ("default", VStr "all")])]
        (Some ["query"]));
   mkTool "get_session_stats" "Get Transmission session statistics"
     (object_schema [] None)].

(** *** Reading a schema *)

(** The keys of the schema's [required] list; none when it has no such
    entry. *)
Definition required_keys (t : Tool) : list string :=
  match inputSchema t with
  | VDict s =>
      match assoc "required" s with
      | Some (VList ks) =>
          flat_map (fun k => match k with VStr k' => [k'] | _ => [] end) ks
      | _ => []
      end
  | _ => []
  end.

(** The declared [type] of the property [k]. *)
Definition property_type (t : Tool) (k : string) : option string :=
  match inputSchema t with
  | VDict s =>
      match assoc "properties" s with
      | Some (VDict ps) =>
          match assoc k ps with
          | Some (VDict p) =>
              match assoc "type" p with
              | Some (VStr ty) => Some ty
              | _ => None
              end
          | _ => None
          end
      | _ => None
      end
  | _ => None
  end.

(** A value of a declared type: a string, an integer that is not a
    boolean, a boolean. *)
Definition has_type (ty : string) (v : value) : bool :=
  if String.eqb ty "string" then match v with VStr _ => true | _ => false end
  else if String.eqb ty "integer" then
    match v with VInt _ => true | _ => false end
  else if String.eqb ty "boolean" then
    match v with VBool _ => true | _ => false end
  else true.

(** The arguments hold every required key, and each argument that the
    schema declares has the declared type. *)
Definition conforms (t : Tool) (arguments : dict) : Prop :=
  (forall k, In k (required_keys t) -> assoc k arguments <> None)
  /\ (forall k v ty,
        assoc k arguments = Some v -> property_type t k = Some ty ->
        has_type ty v = true).

(** The RPC method behind each tool: the literal its branch passes to
    [_make_request]. *)
Definition tool_methods : list (string * string) :=
  [("add_torrent", "torrent-add"); ("remove_torrent", "torrent-remove");
   ("start_torrent", "torrent-start"); ("stop_torrent", "torrent-stop");
   ("get_torrent_info", "torrent-get");
   ("set_torrent_priority", "torrent-set");
   ("set_speed_limits", "session-set"); ("search_torrents", "torrent-get");
   ("get_session_stats", "session-stats")].

(** The text each tool puts before the daemon's [result] when that is not
    ["success"]: the literal of its [else] branch. *)
Definition failure_texts : list (string * string) :=
  [("add_torrent", "Failed to add torrent");
   ("remove_torrent", "Failed to remove torrent");
   ("start_torrent", "Failed to start torrent");
   ("stop_torrent", "Failed to stop torrent");
   ("get_torrent_info", "Failed to get torrent info");
   ("set_torrent_priority", "Failed to set priority");
   ("set_speed_limits", "Failed to set speed limits");
   ("search_torrents", "Failed to search torrents");
   ("get_session_stats", "Failed to get session stats")].

(** The RPC method behind each resource. *)
Definition resource_methods : list (string * string) :=
  [("transmission://session", "session-get");
   ("transmission://torrents", "torrent-get");
   ("transmission://stats", "session-stats")].

(** A computation that leaves the world as it finds it. *)
Definition pure_M {A} (m : M A) : Prop := forall w, snd (m w) = w.

(** The world after [m] is the world [w] untouched, or the world after one
    call of [_make_request] on the module's client, with the method
    [method], some arguments and no tag. *)
Definition one_rpc_or_none (cfg : Config) (net : Network) (method : string)
    (w w' : World) : Prop :=
  w' = w
  \/ exists arguments,
       w' = snd (_make_request cfg net (transmission_client cfg) method
                   arguments None w).

(** The daemon handed out the token [t] in a session challenge, in reply
    to one of the requests of [log]. *)
Definition daemon_issued (net : Network) (log : list Request) (t : string)
  : Prop :=
  exists k, (k <= length log)%nat
            /\ refreshed_token (net (firstn k log)) = Some t.

(** Whatever the state it starts from, [m] issues one RPC call of the
    method [method] or none. *)
Definition one_rpc_M {A} (cfg : Config) (net : Network) (method : string)
    (m : M A) : Prop :=
  forall w, one_rpc_or_none cfg net method w (snd (m w)).

(** The fields [set_speed_limits] sends for one limit. *)
Definition limit_fields (enabled_key limit_key : string) (limit : option Z)
  : dict :=
  match limit with
  | Some n => [(enabled_key, VBool (0 <? n)); (limit_key, VInt n)]
  | None => []
  end.

(** ** The connectivity script: [test_transmission] of [test-transmission.py]

    The script prints as it goes, and what it has printed stays printed
    when an exception ends the [try] block: the state of a run is the
    output so far together with the world.  The host and the port are the
    two environment variables the server module has read. *)

Record Run : Type := mkRun {
  (** the texts written to the standard output, one per [print], oldest
      first *)
  printed : list string;
  world : World
}.

Definition Script (A : Type) : Type := Run -> Res A * Run.

Definition sret {A} (a : A) : Script A := fun r => (Ok a, r).

Definition sbind {A B} (m : Script A) (k : A -> Script B) : Script B :=
  fun r => match m r with
           | (Ok a, r') => k a r'
           | (Raise e, r') => (Raise e, r')
           end.

(** [print(s)] *)
Definition py_print (s : string) : Script unit :=
  fun r => (Ok tt, mkRun (printed r ++ [s])%list (world r)).

(** [await m]: a computation on the world; it prints nothing. *)
Definition await {A} (m : M A) : Script A :=
  fun r => let (res, w') := m (world r) in (res, mkRun (printed r) w').

(** A pure computation that may raise. *)
Definition slift {A} (x : Res A) : Script A := fun r => (x, r).

(** [try: m  except Exception as e: h(e)] *)
Definition try_except_Exception {A} (m : Script A) (h : exc -> Script A)
  : Script A :=
  fun r => match m r with
           | (Ok a, r') => (Ok a, r')
           | (Raise e, r') =>
               if isinstance e Exception then h e r' else (Raise e, r')
           end.

Declare Scope script_scope.
Delimit Scope script_scope with script.
Notation "x <- m ;; k" := (sbind m (fun x => k))
  (at level 100, m at next level, right associativity) : script_scope.
Notation "m ;;; k" := (sbind m (fun _ => k))
  (at level 100, right associativity) : script_scope.
Notation "x <~ r ;; k" := (sbind (slift r) (fun x => k))
  (at level 100, r at next level, right associativity) : script_scope.

(** [len(v)]; the length of a string counts its characters. *)
Definition py_len (v : value) : Res Z :=
  match v with
  | VList l => Ok (Z.of_nat (length l))
  | VStr s => Ok (Z.of_nat (String.length s))
  | VDict d => Ok (Z.of_nat (length d))
  | _ => error TypeError ("object of type '" ++ type_name v ++ "' has no len()")
  end.

(** [v[:3]] *)
Definition py_slice_to_3 (v : value) : Res value :=
  match v with
  | VList l => Ok (VList (firstn 3 l))
  | VStr s => Ok (VStr (substring 0 3 s))
  | VDict _ => error TypeError "unhashable type: 'slice'"
  | _ => error TypeError ("'" ++ type_name v ++ "' object is not subscriptable")
  end.

Definition test_fields : list value :=
  map VStr ["id"; "name"; "status"; "totalSize"; "percentDone"].

(** The three calls of the script, in the order it makes them. *)
Definition test_calls (cfg : Config) : list Call :=
  let client := new_client (TRANSMISSION_URL cfg) in
  [mkCall client "session-get" None None;
   mkCall client "torrent-get" (Some [("fields", VList test_fields)]) None;
   mkCall client "session-stats" None None].

(** The lines the [except] clause prints after the error itself. *)
Definition help_lines (cfg : Config) : list string :=
  ["Please check:";
   "- Transmission daemon is running on " ++ TRANSMISSION_HOST cfg ++ ":"
   ++ string_of_Z (TRANSMISSION_PORT cfg);
   "- RPC is enabled in Transmission settings";
   "- Network connectivity to the server";
   "- Set TRANSMISSION_HOST and TRANSMISSION_PORT environment variables if needed"].

Section Script.

Context {R : Renderer}.
Variable cfg : Config.
Variable net : Network.

Local Open Scope script_scope.

(** The text of one torrent in the [for] loop: [status] is looked up
    first, then the f-string is filled from left to right. *)
Definition torrent_line (i : Z) (torrent : value) : Res string :=
  rbind (py_get torrent "status" (VInt 0)) (fun key =>
  rbind (status_name key) (fun status =>
  rbind (py_get torrent "name" (VStr "N/A")) (fun name =>
  rbind (py_get torrent "percentDone" (VInt 0)) (fun percentDone =>
  rbind (format_mul 1 percentDone 100) (fun progress =>
  Ok ("  " ++ string_of_Z (i + 1) ++ ". " ++ py_str name ++ " - " ++ status
      ++ " - " ++ progress ++ "%")))))).

(** [for i, torrent in enumerate(items): ... print(...)], from the index
    [i] on. *)
Fixpoint print_torrents (i : Z) (items : list value) : Script unit :=
  match items with
  | [] => sret tt
  | torrent :: rest =>
      line <~ torrent_line i torrent ;;
      py_print line ;;;
      print_torrents (i + 1) rest
  end.

Definition test_transmission : Script unit :=
  let host := TRANSMISSION_HOST cfg in
  let port := TRANSMISSION_PORT cfg in
  let url := "http://" ++ host ++ ":" ++ string_of_Z port
             ++ "/transmission/rpc" in
  py_print ("Testing connection to: " ++ url) ;;;
  let client := new_client url in
  try_except_Exception
    (py_print "Testing Transmission connection..." ;;;
     result <- await (_make_request cfg net client "session-get" None None) ;;
     py_print "✅ Session connection successful!" ;;;
     py_print ("Session ID obtained: "
               ++ py_str (VBool (match session_id client with
                                 | Some _ => true
                                 | None => false
                                 end))) ;;;
     result <- await (_make_request cfg net client "torrent-get"
                        (Some [("fields", VList test_fields)]) None) ;;
     a <~ py_get result "arguments" (VDict []) ;;
     torrents <~ py_get a "torrents" (VList []) ;;
     n <~ py_len torrents ;;
     py_print ("✅ Found " ++ string_of_Z n ++ " torrents") ;;;
     first <~ py_slice_to_3 torrents ;;
     items <~ py_iter first ;;
     print_torrents 0 items ;;;
     result <- await (_make_request cfg net client "session-stats" None None) ;;
     stats <~ py_get result "arguments" (VDict []) ;;
     py_print "✅ Session stats retrieved" ;;;
     active <~ py_get stats "activeTorrentCount" (VInt 0) ;;
     py_print ("  Active torrents: " ++ py_str active) ;;;
     total <~ py_get stats "torrentCount" (VInt 0) ;;
     py_print ("  Total torrents: " ++ py_str total) ;;;
     py_print (nl ++ "🎉 All tests passed! Transmission MCP server should work correctly."))
    (fun e =>
       py_print ("❌ Error testing Transmission connection: " ++ exc_msg e) ;;;
       py_print "Please check:" ;;;
       py_print ("- Transmission daemon is running on " ++ host ++ ":"
                 ++ string_of_Z port) ;;;
       py_print "- RPC is enabled in Transmission settings" ;;;
       py_print "- Network connectivity to the server" ;;;
       py_print "- Set TRANSMISSION_HOST and TRANSMISSION_PORT environment variables if needed").

End Script.

(** What a run of the script has printed since [r]. *)
Definition output (r r' : Run) : list string :=
  skipn (length (printed r)) (printed r').

(** The state in which the script starts: nothing printed, the module just
    loaded. *)
Definition initial_run : Run := mkRun [] initial_world.

(** *** What the properties of the script speak of *)

(** Every exception of [m] derives from [Exception]. *)
Definition script_catchable {A} (m : Script A) : Prop :=
  forall r, res_catchable (fst (m r)).

(** [m] issues no request and stores no token. *)
Definition keeps_world {A} (m : Script A) : Prop :=
  forall r, world (snd (m r)) = world r.

(** [m] only adds to the output. *)
Definition extends_output {A} (m : Script A) : Prop :=
  forall r, exists out, printed (snd (m r)) = (printed r ++ out)%list.

(** The world after [m] is the world after the first [k] calls of [cs],
    for some [k] from [lo] on. *)
Definition calls_made (cfg : Config) (net : Network) {A} (lo : nat)
    (cs : list Call) (m : Script A) : Prop :=
  forall r, exists k,
    (lo <= k)%nat
    /\ world (snd (m r)) = run_calls cfg net (firstn k cs) (world r).

(** [m] adds at most [n] texts to the output when it returns; when it
    raises it has added at most [n'] of them, and with [None] it does not
    raise. *)
Definition prints_at_most {A} (n : nat) (o : option nat) (m : Script A)
  : Prop :=
  forall r, exists out,
    printed (snd (m r)) = (printed r ++ out)%list
    /\ match fst (m r), o with
       | Ok _, _ => (length out <= n)%nat
       | Raise _, Some n' => (length out <= n')%nat
       | Raise _, None => False
       end.

(** The bound on what a script has printed when it raises; 0 for a
    script that does not raise. *)
Definition bound_or_0 (o : option nat) : nat :=
  match o with Some n => n | None => 0%nat end.

(** A request of one of the three methods that only read. *)
Definition reads_only (rq : Request) : Prop :=
  exists m, In m ["session-get"; "torrent-get"; "session-stats"]
            /\ body_field rq "method" = Some (VStr m).

(** ** More sample inputs *)

Module Samples.

(** A 200 whose body is a web page. *)
Definition html_page : Response :=
  mkResponse 200 [("Content-Type", "text/html")] "<html></html>"
    (inr "Expecting value: line 1 column 1 (char 0)").

Definition net_html : Network := fun _ => Responded html_page.

(** A 409 whose session-id header is empty. *)
Definition empty_challenge : Response :=
  mkResponse 409 [("X-Transmission-Session-Id", "")] "Conflict"
    (inr "Expecting value: line 1 column 1 (char 0)").

Definition net_empty_challenge : Network :=
  fun _ => Responded empty_challenge.

Definition session_get : Call :=
  mkCall Sample.client "session-get" None None.

Definition torrent_get : Call :=
  mkCall Sample.client "torrent-get"
    (Some [("fields", VList [VStr "id"; VStr "name"])]) (Some 7).

(** The daemon answers every request with the success body whose
    [result] is [msg] and whose [arguments] are [args]. *)
Definition net_result (msg : string) (args : dict) : Network :=
  fun _ =>
    Responded
      (mkResponse 200 [] "{}"
         (inl (VDict [("result", VStr msg); ("arguments", VDict args)]))).

(** The catalogue entry of [set_torrent_priority], and arguments that fit
    its schema. *)
Definition priority_tool : Tool :=
  nth 5 handle_list_tools (mkTool "" "" VNone).

Definition priority_arguments : dict :=
  [("torrent_id", VInt 3); ("priority", VStr "high")].

(** A 200 whose JSON body is a list, not an object. *)
Definition net_list : Network :=
  fun _ => Responded (mkResponse 200 [] "[]" (inl (VList []))).

(** Two entries of [handle_list_resources]. *)
Definition torrents_resource : Resource :=
  nth 1 handle_list_resources (mkResource "" "" "" "").

Definition stats_resource : Resource :=
  nth 2 handle_list_resources (mkResource "" "" "" "").

(** The daemon reports a torrent it has just added. *)
Definition net_added : Network :=
  net_result "success"
    [("torrent-added",
      VDict [("id", VInt 5); ("name", VStr "debian.iso");
             ("hashString", VStr "abc")])].




End Samples.

(** * Properties *)

(** ** The log *)

Lemma issued_app (w : World) (sid : option string) (new : list Request) :
  issued w (mkWorld sid (posts w ++ new)%list) = new.
Proof.
  unfold issued; simpl.
  rewrite skipn_app, skipn_all, Nat.sub_diag; reflexivity.
Qed.

Lemma reply_to_app (net : Network) (w : World) (sid : option string)
    (new : list Request) (n : nat) :
  reply_to net w (mkWorld sid (posts w ++ new)%list) n
  = net (posts w ++ firstn n new)%list.
Proof.
  unfold reply_to; simpl.
  rewrite firstn_app, firstn_all2 by lia.
  replace (length (posts w) + n - length (posts w))%nat with n by lia.
  reflexivity.
Qed.

(** ** One call, case by case

    [_make_request] unfolded into the replies it meets: a failure of the
    first POST, a first response that is no session challenge, or a
    challenge followed by the second POST. *)

Section ClientFacts.

Variable cfg : Config.
Variable net : Network.
Variable self : TransmissionClient.
Variable method : string.
Variable arguments : option dict.
Variable tag : option Z.
Variable w : World.

Let r1 := first_request cfg self method arguments tag w.
Let r2 := retry_request cfg self method arguments tag w.
Let sid := transmission_session_id w.

Lemma make_request_cases :
  _make_request cfg net self method arguments tag w =
  match net (posts w ++ [r1])%list with
  | Failed cause =>
      (Raise (network_error cause), mkWorld sid (posts w ++ [r1])%list)
  | Responded resp =>
      match refreshed_token (Responded resp) with
      | None => (outcome resp, mkWorld sid (posts w ++ [r1])%list)
      | Some t =>
          let w2 := mkWorld (Some t) (posts w ++ [r1; r2 t])%list in
          match net (posts w ++ [r1; r2 t])%list with
          | Failed cause => (Raise (network_error cause), w2)
          | Responded resp2 => (outcome resp2, w2)
          end
      end
  end.
Proof.
  unfold r1, r2, sid, first_request, retry_request.
  cbv beta iota zeta delta
    [_make_request try_except bind get_session_id client_post
     set_session_id ret raise raise_for_status response_json outcome
     refreshed_token select_handler network_error http_error].
  cbn [posts transmission_session_id].
  destruct (net (posts w ++ [_])%list) as [resp | cause];
    [ | reflexivity ].
  destruct (status_code resp =? 409).
  - destruct (headers_get (resp_headers resp) X_Session_Id) as [t | ].
    + destruct (str_truthy t).
      * cbn [posts transmission_session_id]. rewrite <- !app_assoc. cbn [app].
        destruct (net (posts w ++ [_; _])%list) as [resp2 | cause];
          [ | reflexivity ].
        destruct ((200 <=? status_code resp2) && (status_code resp2 <=? 299));
          [ destruct (json resp2) | ]; reflexivity.
      * destruct ((200 <=? status_code resp) && (status_code resp <=? 299));
          [ destruct (json resp) | ]; reflexivity.
    + destruct ((200 <=? status_code resp) && (status_code resp <=? 299));
        [ destruct (json resp) | ]; reflexivity.
  - destruct ((200 <=? status_code resp) && (status_code resp <=? 299));
      [ destruct (json resp) | ]; reflexivity.
Qed.

End ClientFacts.

(** Splits a call into the cases of [make_request_cases] and rewrites the
    observations on its log. *)
Ltac call_cases H :=
  rewrite make_request_cases in H; cbv zeta in H;
  let E1 := fresh "E1" in
  let Et := fresh "Et" in
  let E2 := fresh "E2" in
  match type of H with
  | context [match ?n (?l ++ [?r1])%list with _ => _ end] =>
      destruct (n (l ++ [r1])%list) eqn:E1 in H;
      [ match type of H with
        | context [match refreshed_token ?rep with _ => _ end] =>
            destruct (refreshed_token rep) eqn:Et in H;
            [ match type of H with
              | context [match n ?l2 with _ => _ end] =>
                  destruct (n l2) eqn:E2 in H
              end | ]
        end | ]
  end;
  inversion H; subst; clear H;
  rewrite ?issued_app, ?reply_to_app in *;
  cbn [firstn app length transmission_session_id posts] in *.

Lemma refreshed_token_Some (r : Response) (t : string) :
  refreshed_token (Responded r) = Some t <->
  status_code r = 409 /\ headers_get (resp_headers r) X_Session_Id = Some t
  /\ t <> "".
Proof.
  unfold refreshed_token.
  destruct (Z.eqb_spec (status_code r) 409) as [E | E].
  - destruct (headers_get (resp_headers r) X_Session_Id) as [t' | ].
    + destruct t' as [ | c t'']; cbn [str_truthy].
      * split; [ discriminate | ]. intros (_ & Ht & Hne). congruence.
      * split.
        -- intros H; inversion H; subst. repeat split; auto; discriminate.
        -- intros (_ & Ht & _). congruence.
    + split; [ discriminate | ]. intros (_ & Ht & _). discriminate.
  - split; [ discriminate | ]. intros (H & _). contradiction.
Qed.

Lemma refreshed_token_not_409 (r : Response) :
  status_code r <> 409 -> refreshed_token (Responded r) = None.
Proof.
  intros H. unfold refreshed_token.
  destruct (Z.eqb_spec (status_code r) 409); [ contradiction | reflexivity ].
Qed.

Lemma refreshed_token_no_header (r : Response) :
  headers_get (resp_headers r) X_Session_Id = None ->
  refreshed_token (Responded r) = None.
Proof.
  intros H. unfold refreshed_token. rewrite H.
  destruct (status_code r =? 409); reflexivity.
Qed.

Lemma outcome_409 (r : Response) :
  status_code r = 409 -> outcome r = Raise (http_error r).
Proof. intros H. unfold outcome. rewrite H. reflexivity. Qed.

Lemma http_error_409 (r : Response) :
  status_code r = 409 ->
  http_error r =
  Exc Exception ("HTTP error 409: " ++ text r) None
    (Some (Exc HTTPStatusError "" (Some r) None)).
Proof. intros H. unfold http_error. rewrite H. reflexivity. Qed.

(** ** The 409 handshake *)

(** C1, as the code has it.  When the first response is a 409 that carries
    no session-id header, the call raises the plain [Exception] of every
    HTTP status failure, with the message ["HTTP error 409: "] followed by
    the response text; it has issued that one POST only, and the stored
    token is as it was. *)
Theorem bare_409_raises_http_error
    (cfg : Config) (net : Network) (self : TransmissionClient)
    (method : string) (arguments : option dict) (tag : option Z)
    (w w' : World) (res : Res value) (r : Response) :
  _make_request cfg net self method arguments tag w = (res, w') ->
  reply_to net w w' 1 = Responded r ->
  status_code r = 409 ->
  headers_get (resp_headers r) X_Session_Id = None ->
  res = Raise (Exc Exception ("HTTP error 409: " ++ text r) None
                 (Some (Exc HTTPStatusError "" (Some r) None)))
  /\ length (issued w w') = 1%nat
  /\ transmission_session_id w' = transmission_session_id w.
Proof.
  intros H H1 H409 Hh.
  pose proof (refreshed_token_no_header r Hh) as Hnone.
  call_cases H.
  - rewrite H1 in E1. inversion E1; subst. congruence.
  - rewrite H1 in E1. inversion E1; subst. congruence.
  - rewrite H1 in E1. inversion E1; subst.
    rewrite outcome_409, http_error_409 by assumption. auto.
  - congruence.
Qed.

(** C3.  One call issues exactly one POST when its first response is not
    a 409, and exactly two when the first response is a 409 that carries a
    token (a non-empty session-id header), whatever becomes of the second;
    there is never a third, and a second 409 is raised as an error. *)
Theorem post_count
    (cfg : Config) (net : Network) (self : TransmissionClient)
    (method : string) (arguments : option dict) (tag : option Z)
    (w w' : World) (res : Res value) :
  _make_request cfg net self method arguments tag w = (res, w') ->
  posts w' = (posts w ++ issued w w')%list
  /\ (1 <= length (issued w w') <= 2)%nat
  /\ (forall r, reply_to net w w' 1 = Responded r -> status_code r <> 409 ->
      length (issued w w') = 1%nat)
  /\ (forall r t,
      reply_to net w w' 1 = Responded r -> status_code r = 409 ->
      headers_get (resp_headers r) X_Session_Id = Some t -> t <> "" ->
      length (issued w w') = 2%nat
      /\ forall r2,
           reply_to net w w' 2 = Responded r2 -> status_code r2 = 409 ->
           res = Raise (http_error r2)).
Proof.
  intros H.
  assert (Hsome : forall r t, status_code r = 409 ->
            headers_get (resp_headers r) X_Session_Id = Some t -> t <> "" ->
            refreshed_token (Responded r) = Some t).
  { intros r t A B C. apply refreshed_token_Some; auto. }
  call_cases H; repeat split; auto; intros;
    repeat match goal with
    | Ha : ?x = Responded _, Hb : ?x = Responded _ |- _ =>
        rewrite Ha in Hb; inversion Hb; subst; clear Hb
    | Ha : ?x = Responded _, Hb : ?x = Failed _ |- _ =>
        rewrite Ha in Hb; discriminate Hb
    | Hne : status_code ?r <> 409, Ht : refreshed_token (Responded ?r) = Some _
      |- _ => rewrite (refreshed_token_not_409 r Hne) in Ht; discriminate Ht
    | Hh : headers_get (resp_headers ?r) X_Session_Id = Some ?t,
      Ht : refreshed_token (Responded ?r) = None |- _ =>
        rewrite (Hsome r t) in Ht by assumption; discriminate Ht
    end;
    try (apply outcome_409; assumption).
Qed.

(** A session challenge on the first request stores its token. *)
Lemma challenge_stores_token
    (cfg : Config) (net : Network) (self : TransmissionClient)
    (method : string) (arguments : option dict) (tag : option Z)
    (w w' : World) (res : Res value) (t : string) :
  _make_request cfg net self method arguments tag w = (res, w') ->
  refreshed_token (reply_to net w w' 1) = Some t ->
  transmission_session_id w' = Some t.
Proof.
  intros H Ht.
  call_cases H; rewrite E1 in Ht; try congruence; discriminate Ht.
Qed.

(** C7.  A call, also one that raises, leaves the stored token as it was
    unless its first response is a session challenge (a 409 with a
    non-empty session-id header); then the stored token is exactly the
    value of that header, whatever becomes of the second POST.  The token
    is never left empty. *)
Theorem token_frame
    (cfg : Config) (net : Network) (self : TransmissionClient)
    (method : string) (arguments : option dict) (tag : option Z)
    (w w' : World) (res : Res value) :
  _make_request cfg net self method arguments tag w = (res, w') ->
  (forall t, refreshed_token (reply_to net w w' 1) = Some t ->
     transmission_session_id w' = Some t)
  /\ (refreshed_token (reply_to net w w' 1) = None ->
      transmission_session_id w' = transmission_session_id w)
  /\ (token_ok w -> token_ok w').
Proof.
  intros H. split; [ | split ].
  - (* a challenge: the token of the first response *)
    intros t Ht. exact (challenge_stores_token _ _ _ _ _ _ _ _ _ _ H Ht).
  - (* no challenge: the token is untouched *)
    intros Hnone.
    call_cases H; rewrite E1 in Hnone; try congruence; reflexivity.
  - (* the empty string is never stored *)
    unfold token_ok. intros Hok.
    call_cases H; try assumption;
      apply refreshed_token_Some in Et; destruct Et as (_ & _ & Hne);
      congruence.
Qed.

(** ** Failures of the transport *)

(** C5, as the code has it.  When a POST of the call fails at the network
    level, the call raises a plain [Exception] whose message is
    ["Network error: "] followed by the cause and whose context is the
    underlying [RequestError]; the failed POST is the last one the call
    issues.  The exception has the class of the one raised for a response
    outside 2xx: no [except] clause tells the two apart by their type.
    They differ in their message and in their context, which is the
    [RequestError] for the one and the [HTTPStatusError] for the other. *)
Theorem network_failure_raises
    (cfg : Config) (net : Network) (self : TransmissionClient)
    (method : string) (arguments : option dict) (tag : option Z)
    (w w' : World) (res : Res value) (n : nat) (cause : string) :
  _make_request cfg net self method arguments tag w = (res, w') ->
  (1 <= n <= length (issued w w'))%nat ->
  reply_to net w w' n = Failed cause ->
  res = Raise (Exc Exception ("Network error: " ++ cause) None
                 (Some (Exc RequestError cause None None)))
  /\ length (issued w w') = n
  /\ forall r, exc_cls (network_error cause) = exc_cls (http_error r)
               /\ exc_msg (network_error cause) <> exc_msg (http_error r)
               /\ option_map exc_cls (exc_context (network_error cause))
                  = Some RequestError
               /\ option_map exc_cls (exc_context (http_error r))
                  = Some HTTPStatusError.
Proof.
  intros H Hn Hf.
  assert (Hkind : forall r,
            exc_cls (network_error cause) = exc_cls (http_error r)
            /\ exc_msg (network_error cause) <> exc_msg (http_error r)
            /\ option_map exc_cls (exc_context (network_error cause))
               = Some RequestError
            /\ option_map exc_cls (exc_context (http_error r))
               = Some HTTPStatusError).
  { intros r. split; [ reflexivity | ].
    split; [ cbn; discriminate | split; reflexivity ]. }
  destruct n as [ | [ | [ | n ] ] ];
    call_cases H; cbn [length] in Hn; try lia; try congruence;
    (split; [ unfold network_error; congruence
            | split; [ auto | exact Hkind ] ]).
Qed.

(** ** The payload *)

Lemma assoc_dict_set_same {A : Type} (d : list (string * A)) (k : string)
    (v : A) :
  assoc k (dict_set d k v) = Some v.
Proof.
  induction d as [ | [k' v'] d IH ]; cbn.
  - rewrite String.eqb_refl. reflexivity.
  - destruct (String.eqb k k') eqn:E; cbn.
    + rewrite String.eqb_refl. reflexivity.
    + rewrite E. exact IH.
Qed.

Lemma assoc_dict_set_other {A : Type} (d : list (string * A)) (k k' : string)
    (v : A) :
  k <> k' -> assoc k (dict_set d k' v) = assoc k d.
Proof.
  intros Hne. induction d as [ | [k0 v0] d IH ]; cbn.
  - destruct (String.eqb_spec k k'); [ contradiction | reflexivity ].
  - destruct (String.eqb_spec k' k0) as [E | E]; cbn.
    + subst k0. destruct (String.eqb_spec k k'); [ contradiction | reflexivity ].
    + destruct (String.eqb k k0); [ reflexivity | exact IH ].
Qed.

Lemma build_payload_method (method : string) (arguments : option dict)
    (tag : option Z) :
  assoc "method" (build_payload method arguments tag) = Some (VStr method).
Proof.
  unfold build_payload. destruct tag as [t | ]; [ destruct (t =? 0) | ];
    reflexivity.
Qed.

Lemma build_payload_arguments (method : string) (arguments : option dict)
    (tag : option Z) :
  assoc "arguments" (build_payload method arguments tag)
  = Some (VDict (match arguments with Some d => d | None => [] end)).
Proof.
  unfold build_payload.
  destruct arguments as [ [ | b d ] | ];
    (destruct tag as [t | ]; [ destruct (t =? 0) | ]); reflexivity.
Qed.

(** C2 on the code.  A call given the tag 0 is the call given no tag: the
    test [if tag:] drops it, and no request that the call issues has a
    ["tag"] field. *)
Theorem tag_zero_dropped
    (cfg : Config) (net : Network) (self : TransmissionClient)
    (method : string) (arguments : option dict)
    (w w' : World) (res : Res value) :
  _make_request cfg net self method arguments (Some 0) w = (res, w') ->
  _make_request cfg net self method arguments None w = (res, w')
  /\ Forall (fun rq => body_field rq "tag" = None) (issued w w').
Proof.
  intros H. split; [ exact H | ].
  call_cases H; repeat constructor.
Qed.

(** ** The wire format *)

Lemma initial_headers_content_type (sid : option string) :
  assoc "Content-Type" (initial_headers sid) = Some "application/json".
Proof.
  unfold initial_headers. destruct sid as [t | ]; [ destruct (str_truthy t) | ];
    reflexivity.
Qed.

Lemma initial_headers_session (sid : option string) :
  sid <> Some "" -> assoc X_Session_Id (initial_headers sid) = sid.
Proof.
  intros Hok. unfold initial_headers.
  destruct sid as [ [ | c t ] | ]; try reflexivity. congruence.
Qed.

Lemma build_auth_iff (cfg : Config) (u p : string) :
  build_auth cfg = Some (u, p) <->
  TRANSMISSION_USERNAME cfg = Some u /\ TRANSMISSION_PASSWORD cfg = Some p
  /\ u <> "" /\ p <> "".
Proof.
  unfold build_auth.
  destruct (TRANSMISSION_USERNAME cfg) as [ [ | c u' ] | ];
    destruct (TRANSMISSION_PASSWORD cfg) as [ [ | d p' ] | ]; cbn;
    split; intros H;
    try discriminate H;
    try (destruct H as (Hu & Hp & Hnu & Hnp); congruence).
  inversion H; subst. repeat split; auto; discriminate.
Qed.

Lemma first_request_well_formed (cfg : Config) (method : string)
    (arguments : option dict) (tag : option Z) (w : World) :
  well_formed_request cfg method arguments
    (first_request cfg (transmission_client cfg) method arguments tag w).
Proof.
  unfold well_formed_request, first_request, body_field; cbn.
  refine (conj _ (conj _ (conj _ (conj _ (conj _ _)))));
    auto using initial_headers_content_type, build_payload_method,
               build_payload_arguments, build_auth_iff.
Qed.

Lemma retry_request_well_formed (cfg : Config) (method : string)
    (arguments : option dict) (tag : option Z) (w : World) (t : string) :
  well_formed_request cfg method arguments
    (retry_request cfg (transmission_client cfg) method arguments tag w t).
Proof.
  unfold well_formed_request, retry_request, body_field; cbn.
  refine (conj _ (conj _ (conj _ (conj _ (conj _ _)))));
    auto using build_payload_method, build_payload_arguments, build_auth_iff.
  rewrite assoc_dict_set_other by discriminate.
  apply initial_headers_content_type.
Qed.

(** C6.  Every request of a call on the module's client is a POST to
    [http://{host}:{port}/transmission/rpc] with the header
    [Content-Type: application/json], a body whose ["method"] is the method
    and whose ["arguments"] is the caller's mapping, the empty one when
    there is none, and Basic credentials exactly when a user name and a
    password are both configured and not empty.  Its session-id header is
    the token current when it is sent: absent when there is none. *)
Theorem wire_format
    (cfg : Config) (net : Network)
    (method : string) (arguments : option dict) (tag : option Z)
    (w w' : World) (res : Res value) :
  token_ok w ->
  _make_request cfg net (transmission_client cfg) method arguments tag w
  = (res, w') ->
  Forall (well_formed_request cfg method arguments) (issued w w')
  /\ (forall rq, nth_error (issued w w') 0 = Some rq ->
        session_header rq = transmission_session_id w)
  /\ (forall rq, nth_error (issued w w') 1 = Some rq ->
        session_header rq = transmission_session_id w').
Proof.
  intros Hok H. unfold token_ok in Hok.
  pose proof (first_request_well_formed cfg method arguments tag w) as W1.
  pose proof (retry_request_well_formed cfg method arguments tag w) as W2.
  call_cases H; repeat split; auto; intros rq Hrq; cbn in Hrq;
    try discriminate Hrq; inversion Hrq; subst; unfold session_header; cbn;
    auto using initial_headers_session, assoc_dict_set_same.
Qed.

(** ** Token propagation *)

Lemma issued_eq (w w' : World) (new : list Request) :
  posts w' = (posts w ++ new)%list -> issued w w' = new.
Proof.
  intros H. unfold issued. rewrite H.
  rewrite skipn_app, skipn_all, Nat.sub_diag. reflexivity.
Qed.

Lemma no_challenge_after_app (net : Network) (log new : list Request) :
  no_challenge_after net log -> no_challenge_after net (log ++ new)%list.
Proof.
  intros H more. rewrite <- app_assoc. apply H.
Qed.

(** A call that starts with the token [t]: its first request carries
    [t]. *)
Lemma first_post_carries_token (cfg : Config) (net : Network) (c : Call)
    (w : World) (t : string) :
  transmission_session_id w = Some t -> t <> "" ->
  exists rq rest,
    issued w (run_call cfg net c w) = rq :: rest
    /\ session_header rq = Some t.
Proof.
  intros Hsid Hne. unfold run_call.
  destruct (_make_request cfg net (call_self c) (call_method c)
              (call_arguments c) (call_tag c) w) as [res w'] eqn:H.
  assert (Hh : session_header
                 (first_request cfg (call_self c) (call_method c)
                    (call_arguments c) (call_tag c) w) = Some t).
  { unfold session_header, first_request; cbn. rewrite Hsid.
    apply initial_headers_session. congruence. }
  call_cases H; cbn [snd]; rewrite issued_app; eauto.
Qed.

(** A call that meets no challenge keeps the token and sends it. *)
Lemma quiet_call (cfg : Config) (net : Network) (c : Call) (w : World)
    (t : string) :
  transmission_session_id w = Some t -> t <> "" ->
  no_challenge_after net (posts w) ->
  transmission_session_id (run_call cfg net c w) = Some t
  /\ exists new,
       posts (run_call cfg net c w) = (posts w ++ new)%list
       /\ Forall (fun rq => session_header rq = Some t) new.
Proof.
  intros Hsid Hne Hq. unfold run_call.
  destruct (_make_request cfg net (call_self c) (call_method c)
              (call_arguments c) (call_tag c) w) as [res w'] eqn:H.
  assert (Hh : session_header
                 (first_request cfg (call_self c) (call_method c)
                    (call_arguments c) (call_tag c) w) = Some t).
  { unfold session_header, first_request; cbn. rewrite Hsid.
    apply initial_headers_session. congruence. }
  call_cases H; cbn [snd posts transmission_session_id];
    try (rewrite <- E1, Hq in Et; discriminate Et);
    (split; [ assumption | eexists; split; [ reflexivity | auto ] ]).
Qed.

Lemma quiet_calls (cfg : Config) (net : Network) (t : string)
    (cs : list Call) :
  t <> "" ->
  forall w,
    transmission_session_id w = Some t ->
    no_challenge_after net (posts w) ->
    transmission_session_id (run_calls cfg net cs w) = Some t
    /\ exists new,
         posts (run_calls cfg net cs w) = (posts w ++ new)%list
         /\ Forall (fun rq => session_header rq = Some t) new.
Proof.
  intros Hne. induction cs as [ | c cs IH ]; intros w Hsid Hq; cbn.
  - split; [ assumption | ]. exists []. rewrite app_nil_r. auto.
  - destruct (quiet_call cfg net c w t Hsid Hne Hq) as (Hsid1 & new1 & Hp1 & Hf1).
    destruct (IH (run_call cfg net c w) Hsid1) as (Hsid2 & new2 & Hp2 & Hf2).
    { rewrite Hp1. apply no_challenge_after_app. exact Hq. }
    split; [ exact Hsid2 | ].
    exists (new1 ++ new2)%list. split.
    + unfold run_calls in Hp2. rewrite Hp2, Hp1, app_assoc. reflexivity.
    + apply Forall_app. auto.
Qed.

(** C4.  After a call whose first response is a 409 carrying a token (a
    non-empty session-id header), the stored token is that value.  The
    next call, whatever its client, method, arguments and tag, sends it as
    its session-id header; and so does every request of every later call,
    the token staying as it is, for as long as the daemon issues no new
    challenge. *)
Theorem token_propagation
    (cfg : Config) (net : Network) (self : TransmissionClient)
    (method : string) (arguments : option dict) (tag : option Z)
    (w w' : World) (res : Res value) (r : Response) (t : string) :
  _make_request cfg net self method arguments tag w = (res, w') ->
  reply_to net w w' 1 = Responded r ->
  status_code r = 409 ->
  headers_get (resp_headers r) X_Session_Id = Some t ->
  t <> "" ->
  transmission_session_id w' = Some t
  /\ (forall c, exists rq rest,
        issued w' (run_call cfg net c w') = rq :: rest
        /\ session_header rq = Some t)
  /\ (no_challenge_after net (posts w') ->
      forall cs,
        transmission_session_id (run_calls cfg net cs w') = Some t
        /\ Forall (fun rq => session_header rq = Some t)
             (issued w' (run_calls cfg net cs w'))).
Proof.
  intros H H1 H409 Hh Hne.
  assert (Hsid : transmission_session_id w' = Some t).
  { apply (challenge_stores_token _ _ _ _ _ _ _ _ _ _ H).
    rewrite H1. apply refreshed_token_Some. auto. }
  split; [ exact Hsid | split ].
  - intros c. apply first_post_carries_token; assumption.
  - intros Hq cs.
    destruct (quiet_calls cfg net t cs Hne w' Hsid Hq) as (Hs & new & Hp & Hf).
    split; [ exact Hs | ]. rewrite (issued_eq _ _ _ Hp). exact Hf.
Qed.

(** ** Exceptions of the tool layer

    Every exception the tool layer can raise derives from [Exception]. *)

Lemma rc_rbind {A B} (r : Res A) (k : A -> Res B) :
  res_catchable r -> (forall a, res_catchable (k a)) ->
  res_catchable (rbind r k).
Proof. destruct r as [a | e]; cbn; auto. Qed.

Lemma rc_ret {A} (a : A) : raises_catchable (ret a).
Proof. intros w. exact I. Qed.

Lemma rc_lift {A} (r : Res A) : res_catchable r -> raises_catchable (lift r).
Proof. intros H w. exact H. Qed.

Lemma rc_bind {A B} (m : M A) (k : A -> M B) :
  raises_catchable m -> (forall a, raises_catchable (k a)) ->
  raises_catchable (bind m k).
Proof.
  intros Hm Hk w. unfold bind. specialize (Hm w).
  destruct (m w) as [[a | e] w1]; cbn in *.
  - apply Hk.
  - exact Hm.
Qed.

Lemma rc_filter_res {A} (p : A -> Res bool) (l : list A) :
  (forall x, res_catchable (p x)) -> res_catchable (filter_res p l).
Proof.
  intros Hp. induction l as [ | x l IH ]; cbn; [ exact I | ].
  apply rc_rbind; [ apply Hp | intros b ].
  apply rc_rbind; [ exact IH | intros r; exact I ].
Qed.

Lemma rc_map_res {A B} (f : A -> Res B) (l : list A) :
  (forall x, res_catchable (f x)) -> res_catchable (map_res f l).
Proof.
  intros Hf. induction l as [ | x l IH ]; cbn; [ exact I | ].
  apply rc_rbind; [ apply Hf | intros y ].
  apply rc_rbind; [ exact IH | intros r; exact I ].
Qed.

(** Takes a goal [res_catchable] or [raises_catchable] apart along the
    binds and the branches of the computation. *)
Create HintDb catch.

Ltac catch :=
  repeat (cbv zeta;
    lazymatch goal with
    | |- res_catchable (Ok _) => exact I
    | |- res_catchable (error _ _) => exact (eq_refl true)
    | |- res_catchable (no_attribute _ _) => exact (eq_refl true)
    | |- res_catchable (bad_operands _ _) => exact (eq_refl true)
    | |- res_catchable (Raise (Exc _ _ _ _)) => exact (eq_refl true)
    | |- res_catchable (rbind _ _) => apply rc_rbind; [ | intro ]
    | |- res_catchable (filter_res _ _) => apply rc_filter_res; intro
    | |- res_catchable (map_res _ _) => apply rc_map_res; intro
    | |- res_catchable (if ?b then _ else _) => destruct b
    | |- res_catchable (match ?x with _ => _ end) => destruct x
    | |- raises_catchable (ret _) => apply rc_ret
    | |- raises_catchable (lift _) => apply rc_lift
    | |- raises_catchable (bind _ _) => apply rc_bind; [ | intro ]
    | |- raises_catchable (if ?b then _ else _) => destruct b
    | |- raises_catchable (match ?x with _ => _ end) => destruct x
    | |- _ => solve [ auto with catch ]
    end).


Lemma rc_dict_getitem (d : dict) (k : string) :
  res_catchable (dict_getitem d k).
Proof. unfold dict_getitem. catch. Qed.

Lemma rc_py_get (v : value) (k : string) (default : value) :
  res_catchable (py_get v k default).
Proof. unfold py_get. catch. Qed.

Lemma rc_py_getitem_str (v : value) (k : string) :
  res_catchable (py_getitem_str v k).
Proof. unfold py_getitem_str. catch. apply rc_dict_getitem. Qed.

Lemma rc_py_getitem_0 (v : value) : res_catchable (py_getitem_0 v).
Proof. unfold py_getitem_0. catch. Qed.

Lemma rc_py_iter (v : value) : res_catchable (py_iter v).
Proof. unfold py_iter. catch. Qed.

Lemma rc_py_lower (v : value) : res_catchable (py_lower v).
Proof. unfold py_lower. catch. Qed.

Lemma rc_py_startswith (v : value) (p : string) :
  res_catchable (py_startswith v p).
Proof. unfold py_startswith. catch. Qed.

Lemma rc_check_hashable (v : value) : res_catchable (check_hashable v).
Proof. unfold check_hashable. catch. Qed.

Lemma rc_py_gt_int (v : value) (z : Z) : res_catchable (py_gt_int v z).
Proof. unfold py_gt_int. catch. Qed.

Lemma rc_float_of_Z (z : Z) : res_catchable (float_of_Z z).
Proof. unfold float_of_Z. catch. Qed.

Lemma rc_int_truediv (a b : Z) : res_catchable (int_truediv a b).
Proof. unfold int_truediv. catch. Qed.

#[export] Hint Resolve rc_dict_getitem rc_py_get rc_py_getitem_str
  rc_py_getitem_0 rc_py_iter rc_py_lower rc_py_startswith rc_check_hashable
  rc_py_gt_int rc_float_of_Z rc_int_truediv : catch.

Lemma rc_py_truediv (v : value) (d : Z) : res_catchable (py_truediv v d).
Proof. unfold py_truediv. catch. Qed.

Lemma rc_py_mul (v : value) (n : Z) : res_catchable (py_mul v n).
Proof. unfold py_mul. catch. Qed.

Lemma rc_py_format_f (digits : nat) (v : value) :
  res_catchable (py_format_f digits v).
Proof. unfold py_format_f. catch. Qed.

#[export] Hint Resolve rc_py_truediv rc_py_mul rc_py_format_f : catch.

Lemma rc_div_all (v : value) (ds : list Z) : res_catchable (div_all v ds).
Proof.
  revert v. induction ds as [ | d ds IH ]; intros v; cbn; [ exact I | ].
  apply rc_rbind; auto with catch.
Qed.

#[export] Hint Resolve rc_div_all : catch.

Lemma rc_format_div (digits : nat) (v : value) (ds : list Z) :
  res_catchable (format_div digits v ds).
Proof. unfold format_div. catch. Qed.

Lemma rc_format_mul (digits : nat) (v : value) (n : Z) :
  res_catchable (format_mul digits v n).
Proof. unfold format_mul. catch. Qed.

Lemma rc_status_name (key : value) : res_catchable (status_name key).
Proof. unfold status_name. catch. Qed.

Lemma rc_priority_value (p : value) : res_catchable (priority_value p).
Proof. unfold priority_value. catch. Qed.

Lemma rc_status_in (codes : list Z) (t : value) :
  res_catchable (status_in codes t).
Proof. unfold status_in. catch. Qed.

Lemma rc_name_matches (query : string) (t : value) :
  res_catchable (name_matches query t).
Proof. unfold name_matches. catch. Qed.

#[export] Hint Resolve rc_format_div rc_format_mul rc_status_name
  rc_priority_value rc_status_in rc_name_matches : catch.

Lemma rc_select_torrents (query : string) (status_filter : value)
    (torrents : list value) :
  res_catchable (select_torrents query status_filter torrents).
Proof. unfold select_torrents. catch. Qed.

#[export] Hint Resolve rc_select_torrents : catch.

Lemma rc_make_request (cfg : Config) (net : Network)
    (self : TransmissionClient) (method : string) (arguments : option dict)
    (tag : option Z) :
  raises_catchable (_make_request cfg net self method arguments tag).
Proof.
  intros w. rewrite make_request_cases. cbv zeta.
  assert (Ho : forall r, res_catchable (outcome r)).
  { intros r. unfold outcome, http_error. catch. }
  repeat match goal with
         | |- context [match ?x with _ => _ end] => destruct x
         end;
    cbn [fst]; first [ apply Ho | exact (eq_refl true) ].
Qed.

#[export] Hint Resolve rc_make_request : catch.

Section ToolFacts.

Context {R : Renderer}.
Variable cfg : Config.
Variable net : Network.

Lemma rc_rpc (method : string) (arguments : option dict) :
  raises_catchable (rpc cfg net method arguments).
Proof. unfold rpc. auto with catch. Qed.

Lemma rc_is_success (result : value) : res_catchable (is_success result).
Proof. unfold is_success. catch. Qed.

Lemma rc_failure (what : string) (result : value) :
  raises_catchable (failure what result).
Proof. unfold failure. catch. Qed.

Lemma rc_torrent_info_text (torrent : value) (status : string) :
  res_catchable (torrent_info_text torrent status).
Proof. unfold torrent_info_text. catch. Qed.

Lemma rc_result_text (torrent : value) : res_catchable (result_text torrent).
Proof. unfold result_text. catch. Qed.

Lemma rc_stats_text (stats current cumulative : value) :
  res_catchable (stats_text stats current cumulative).
Proof. unfold stats_text. catch. Qed.

Lemma rc_add_limit (arguments : dict) (key enabled_key limit_key : string)
    (args : dict) :
  res_catchable (add_limit arguments key enabled_key limit_key args).
Proof. unfold add_limit. catch. Qed.

Hint Resolve rc_rpc rc_is_success rc_failure rc_torrent_info_text
  rc_result_text rc_stats_text rc_add_limit : catch.

Lemma rc_dispatch (name : string) (arguments : dict) :
  raises_catchable (dispatch cfg net name arguments).
Proof.
  unfold dispatch, add_torrent, remove_torrent, start_torrent, stop_torrent,
    get_torrent_info, set_torrent_priority, set_speed_limits,
    search_torrents, get_session_stats.
  catch.
Qed.

(** What [except Exception] makes of the [try] block. *)
Lemma handle_call_tool_cases (name : string) (arguments : dict) (w : World) :
  match dispatch cfg net name arguments w with
  | (Ok texts, w') =>
      handle_call_tool cfg net name arguments w = (Ok texts, w')
  | (Raise e, w') =>
      handle_call_tool cfg net name arguments w
      = (Ok (text_content ("Error executing " ++ name ++ ": " ++ exc_msg e)),
         w')
  end.
Proof.
  pose proof (rc_dispatch name arguments w) as Hc.
  unfold handle_call_tool, try_except.
  destruct (dispatch cfg net name arguments w) as [[texts | e] w'];
    [ reflexivity | ].
  cbn in Hc. unfold catchable in Hc. cbn [select_handler]. rewrite Hc.
  reflexivity.
Qed.

Lemma dispatch_unknown (name : string) (arguments : dict) :
  ~ In name tool_names ->
  dispatch cfg net name arguments
  = ret (text_content ("Unknown tool: " ++ name)).
Proof.
  intros Hn. unfold dispatch.
  repeat match goal with
         | |- context [String.eqb name ?s] =>
             destruct (String.eqb_spec name s) as [E | _];
             [ exfalso; apply Hn; rewrite E; cbn; tauto | ]
         end.
  reflexivity.
Qed.

End ToolFacts.

(** C8.  [handle_call_tool] returns a list of [TextContent] for every
    tool name and every argument mapping, and raises nothing: an exception
    of the [try] block comes back as the message
    ["Error executing <name>: <str(e)>"], a missing required argument among
    them, and a name that is no tool gives ["Unknown tool: <name>"] without
    any request to the daemon. *)
Theorem handle_call_tool_never_raises
    {R : Renderer} (cfg : Config) (net : Network)
    (name : string) (arguments : dict) (w : World) :
  (exists texts w',
     handle_call_tool cfg net name arguments w = (Ok texts, w'))
  /\ (forall e w',
        dispatch cfg net name arguments w = (Raise e, w') ->
        handle_call_tool cfg net name arguments w
        = (Ok (text_content ("Error executing " ++ name ++ ": " ++ exc_msg e)),
           w'))
  /\ (assoc "url" arguments = None ->
      handle_call_tool cfg net "add_torrent" arguments w
      = (Ok (text_content "Error executing add_torrent: 'url'"), w))
  /\ (~ In name tool_names ->
      handle_call_tool cfg net name arguments w
      = (Ok (text_content ("Unknown tool: " ++ name)), w)).
Proof.
  pose proof (handle_call_tool_cases cfg net name arguments w) as Hc.
  repeat split.
  - destruct (dispatch cfg net name arguments w) as [[texts | e] w']; eauto.
  - intros e w' He. rewrite He in Hc. exact Hc.
  - intros Hu.
    pose proof (handle_call_tool_cases cfg net "add_torrent" arguments w) as Ha.
    cbn [dispatch String.eqb Ascii.eqb Bool.eqb] in Ha.
    unfold add_torrent, dict_getitem in Ha. rewrite Hu in Ha. exact Ha.
  - intros Hn. rewrite (dispatch_unknown cfg net name arguments Hn) in Hc.
    exact Hc.
Qed.

(** ** The filters of [search_torrents] *)

Lemma filter_res_In {A} (p : A -> Res bool) (l kept : list A) :
  filter_res p l = Ok kept ->
  forall x, In x kept <-> In x l /\ p x = Ok true.
Proof.
  revert kept. induction l as [ | y l IH ]; cbn; intros kept H x.
  - inversion H; subst. cbn. tauto.
  - destruct (p y) as [b | e] eqn:Ey; cbn in H; [ | discriminate H ].
    destruct (filter_res p l) as [r | e]; cbn in H; [ | discriminate H ].
    inversion H; subst; clear H.
    specialize (IH r eq_refl x).
    destruct b; cbn; rewrite ?IH; split.
    + intros [E | [Hin Hp]]; [ subst; auto | auto ].
    + intros [[E | Hin] Hp]; [ auto | auto ].
    + intros [Hin Hp]; auto.
    + intros [[E | Hin] Hp]; [ subst; congruence | auto ].
Qed.

Lemma status_in_6 (t : value) :
  status_in [6] t = Ok true <->
  exists s, py_get t "status" VNone = Ok s /\ py_eq_int s 6 = true.
Proof.
  unfold status_in.
  destruct (py_get t "status" VNone) as [s | e]; cbn.
  - rewrite orb_false_r. split.
    + intros H. inversion H. eauto.
    + intros (s' & E & H). inversion E; subst. rewrite H. reflexivity.
  - split; [ discriminate | ]. intros (s' & E & _). discriminate.
Qed.

(** C9.  With the status filter ["completed"] [search_torrents] answers
    as with ["seeding"]: after the filter by name, both keep exactly the
    torrents whose [status] equals 6. *)
Theorem completed_is_seeding
    {R : Renderer} (cfg : Config) (net : Network)
    (a1 a2 : dict) (w : World) :
  assoc "query" a1 = assoc "query" a2 ->
  assoc "status_filter" a1 = Some (VStr "completed") ->
  assoc "status_filter" a2 = Some (VStr "seeding") ->
  handle_call_tool cfg net "search_torrents" a1 w
  = handle_call_tool cfg net "search_torrents" a2 w
  /\ forall query torrents,
       select_torrents query (VStr "completed") torrents
       = select_torrents query (VStr "seeding") torrents
       /\ select_torrents query (VStr "seeding") torrents
          = rbind (filter_res (name_matches query) torrents)
                  (filter_res (status_in [6]))
       /\ forall kept,
            select_torrents query (VStr "completed") torrents = Ok kept ->
            forall t,
              In t kept <->
              In t torrents /\ name_matches query t = Ok true
              /\ exists s, py_get t "status" VNone = Ok s
                           /\ py_eq_int s 6 = true.
Proof.
  intros Hq H1 H2. split.
  - unfold handle_call_tool. f_equal.
    cbn [dispatch String.eqb Ascii.eqb Bool.eqb].
    unfold search_torrents, dict_getitem, dict_get.
    rewrite Hq, H1, H2. reflexivity.
  - intros query torrents.
    assert (E : select_torrents query (VStr "completed") torrents
                = rbind (filter_res (name_matches query) torrents)
                        (filter_res (status_in [6]))).
    { reflexivity. }
    split; [ reflexivity | split; [ reflexivity | ] ].
    intros kept Hk t. rewrite E in Hk.
    destruct (filter_res (name_matches query) torrents) as [m | e] eqn:Em;
      cbn in Hk; [ | discriminate Hk ].
    rewrite (filter_res_In _ _ _ Hk t), (filter_res_In _ _ _ Em t).
    rewrite status_in_6. tauto.
Qed.

(** ** Case of the query *)







(** * The properties on the sample runs *)

(** C1 as stated does not hold.  On the daemon that answers 409 with no
    session header, the call raises the exception of any HTTP status
    failure: a plain [Exception] reading ["HTTP error 409: Conflict"], not
    an error that states ["daemon returned 409 without a refreshed
    token"]. *)
Lemma bare_409_is_plain_http_error :
  fst (Sample.run Sample.net_bare_409) = Raise (http_error Sample.bare_409)
  /\ exc_cls (http_error Sample.bare_409) = Exception
  /\ exc_cls (http_error Sample.bare_409)
     = exc_cls (http_error Sample.server_error)
  /\ exc_msg (http_error Sample.bare_409) = "HTTP error 409: Conflict"
  /\ ~ (exists e,
          fst (Sample.run Sample.net_bare_409) = Raise e
          /\ exc_msg e = "daemon returned 409 without a refreshed token").
Proof.
  repeat split. intros (e & He & Hm).
  change (@Raise value (http_error Sample.bare_409) = Raise e) in He.
  inversion He; subst e. discriminate Hm.
Qed.

Lemma bare_409_raises_http_error_witness :
  reply_to Sample.net_bare_409 initial_world
    (snd (Sample.run Sample.net_bare_409)) 1 = Responded Sample.bare_409
  /\ fst (Sample.run Sample.net_bare_409)
     = Raise (Exc Exception "HTTP error 409: Conflict" None
                (Some (Exc HTTPStatusError "" (Some Sample.bare_409) None)))
  /\ length (issued initial_world (snd (Sample.run Sample.net_bare_409)))
     = 1%nat
  /\ transmission_session_id (snd (Sample.run Sample.net_bare_409)) = None.
Proof.
  split; [ reflexivity | ].
  apply (bare_409_raises_http_error Sample.cfg Sample.net_bare_409
           Sample.client "session-get" None None initial_world
           (snd (Sample.run Sample.net_bare_409))
           (fst (Sample.run Sample.net_bare_409)) Sample.bare_409);
    reflexivity.
Defined.

Lemma tag_zero_dropped_witness :
  _make_request Sample.cfg Sample.net_ok Sample.client "session-get" None
    None initial_world
  = (fst (_make_request Sample.cfg Sample.net_ok Sample.client "session-get"
            None (Some 0) initial_world),
     snd (_make_request Sample.cfg Sample.net_ok Sample.client "session-get"
            None (Some 0) initial_world))
  /\ Forall (fun rq => body_field rq "tag" = None)
       (issued initial_world
          (snd (_make_request Sample.cfg Sample.net_ok Sample.client
                  "session-get" None (Some 0) initial_world))).
Proof.
  apply (tag_zero_dropped Sample.cfg Sample.net_ok Sample.client
           "session-get" None initial_world
           (snd (_make_request Sample.cfg Sample.net_ok Sample.client
                   "session-get" None (Some 0) initial_world))
           (fst (_make_request Sample.cfg Sample.net_ok Sample.client
                   "session-get" None (Some 0) initial_world))).
  reflexivity.
Defined.

Lemma post_count_witness :
  length (issued initial_world (snd (Sample.run Sample.net_ok))) = 1%nat
  /\ length (issued initial_world (snd (Sample.run Sample.net_challenge)))
     = 2%nat
  /\ length (issued initial_world (snd (Sample.run Sample.net_always_409)))
     = 2%nat
  /\ fst (Sample.run Sample.net_always_409)
     = Raise (http_error Sample.challenge).
Proof.
  split; [ | split; [ | split ] ].
  - apply (proj1 (proj2 (proj2
      (post_count Sample.cfg Sample.net_ok Sample.client "session-get" None
         None initial_world (snd (Sample.run Sample.net_ok))
         (fst (Sample.run Sample.net_ok)) eq_refl))) Sample.ok_response);
      [ reflexivity | discriminate ].
  - apply (proj2 (proj2 (proj2
      (post_count Sample.cfg Sample.net_challenge Sample.client "session-get"
         None None initial_world (snd (Sample.run Sample.net_challenge))
         (fst (Sample.run Sample.net_challenge)) eq_refl))) Sample.challenge
      "abc123"); [ reflexivity | reflexivity | reflexivity | discriminate ].
  - apply (proj2 (proj2 (proj2
      (post_count Sample.cfg Sample.net_always_409 Sample.client "session-get"
         None None initial_world (snd (Sample.run Sample.net_always_409))
         (fst (Sample.run Sample.net_always_409)) eq_refl))) Sample.challenge
      "abc123"); [ reflexivity | reflexivity | reflexivity | discriminate ].
  - apply (proj2 (proj2 (proj2
      (post_count Sample.cfg Sample.net_always_409 Sample.client "session-get"
         None None initial_world (snd (Sample.run Sample.net_always_409))
         (fst (Sample.run Sample.net_always_409)) eq_refl))) Sample.challenge
      "abc123"); [ reflexivity | reflexivity | reflexivity | discriminate
                 | reflexivity | reflexivity ].
Defined.

Lemma no_challenge_after_sample :
  no_challenge_after Sample.net_challenge
    (posts (snd (Sample.run Sample.net_challenge))).
Proof. intros more. reflexivity. Defined.

Lemma token_propagation_witness :
  transmission_session_id (snd (Sample.run Sample.net_challenge))
  = Some "abc123"
  /\ (forall c, exists rq rest,
        issued (snd (Sample.run Sample.net_challenge))
          (run_call Sample.cfg Sample.net_challenge c
             (snd (Sample.run Sample.net_challenge))) = rq :: rest
        /\ session_header rq = Some "abc123")
  /\ forall cs,
       transmission_session_id
         (run_calls Sample.cfg Sample.net_challenge cs
            (snd (Sample.run Sample.net_challenge))) = Some "abc123"
       /\ Forall (fun rq => session_header rq = Some "abc123")
            (issued (snd (Sample.run Sample.net_challenge))
               (run_calls Sample.cfg Sample.net_challenge cs
                  (snd (Sample.run Sample.net_challenge)))).
Proof.
  pose proof (token_propagation Sample.cfg Sample.net_challenge Sample.client
                "session-get" None None initial_world
                (snd (Sample.run Sample.net_challenge))
                (fst (Sample.run Sample.net_challenge)) Sample.challenge
                "abc123" eq_refl eq_refl eq_refl eq_refl) as H.
  destruct H as (H1 & H2 & H3); [ discriminate | ].
  split; [ exact H1 | split; [ exact H2 | ] ].
  exact (H3 no_challenge_after_sample).
Defined.

(** C5 as stated does not hold.  A refused connection and a 500 response
    both raise the one class [Exception]: the two failures are not of
    two kinds, and no pair of exceptions they raise differs in its
    class. *)
Lemma network_error_is_plain_exception :
  fst (Sample.run Sample.net_refused)
  = Raise (network_error "Connection refused")
  /\ fst (Sample.run Sample.net_500) = Raise (http_error Sample.server_error)
  /\ exc_cls (network_error "Connection refused") = Exception
  /\ ~ (exists e1 e2,
          fst (Sample.run Sample.net_refused) = Raise e1
          /\ fst (Sample.run Sample.net_500) = Raise e2
          /\ exc_cls e1 <> exc_cls e2).
Proof.
  repeat split. intros (e1 & e2 & H1 & H2 & Hne).
  change (@Raise value (network_error "Connection refused") = Raise e1) in H1.
  change (@Raise value (http_error Sample.server_error) = Raise e2) in H2.
  inversion H1; inversion H2; subst. apply Hne. reflexivity.
Qed.

Lemma network_failure_raises_witness :
  (1 <= 1 <= length (issued initial_world (snd (Sample.run Sample.net_refused))))%nat
  /\ reply_to Sample.net_refused initial_world
       (snd (Sample.run Sample.net_refused)) 1 = Failed "Connection refused"
  /\ fst (Sample.run Sample.net_refused)
     = Raise (Exc Exception "Network error: Connection refused" None
                (Some (Exc RequestError "Connection refused" None None)))
  /\ length (issued initial_world (snd (Sample.run Sample.net_refused)))
     = 1%nat.
Proof.
  split; [ cbn; lia | split; [ reflexivity | ] ].
  destruct (network_failure_raises Sample.cfg Sample.net_refused
              Sample.client "session-get" None None initial_world
              (snd (Sample.run Sample.net_refused))
              (fst (Sample.run Sample.net_refused)) 1 "Connection refused"
              eq_refl) as (H1 & H2 & _);
    [ cbn; lia | reflexivity | ].
  split; [ exact H1 | exact H2 ].
Defined.

Lemma wire_format_witness :
  token_ok initial_world
  /\ Forall (well_formed_request Sample.cfg_auth "torrent-get" None)
       (issued initial_world
          (snd (_make_request Sample.cfg_auth Sample.net_challenge
                  (transmission_client Sample.cfg_auth) "torrent-get" None
                  None initial_world)))
  /\ map req_url
       (issued initial_world
          (snd (_make_request Sample.cfg_auth Sample.net_challenge
                  (transmission_client Sample.cfg_auth) "torrent-get" None
                  None initial_world)))
     = ["http://nas.local:9091/transmission/rpc";
        "http://nas.local:9091/transmission/rpc"].
Proof.
  split; [ discriminate | ].
  split; [ | reflexivity ].
  apply (wire_format Sample.cfg_auth Sample.net_challenge "torrent-get" None
           None initial_world
           (snd (_make_request Sample.cfg_auth Sample.net_challenge
                   (transmission_client Sample.cfg_auth) "torrent-get" None
                   None initial_world))
           (fst (_make_request Sample.cfg_auth Sample.net_challenge
                   (transmission_client Sample.cfg_auth) "torrent-get" None
                   None initial_world)));
    [ discriminate | reflexivity ].
Defined.

Lemma token_frame_witness :
  transmission_session_id (snd (Sample.run Sample.net_challenge))
  = Some "abc123"
  /\ transmission_session_id (snd (Sample.run Sample.net_500))
     = transmission_session_id initial_world
  /\ transmission_session_id (snd (Sample.run Sample.net_refused))
     = transmission_session_id initial_world.
Proof.
  split; [ | split ].
  - apply (proj1 (token_frame Sample.cfg Sample.net_challenge Sample.client
                    "session-get" None None initial_world
                    (snd (Sample.run Sample.net_challenge))
                    (fst (Sample.run Sample.net_challenge)) eq_refl)).
    reflexivity.
  - apply (proj1 (proj2 (token_frame Sample.cfg Sample.net_500 Sample.client
                    "session-get" None None initial_world
                    (snd (Sample.run Sample.net_500))
                    (fst (Sample.run Sample.net_500)) eq_refl))).
    reflexivity.
  - apply (proj1 (proj2 (token_frame Sample.cfg Sample.net_refused
                    Sample.client "session-get" None None initial_world
                    (snd (Sample.run Sample.net_refused))
                    (fst (Sample.run Sample.net_refused)) eq_refl))).
    reflexivity.
Defined.

Lemma handle_call_tool_never_raises_witness :
  handle_call_tool Sample.cfg Sample.net_refused "start_torrent"
    [("torrent_id", VInt 7)] initial_world
  = (Ok (text_content
           "Error executing start_torrent: Network error: Connection refused"),
     snd (dispatch Sample.cfg Sample.net_refused "start_torrent"
            [("torrent_id", VInt 7)] initial_world))
  /\ handle_call_tool Sample.cfg Sample.net_ok "add_torrent"
       [("paused", VBool true)] initial_world
     = (Ok (text_content "Error executing add_torrent: 'url'"), initial_world)
  /\ handle_call_tool Sample.cfg Sample.net_ok "launch_missiles" []
       initial_world
     = (Ok (text_content "Unknown tool: launch_missiles"), initial_world).
Proof.
  split; [ | split ].
  - apply (proj1 (proj2
      (handle_call_tool_never_raises Sample.cfg Sample.net_refused
         "start_torrent" [("torrent_id", VInt 7)] initial_world))
      (network_error "Connection refused")).
    reflexivity.
  - apply (proj1 (proj2 (proj2
      (handle_call_tool_never_raises Sample.cfg Sample.net_ok
         "add_torrent" [("paused", VBool true)] initial_world)))).
    reflexivity.
  - apply (proj2 (proj2 (proj2
      (handle_call_tool_never_raises Sample.cfg Sample.net_ok
         "launch_missiles" [] initial_world)))).
    cbn. intros H.
    repeat (destruct H as [H | H]; [ discriminate H | ]). exact H.
Defined.

Lemma completed_is_seeding_witness :
  handle_call_tool Sample.cfg Sample.net_ok "search_torrents"
    [("query", VStr ""); ("status_filter", VStr "completed")] initial_world
  = handle_call_tool Sample.cfg Sample.net_ok "search_torrents"
      [("status_filter", VStr "seeding"); ("query", VStr "")] initial_world
  /\ select_torrents "" (VStr "completed") Sample.torrents
     = Ok [VDict [("id", VInt 1); ("name", VStr "Ubuntu ISO");
                  ("status", VInt 6)]]
  /\ select_torrents "" (VStr "seeding") Sample.torrents
     = select_torrents "" (VStr "completed") Sample.torrents.
Proof.
  destruct (completed_is_seeding Sample.cfg Sample.net_ok
              [("query", VStr ""); ("status_filter", VStr "completed")]
              [("status_filter", VStr "seeding"); ("query", VStr "")]
              initial_world eq_refl eq_refl eq_refl) as (H1 & H2).
  destruct (H2 "" Sample.torrents) as (H3 & _).
  split; [ exact H1 | split; [ reflexivity | symmetry; exact H3 ] ].
Defined.




(** The scenarios of the handshake on the sample daemons: an immediate
    200 costs one POST; a challenge costs two and leaves its token
    stored, the second request carrying it. *)
Example scenario_immediate_success :
  fst (Sample.run Sample.net_ok) = Ok Sample.success_body
  /\ length (posts (snd (Sample.run Sample.net_ok))) = 1%nat
  /\ transmission_session_id (snd (Sample.run Sample.net_ok)) = None.
Proof. repeat split. Qed.

Example scenario_challenge_then_success :
  fst (Sample.run Sample.net_challenge) = Ok Sample.success_body
  /\ transmission_session_id (snd (Sample.run Sample.net_challenge))
     = Some "abc123"
  /\ map session_header (posts (snd (Sample.run Sample.net_challenge)))
     = [None; Some "abc123"].
Proof. repeat split. Qed.

(** * Further properties of the client *)

Lemma outcome_Ok (r : Response) (v : value) :
  outcome r = Ok v ->
  200 <= status_code r <= 299 /\ json r = inl v.
Proof.
  unfold outcome.
  destruct ((200 <=? status_code r) && (status_code r <=? 299)) eqn:E;
    [ | discriminate ].
  apply andb_true_iff in E. destruct E as [E1 E2].
  destruct (json r) as [v' | m]; [ | discriminate ].
  intros H. inversion H; subst. split; [ lia | reflexivity ].
Qed.

Lemma outcome_not_2xx (r : Response) :
  ~ (200 <= status_code r <= 299) -> outcome r = Raise (http_error r).
Proof.
  intros H. unfold outcome.
  destruct ((200 <=? status_code r) && (status_code r <=? 299)) eqn:E;
    [ | reflexivity ].
  apply andb_true_iff in E. exfalso. apply H. lia.
Qed.

Lemma outcome_not_json (r : Response) (m : string) :
  200 <= status_code r <= 299 -> json r = inr m ->
  outcome r = Raise (Exc JSONDecodeError m None None).
Proof.
  intros H Hj. unfold outcome. rewrite Hj.
  destruct ((200 <=? status_code r) && (status_code r <=? 299)) eqn:E;
    [ reflexivity | ].
  apply andb_false_iff in E. lia.
Qed.

(** X1.  A call returns a value only from a 2xx response: when
    [_make_request] returns [v], the reply to the last POST it issued is a
    response with a status in 200..299 whose JSON body is [v]. *)
Theorem success_is_final_2xx_body
    (cfg : Config) (net : Network) (self : TransmissionClient)
    (method : string) (arguments : option dict) (tag : option Z)
    (w w' : World) (v : value) :
  _make_request cfg net self method arguments tag w = (Ok v, w') ->
  exists r,
    reply_to net w w' (length (issued w w')) = Responded r
    /\ 200 <= status_code r <= 299
    /\ json r = inl v.
Proof.
  intros H.
  call_cases H;
    match goal with
    | Ho : outcome ?r = Ok v |- _ =>
        exists r; split; [ assumption | exact (outcome_Ok r v Ho) ]
    end.
Qed.

(** X2.  A first response whose status is neither 2xx nor 409 ends the
    call: it raises [Exception("HTTP error <status>: <text>")], with the
    [HTTPStatusError] as context, after that one POST, and the stored
    token is as before. *)
Theorem error_status_raises
    (cfg : Config) (net : Network) (self : TransmissionClient)
    (method : string) (arguments : option dict) (tag : option Z)
    (w w' : World) (res : Res value) (r : Response) :
  _make_request cfg net self method arguments tag w = (res, w') ->
  reply_to net w w' 1 = Responded r ->
  ~ (200 <= status_code r <= 299) ->
  status_code r <> 409 ->
  res = Raise (Exc Exception
                 ("HTTP error " ++ string_of_Z (status_code r) ++ ": "
                  ++ text r) None
                 (Some (Exc HTTPStatusError "" (Some r) None)))
  /\ length (issued w w') = 1%nat
  /\ transmission_session_id w' = transmission_session_id w.
Proof.
  intros H H1 Hst H409.
  pose proof (refreshed_token_not_409 r H409) as Hnone.
  call_cases H; rewrite H1 in E1; inversion E1; subst; try congruence.
  rewrite (outcome_not_2xx _ Hst). auto.
Qed.

(** X3.  A 2xx response whose body is not JSON makes the call raise the
    decoder's own [JSONDecodeError]: neither [except] clause of
    [_make_request] rewrites it.  One POST was issued and the stored token
    is as before. *)
Theorem malformed_body_raises_decode_error
    (cfg : Config) (net : Network) (self : TransmissionClient)
    (method : string) (arguments : option dict) (tag : option Z)
    (w w' : World) (res : Res value) (r : Response) (m : string) :
  _make_request cfg net self method arguments tag w = (res, w') ->
  reply_to net w w' 1 = Responded r ->
  200 <= status_code r <= 299 ->
  json r = inr m ->
  res = Raise (Exc JSONDecodeError m None None)
  /\ length (issued w w') = 1%nat
  /\ transmission_session_id w' = transmission_session_id w.
Proof.
  intros H H1 Hst Hj.
  assert (H409 : status_code r <> 409) by lia.
  pose proof (refreshed_token_not_409 r H409) as Hnone.
  call_cases H; rewrite H1 in E1; inversion E1; subst; try congruence.
  rewrite (outcome_not_json _ _ Hst Hj). auto.
Qed.

(** X4.  A 409 whose session-id header is there but empty is no
    challenge: the call does not retry, raises the HTTP error of the 409
    and leaves the stored token as it was. *)
Theorem empty_token_header_is_no_challenge
    (cfg : Config) (net : Network) (self : TransmissionClient)
    (method : string) (arguments : option dict) (tag : option Z)
    (w w' : World) (res : Res value) (r : Response) :
  _make_request cfg net self method arguments tag w = (res, w') ->
  reply_to net w w' 1 = Responded r ->
  status_code r = 409 ->
  headers_get (resp_headers r) X_Session_Id = Some "" ->
  res = Raise (http_error r)
  /\ length (issued w w') = 1%nat
  /\ transmission_session_id w' = transmission_session_id w.
Proof.
  intros H H1 H409 Hh.
  assert (Hnone : refreshed_token (Responded r) = None).
  { unfold refreshed_token. rewrite Hh.
    destruct (status_code r =? 409); reflexivity. }
  call_cases H; rewrite H1 in E1; inversion E1; subst; try congruence.
  rewrite (outcome_409 _ H409). auto.
Qed.

Lemma retry_headers (sid : option string) (t : string) :
  dict_set (initial_headers sid) X_Session_Id t
  = [("Content-Type", "application/json"); (X_Session_Id, t)].
Proof.
  unfold initial_headers.
  destruct sid as [ [ | c s ] | ]; reflexivity.
Qed.

(** X5.  After a session challenge the call sends its request again and
    changes nothing but the session-id header: same URL, same JSON body,
    same credentials.  The second request holds exactly two headers, the
    content type and the new token, so a stale token in the first request
    is replaced and never sent along. *)
Theorem retry_resends_same_request
    (cfg : Config) (net : Network) (self : TransmissionClient)
    (method : string) (arguments : option dict) (tag : option Z)
    (w w' : World) (res : Res value) (t : string) :
  _make_request cfg net self method arguments tag w = (res, w') ->
  refreshed_token (reply_to net w w' 1) = Some t ->
  exists r1 r2,
    issued w w' = [r1; r2]
    /\ req_method r2 = req_method r1
    /\ req_url r2 = req_url r1
    /\ req_json r2 = req_json r1
    /\ req_auth r2 = req_auth r1
    /\ req_timeout r2 = req_timeout r1
    /\ req_headers r2
       = [("Content-Type", "application/json"); (X_Session_Id, t)].
Proof.
  intros H Ht.
  call_cases H; rewrite E1 in Ht; try congruence; try discriminate Ht;
    rewrite Ht in Et; inversion Et; subst;
    eexists; eexists; (split; [ reflexivity | ]);
    unfold first_request, retry_request;
    cbn [req_method req_url req_json req_auth req_timeout req_headers];
    rewrite retry_headers; repeat split.
Qed.

(** X6.  A tag other than 0 goes out in every request of the call, the
    retry included; with no tag no request has the field. *)
Theorem nonzero_tag_sent
    (cfg : Config) (net : Network) (self : TransmissionClient)
    (method : string) (arguments : option dict) (tag : option Z)
    (w w' : World) (res : Res value) :
  _make_request cfg net self method arguments tag w = (res, w') ->
  tag <> Some 0 ->
  Forall (fun rq => body_field rq "tag" = option_map VInt tag) (issued w w').
Proof.
  intros H Hz.
  assert (E : assoc "tag" (build_payload method arguments tag)
              = option_map VInt tag).
  { unfold build_payload. destruct tag as [t | ]; [ | reflexivity ].
    destruct (Z.eqb_spec t 0); [ congruence | reflexivity ]. }
  call_cases H; repeat constructor; exact E.
Qed.

(** ** Runs of calls *)

Lemma run_call_posts (cfg : Config) (net : Network) (c : Call) (w : World) :
  exists new,
    posts (run_call cfg net c w) = (posts w ++ new)%list
    /\ (1 <= length new <= 2)%nat
    /\ (transmission_session_id (run_call cfg net c w)
        = transmission_session_id w
        \/ exists t,
             transmission_session_id (run_call cfg net c w) = Some t
             /\ refreshed_token (net (posts w ++ firstn 1 new)%list) = Some t).
Proof.
  unfold run_call.
  destruct (_make_request cfg net (call_self c) (call_method c)
              (call_arguments c) (call_tag c) w) as [res w'] eqn:H.
  call_cases H; cbn [snd posts transmission_session_id];
    eexists; (split; [ reflexivity | ]); cbn [length firstn];
    (split; [ lia | ]); try (left; reflexivity);
    right; eexists; (split; [ reflexivity | ]); rewrite E1; assumption.
Qed.

(** X7.  No caching and no third attempt, over a run: [n] calls in a row
    issue at least [n] and at most [2 n] POSTs, and the log of earlier
    requests is never rewritten. *)
Theorem run_post_bounds
    (cfg : Config) (net : Network) (cs : list Call) (w : World) :
  exists new,
    posts (run_calls cfg net cs w) = (posts w ++ new)%list
    /\ (length cs <= length new <= 2 * length cs)%nat.
Proof.
  revert w. induction cs as [ | c cs IH ]; intros w; cbn [run_calls fold_left].
  - exists []. rewrite app_nil_r. cbn. split; [ reflexivity | lia ].
  - destruct (run_call_posts cfg net c w) as (new1 & Hp1 & Hl1 & _).
    destruct (IH (run_call cfg net c w)) as (new2 & Hp2 & Hl2).
    exists (new1 ++ new2)%list. split.
    + unfold run_calls in Hp2. rewrite Hp2, Hp1, app_assoc. reflexivity.
    + rewrite length_app. cbn [length]. lia.
Qed.

Lemma daemon_issued_app (net : Network) (log more : list Request) (t : string) :
  daemon_issued net log t -> daemon_issued net (log ++ more)%list t.
Proof.
  intros (k & Hk & Ht). exists k. split.
  - rewrite length_app. lia.
  - rewrite firstn_app.
    replace (k - length log)%nat with 0%nat by lia.
    cbn [firstn]. rewrite app_nil_r. exact Ht.
Qed.

Lemma run_calls_token (cfg : Config) (net : Network) (cs : list Call) :
  forall w,
    exists new,
      posts (run_calls cfg net cs w) = (posts w ++ new)%list
      /\ (transmission_session_id (run_calls cfg net cs w)
          = transmission_session_id w
          \/ exists t,
               transmission_session_id (run_calls cfg net cs w) = Some t
               /\ t <> ""
               /\ daemon_issued net (posts (run_calls cfg net cs w)) t).
Proof.
  induction cs as [ | c cs IH ]; intros w; cbn [run_calls fold_left].
  - exists []. rewrite app_nil_r. auto.
  - destruct (run_call_posts cfg net c w) as (new1 & Hp1 & Hl1 & Ht1).
    destruct (IH (run_call cfg net c w)) as (new2 & Hp2 & Ht2).
    unfold run_calls in Hp2, Ht2.
    exists (new1 ++ new2)%list. split.
    + rewrite Hp2, Hp1, app_assoc. reflexivity.
    + destruct Ht2 as [Hsame | Hnew]; [ | right; exact Hnew ].
      destruct Ht1 as [Hsame1 | (t & Hst & Hrt)];
        [ left; congruence | right ].
      exists t. split; [ congruence | ].
      split.
      * destruct (net (posts w ++ firstn 1 new1)%list) as [r | ];
          [ | discriminate Hrt ].
        apply refreshed_token_Some in Hrt. tauto.
      * rewrite Hp2, Hp1, <- app_assoc.
        exists (length (posts w) + 1)%nat. split.
        -- rewrite length_app, length_app. lia.
        -- rewrite firstn_app, firstn_all2 by lia.
           replace (length (posts w) + 1 - length (posts w))%nat
             with 1%nat by lia.
           rewrite firstn_app.
           replace (firstn (1 - length new1) new2) with (@nil Request).
           ++ rewrite app_nil_r. exact Hrt.
           ++ replace (1 - length new1)%nat with 0%nat by lia. reflexivity.
Qed.

(** X8.  The stored token is never made up.  From the freshly loaded
    module, after any run of calls the stored token is absent or is a
    non-empty value that the daemon handed out in a session challenge
    during the run. *)
Theorem stored_token_comes_from_daemon
    (cfg : Config) (net : Network) (cs : list Call) (t : string) :
  transmission_session_id (run_calls cfg net cs initial_world) = Some t ->
  t <> ""
  /\ daemon_issued net (posts (run_calls cfg net cs initial_world)) t.
Proof.
  intros H.
  destruct (run_calls_token cfg net cs initial_world)
    as (new & _ & [Hsame | (t' & Ht' & Hne & Hd)]).
  - rewrite H in Hsame. discriminate Hsame.
  - rewrite H in Ht'. inversion Ht'; subst. auto.
Qed.

(** ** The further properties on the sample runs *)

Lemma success_is_final_2xx_body_witness :
  Sample.run Sample.net_challenge
  = (Ok Sample.success_body, snd (Sample.run Sample.net_challenge))
  /\ exists r,
       reply_to Sample.net_challenge initial_world
         (snd (Sample.run Sample.net_challenge))
         (length (issued initial_world
                    (snd (Sample.run Sample.net_challenge))))
       = Responded r
       /\ 200 <= status_code r <= 299
       /\ json r = inl Sample.success_body.
Proof.
  split; [ reflexivity | ].
  apply (success_is_final_2xx_body Sample.cfg Sample.net_challenge
           Sample.client "session-get" None None initial_world
           (snd (Sample.run Sample.net_challenge)) Sample.success_body).
  reflexivity.
Defined.

Lemma error_status_raises_witness :
  reply_to Sample.net_500 initial_world (snd (Sample.run Sample.net_500)) 1
  = Responded Sample.server_error
  /\ fst (Sample.run Sample.net_500)
     = Raise (Exc Exception "HTTP error 500: Internal Server Error" None
                (Some (Exc HTTPStatusError "" (Some Sample.server_error)
                         None)))
  /\ length (issued initial_world (snd (Sample.run Sample.net_500))) = 1%nat
  /\ transmission_session_id (snd (Sample.run Sample.net_500)) = None.
Proof.
  split; [ reflexivity | ].
  apply (error_status_raises Sample.cfg Sample.net_500 Sample.client
           "session-get" None None initial_world
           (snd (Sample.run Sample.net_500)) (fst (Sample.run Sample.net_500))
           Sample.server_error); try reflexivity; cbn; lia.
Defined.

Lemma malformed_body_raises_decode_error_witness :
  fst (Sample.run Samples.net_html)
  = Raise (Exc JSONDecodeError "Expecting value: line 1 column 1 (char 0)"
             None None)
  /\ length (issued initial_world (snd (Sample.run Samples.net_html)))
     = 1%nat
  /\ transmission_session_id (snd (Sample.run Samples.net_html)) = None.
Proof.
  apply (malformed_body_raises_decode_error Sample.cfg Samples.net_html
           Sample.client "session-get" None None initial_world
           (snd (Sample.run Samples.net_html))
           (fst (Sample.run Samples.net_html)) Samples.html_page);
    try reflexivity; cbn; lia.
Defined.

Lemma empty_token_header_is_no_challenge_witness :
  headers_get (resp_headers Samples.empty_challenge) X_Session_Id = Some ""
  /\ fst (Sample.run Samples.net_empty_challenge)
     = Raise (http_error Samples.empty_challenge)
  /\ length (issued initial_world
               (snd (Sample.run Samples.net_empty_challenge))) = 1%nat
  /\ transmission_session_id (snd (Sample.run Samples.net_empty_challenge))
     = None.
Proof.
  split; [ reflexivity | ].
  apply (empty_token_header_is_no_challenge Sample.cfg
           Samples.net_empty_challenge Sample.client "session-get" None None
           initial_world (snd (Sample.run Samples.net_empty_challenge))
           (fst (Sample.run Samples.net_empty_challenge))
           Samples.empty_challenge); reflexivity.
Defined.

Lemma retry_resends_same_request_witness :
  exists r1 r2,
    issued initial_world (snd (Sample.run Sample.net_challenge)) = [r1; r2]
    /\ req_method r2 = req_method r1
    /\ req_url r2 = req_url r1
    /\ req_json r2 = req_json r1
    /\ req_auth r2 = req_auth r1
    /\ req_timeout r2 = req_timeout r1
    /\ req_headers r2
       = [("Content-Type", "application/json"); (X_Session_Id, "abc123")].
Proof.
  apply (retry_resends_same_request Sample.cfg Sample.net_challenge
           Sample.client "session-get" None None initial_world
           (snd (Sample.run Sample.net_challenge))
           (fst (Sample.run Sample.net_challenge)) "abc123");
    reflexivity.
Defined.

Lemma nonzero_tag_sent_witness :
  Forall (fun rq => body_field rq "tag" = Some (VInt 7))
    (issued initial_world
       (run_call Sample.cfg Sample.net_challenge Samples.torrent_get
          initial_world))
  /\ length
       (issued initial_world
          (run_call Sample.cfg Sample.net_challenge Samples.torrent_get
             initial_world)) = 2%nat.
Proof.
  split; [ | reflexivity ].
  apply (nonzero_tag_sent Sample.cfg Sample.net_challenge Sample.client
           "torrent-get" (Some [("fields", VList [VStr "id"; VStr "name"])])
           (Some 7) initial_world
           (run_call Sample.cfg Sample.net_challenge Samples.torrent_get
              initial_world)
           (fst (_make_request Sample.cfg Sample.net_challenge Sample.client
                   "torrent-get"
                   (Some [("fields", VList [VStr "id"; VStr "name"])])
                   (Some 7) initial_world)));
    [ reflexivity | discriminate ].
Defined.

Lemma stored_token_comes_from_daemon_witness :
  transmission_session_id
    (run_calls Sample.cfg Sample.net_challenge
       [Samples.session_get; Samples.torrent_get] initial_world)
  = Some "abc123"
  /\ "abc123" <> ""
  /\ daemon_issued Sample.net_challenge
       (posts (run_calls Sample.cfg Sample.net_challenge
                 [Samples.session_get; Samples.torrent_get] initial_world))
       "abc123".
Proof.
  split; [ reflexivity | ].
  apply (stored_token_comes_from_daemon Sample.cfg Sample.net_challenge
           [Samples.session_get; Samples.torrent_get] "abc123").
  reflexivity.
Defined.

(** * Further properties of the tool layer *)

(** ** What a tool does to the world *)

Lemma pure_ret {A} (a : A) : pure_M (ret a).
Proof. intros w. reflexivity. Qed.

Lemma pure_raise {A} (e : exc) : pure_M (@raise A e).
Proof. intros w. reflexivity. Qed.

Lemma pure_lift {A} (r : Res A) : pure_M (lift r).
Proof. intros w. reflexivity. Qed.

Lemma pure_bind {A B} (m : M A) (k : A -> M B) :
  pure_M m -> (forall a, pure_M (k a)) -> pure_M (bind m k).
Proof.
  intros Hm Hk w. unfold bind. specialize (Hm w).
  destruct (m w) as [[a | e] w1]; cbn in *; subst w1.
  - apply Hk.
  - reflexivity.
Qed.

(** Takes a goal [pure_M] apart along the binds and the branches. *)
Ltac pure :=
  repeat (cbv zeta;
    lazymatch goal with
    | |- pure_M (ret _) => apply pure_ret
    | |- pure_M (raise _) => apply pure_raise
    | |- pure_M (lift _) => apply pure_lift
    | |- pure_M (bind _ _) => apply pure_bind; [ | intro ]
    | |- pure_M (if ?b then _ else _) => destruct b
    | |- pure_M (match ?x with _ => _ end) => destruct x
    | |- _ => solve [ auto with pure ]
    end).

Create HintDb pure.

Lemma snd_try_except_ret {A} (m : M A) (c : exc_class) (h : exc -> A) (w : World) :
  snd (try_except m [(c, fun e => ret (h e))] w) = snd (m w).
Proof.
  unfold try_except.
  destruct (m w) as [[a | e] w1]; [ reflexivity | ].
  cbn [select_handler]. destruct (isinstance e c); reflexivity.
Qed.

Section ToolWorld.

Context {R : Renderer}.
Variable cfg : Config.
Variable net : Network.

Lemma pure_failure (what : string) (result : value) :
  pure_M (failure what result).
Proof. unfold failure. pure. Qed.

Hint Resolve pure_failure : pure.

Lemma orm_pure {A} (method : string) (m : M A) :
  pure_M m -> one_rpc_M cfg net method m.
Proof. intros H w. left. apply H. Qed.

Lemma orm_bind_pure {A B} (method : string) (m : M A) (k : A -> M B) :
  pure_M m -> (forall a, one_rpc_M cfg net method (k a)) ->
  one_rpc_M cfg net method (bind m k).
Proof.
  intros Hm Hk w. unfold bind. specialize (Hm w).
  destruct (m w) as [[a | e] w1]; cbn in *; subst w1.
  - apply Hk.
  - left. reflexivity.
Qed.

(** After the RPC call nothing touches the world. *)
Lemma snd_bind_rpc {B} (method : string) (arguments : option dict)
    (k : value -> M B) (w : World) :
  (forall v, pure_M (k v)) ->
  snd (bind (rpc cfg net method arguments) k w)
  = snd (rpc cfg net method arguments w).
Proof.
  intros Hk. unfold bind.
  destruct (rpc cfg net method arguments w) as [[v | e] w1];
    [ apply Hk | reflexivity ].
Qed.

Lemma orm_bind_rpc {B} (method : string) (arguments : option dict)
    (k : value -> M B) :
  (forall v, pure_M (k v)) ->
  one_rpc_M cfg net method (bind (rpc cfg net method arguments) k).
Proof.
  intros Hk w. right. exists arguments.
  rewrite snd_bind_rpc by assumption. reflexivity.
Qed.

(** Takes a goal [one_rpc_M] apart: pure steps up to the RPC call, pure
    steps after it. *)
Ltac one_rpc :=
  repeat (cbv zeta;
    lazymatch goal with
    | |- one_rpc_M _ _ _ (bind (rpc _ _ _ _) _) =>
        apply orm_bind_rpc; intro; pure
    | |- one_rpc_M _ _ _ (bind _ _) =>
        apply orm_bind_pure; [ pure | intro ]
    | |- one_rpc_M _ _ _ (if ?b then _ else _) => destruct b
    | |- one_rpc_M _ _ _ (match ?x with _ => _ end) => destruct x
    | |- one_rpc_M _ _ _ _ => apply orm_pure; pure
    end).

Lemma orm_add_torrent (arguments : dict) :
  one_rpc_M cfg net "torrent-add" (add_torrent cfg net arguments).
Proof. unfold add_torrent. one_rpc. Qed.

Lemma orm_remove_torrent (arguments : dict) :
  one_rpc_M cfg net "torrent-remove" (remove_torrent cfg net arguments).
Proof. unfold remove_torrent. one_rpc. Qed.

Lemma orm_start_torrent (arguments : dict) :
  one_rpc_M cfg net "torrent-start" (start_torrent cfg net arguments).
Proof. unfold start_torrent. one_rpc. Qed.

Lemma orm_stop_torrent (arguments : dict) :
  one_rpc_M cfg net "torrent-stop" (stop_torrent cfg net arguments).
Proof. unfold stop_torrent. one_rpc. Qed.

Lemma orm_get_torrent_info (arguments : dict) :
  one_rpc_M cfg net "torrent-get" (get_torrent_info cfg net arguments).
Proof. unfold get_torrent_info. one_rpc. Qed.

Lemma orm_set_torrent_priority (arguments : dict) :
  one_rpc_M cfg net "torrent-set" (set_torrent_priority cfg net arguments).
Proof. unfold set_torrent_priority. one_rpc. Qed.

Lemma orm_set_speed_limits (arguments : dict) :
  one_rpc_M cfg net "session-set" (set_speed_limits cfg net arguments).
Proof. unfold set_speed_limits. one_rpc. Qed.

Lemma orm_search_torrents (arguments : dict) :
  one_rpc_M cfg net "torrent-get" (search_torrents cfg net arguments).
Proof. unfold search_torrents. one_rpc. Qed.

Lemma orm_get_session_stats :
  one_rpc_M cfg net "session-stats" (get_session_stats cfg net).
Proof. unfold get_session_stats. one_rpc. Qed.

Lemma orm_dispatch (name method : string) (arguments : dict) :
  assoc name tool_methods = Some method ->
  one_rpc_M cfg net method (dispatch cfg net name arguments).
Proof.
  unfold tool_methods, dispatch. cbn [assoc].
  repeat match goal with
         | |- context [String.eqb name ?s] =>
             destruct (String.eqb name s);
             [ intros H; inversion H; subst;
               auto using orm_add_torrent, orm_remove_torrent,
                 orm_start_torrent, orm_stop_torrent, orm_get_torrent_info,
                 orm_set_torrent_priority, orm_set_speed_limits,
                 orm_search_torrents, orm_get_session_stats | ]
         end.
  discriminate.
Qed.

End ToolWorld.

(** The requests of one call all carry its method. *)
Lemma call_requests_method (cfg : Config) (net : Network)
    (self : TransmissionClient) (method : string) (arguments : option dict)
    (tag : option Z) (w : World) :
  let w' := snd (_make_request cfg net self method arguments tag w) in
  Forall (fun rq => body_field rq "method" = Some (VStr method)) (issued w w')
  /\ (1 <= length (issued w w') <= 2)%nat.
Proof.
  cbv zeta.
  destruct (_make_request cfg net self method arguments tag w)
    as [res w'] eqn:H.
  assert (E : assoc "method" (build_payload method arguments tag)
              = Some (VStr method)) by apply build_payload_method.
  call_cases H; cbn [snd]; rewrite issued_app;
    (split; [ repeat constructor; exact E | cbn; lia ]).
Qed.

(** X9.  A tool talks to the daemon through one RPC call or not at all.
    For every tool of the catalogue, whatever the arguments, the state
    after [handle_call_tool] is the state before it, or the state after a
    single [_make_request] with the method of that tool: it issues at most
    two POSTs, and every one of them carries that method.  So the tools
    that only read ([get_torrent_info], [search_torrents],
    [get_session_stats]) never send a method that changes the daemon. *)
Theorem tool_issues_one_rpc_or_none
    {R : Renderer} (cfg : Config) (net : Network)
    (name method : string) (arguments : dict) (w : World) :
  assoc name tool_methods = Some method ->
  let w' := snd (handle_call_tool cfg net name arguments w) in
  one_rpc_or_none cfg net method w w'
  /\ Forall (fun rq => body_field rq "method" = Some (VStr method))
       (issued w w')
  /\ (length (issued w w') <= 2)%nat.
Proof.
  intros Hm. cbv zeta.
  unfold handle_call_tool. rewrite snd_try_except_ret.
  pose proof (orm_dispatch cfg net name method arguments Hm w) as Hs.
  split; [ exact Hs | ].
  destruct Hs as [Hw | (a & Hw)]; rewrite Hw.
  - unfold issued. rewrite skipn_all. cbn. split; [ constructor | lia ].
  - pose proof (call_requests_method cfg net (transmission_client cfg)
                  method a None w) as Hc.
    cbv zeta in Hc. destruct Hc as (Hf & Hl). split; [ exact Hf | lia ].
Qed.

(** ** Arguments and the catalogue *)

Lemma bind_lift_Ok {A B} (a : A) (k : A -> M B) :
  bind (lift (Ok a)) k = k a.
Proof. reflexivity. Qed.

Lemma bind_lift_Raise {A B} (e : exc) (k : A -> M B) :
  bind (lift (Raise e)) k = raise e.
Proof. reflexivity. Qed.

Lemma bind_ret {A B} (a : A) (k : A -> M B) : bind (ret a) k = k a.
Proof. reflexivity. Qed.

Section Catalogue.

Context {R : Renderer}.
Variable cfg : Config.
Variable net : Network.

(** A tool whose first step is [arguments[k]] answers a missing [k] with
    the [KeyError] message and leaves the world alone. *)
Lemma missing_key_message (name k : string) (arguments : dict) (w : World)
    (rest : value -> M (list types.TextContent)) :
  dispatch cfg net name arguments
  = bind (lift (dict_getitem arguments k)) rest ->
  assoc k arguments = None ->
  handle_call_tool cfg net name arguments w
  = (Ok (text_content ("Error executing " ++ name ++ ": '" ++ k ++ "'")), w).
Proof.
  intros Hd Hk.
  pose proof (handle_call_tool_cases cfg net name arguments w) as Hc.
  rewrite Hd in Hc. unfold dict_getitem in Hc. rewrite Hk in Hc.
  exact Hc.
Qed.

End Catalogue.

(** X10.  A required argument that is missing is reported, not sent.  For
    every tool of the catalogue and every key its schema lists as
    required: when the arguments lack that key, [handle_call_tool] answers
    ["Error executing <tool>: '<key>'"] for a required key that is
    missing, and issues no request (the world is untouched). *)
Theorem missing_required_argument
    {R : Renderer} (cfg : Config) (net : Network)
    (t : Tool) (arguments : dict) (k : string) (w : World) :
  In t handle_list_tools ->
  In k (required_keys t) ->
  assoc k arguments = None ->
  exists k',
    In k' (required_keys t)
    /\ assoc k' arguments = None
    /\ handle_call_tool cfg net (tool_name t) arguments w
       = (Ok (text_content
                ("Error executing " ++ tool_name t ++ ": '" ++ k' ++ "'")),
          w).
Proof.
  intros Ht Hk Hnone.
  cbn in Ht.
  repeat (destruct Ht as [Ht | Ht];
          [ subst t; cbn in Hk;
            repeat (destruct Hk as [Hk | Hk]; [ subst k | ]);
            try contradiction | ]);
    try contradiction.
  - exists "url". split; [ cbn; auto | split; [ assumption | ] ].
    eapply missing_key_message; [ reflexivity | assumption ].
  - exists "torrent_id". split; [ cbn; auto | split; [ assumption | ] ].
    eapply missing_key_message; [ reflexivity | assumption ].
  - exists "torrent_id". split; [ cbn; auto | split; [ assumption | ] ].
    eapply missing_key_message; [ reflexivity | assumption ].
  - exists "torrent_id". split; [ cbn; auto | split; [ assumption | ] ].
    eapply missing_key_message; [ reflexivity | assumption ].
  - exists "torrent_id". split; [ cbn; auto | split; [ assumption | ] ].
    eapply missing_key_message; [ reflexivity | assumption ].
  - exists "torrent_id". split; [ cbn; auto | split; [ assumption | ] ].
    eapply missing_key_message; [ reflexivity | assumption ].
  - (* set_torrent_priority, the priority is missing *)
    destruct (assoc "torrent_id" arguments) as [tid | ] eqn:Etid.
    + exists "priority". split; [ cbn; auto | split; [ assumption | ] ].
      pose proof (handle_call_tool_cases cfg net "set_torrent_priority"
                    arguments w) as Hc.
      cbn [dispatch String.eqb Ascii.eqb Bool.eqb] in Hc.
      unfold set_torrent_priority, dict_getitem in Hc.
      rewrite Etid, bind_lift_Ok, Hnone in Hc. exact Hc.
    + exists "torrent_id". split; [ cbn; auto | split; [ assumption | ] ].
      eapply missing_key_message; [ reflexivity | assumption ].
  - exists "query". split; [ cbn; auto | split; [ assumption | ] ].
    eapply missing_key_message; [ reflexivity | assumption ].
Qed.

(** The world after a call on the module's client holds at least one new
    request. *)
Lemma rpc_issues (cfg : Config) (net : Network) (method : string)
    (arguments : option dict) (w : World) :
  (1 <= length (issued w (snd (rpc cfg net method arguments w))))%nat.
Proof.
  unfold rpc.
  pose proof (call_requests_method cfg net (transmission_client cfg) method
                arguments None w) as H.
  cbv zeta in H. lia.
Qed.

(** A string argument, an integer argument, as the schema declares
    them. *)
Lemma conforms_string (t : Tool) (arguments : dict) (k : string) :
  conforms t arguments ->
  In k (required_keys t) ->
  property_type t k = Some "string" ->
  exists s, assoc k arguments = Some (VStr s).
Proof.
  intros [Hreq Hty] Hk Hp.
  destruct (assoc k arguments) as [v | ] eqn:E;
    [ | exfalso; exact (Hreq k Hk E) ].
  specialize (Hty k v "string" E Hp). cbn in Hty.
  destruct v; try discriminate Hty. eauto.
Qed.

Lemma conforms_present (t : Tool) (arguments : dict) (k : string) :
  conforms t arguments ->
  In k (required_keys t) ->
  exists v, assoc k arguments = Some v.
Proof.
  intros [Hreq _] Hk.
  destruct (assoc k arguments) as [v | ] eqn:E;
    [ eauto | exfalso; exact (Hreq k Hk E) ].
Qed.

Lemma conforms_optional_integer (t : Tool) (arguments : dict) (k : string) :
  conforms t arguments ->
  property_type t k = Some "integer" ->
  assoc k arguments = None \/ exists n, assoc k arguments = Some (VInt n).
Proof.
  intros [_ Hty] Hp.
  destruct (assoc k arguments) as [v | ] eqn:E; [ right | left; reflexivity ].
  specialize (Hty k v "integer" E Hp). cbn in Hty.
  destruct v; try discriminate Hty. eauto.
Qed.

#[export] Hint Resolve pure_failure : pure.

Section Reach.

Context {R : Renderer}.
Variable cfg : Config.
Variable net : Network.

(** The arguments [add_torrent] sends for the URL [s]. *)
Lemma add_torrent_reaches (arguments : dict) (s : string) (w : World) :
  assoc "url" arguments = Some (VStr s) ->
  snd (add_torrent cfg net arguments w)
  = snd (rpc cfg net "torrent-add"
           (Some ([(if startswith s "magnet:" || startswith s "http"
                    then "filename" else "metainfo", VStr s)]
                  ++ (if py_truthy (dict_get arguments "download_dir" VNone)
                      then [("download-dir",
                             dict_get arguments "download_dir" VNone)]
                      else [])
                  ++ [("paused", dict_get arguments "paused" (VBool false))])%list)
           w).
Proof.
  intros Hu. unfold add_torrent, dict_getitem. rewrite Hu, bind_lift_Ok.
  cbn [py_startswith]. rewrite bind_lift_Ok.
  destruct (startswith s "magnet:"); cbn [orb];
    [ | rewrite bind_lift_Ok; destruct (startswith s "http") ];
    rewrite bind_ret;
    destruct (py_truthy (dict_get arguments "download_dir" VNone));
    cbn [dict_set String.eqb Ascii.eqb Bool.eqb app];
    (rewrite snd_bind_rpc; [ reflexivity | intro; pure ]).
Qed.

Lemma set_torrent_priority_reaches (arguments : dict) (tid : value)
    (s : string) (w : World) :
  assoc "torrent_id" arguments = Some tid ->
  assoc "priority" arguments = Some (VStr s) ->
  snd (set_torrent_priority cfg net arguments w)
  = snd (rpc cfg net "torrent-set"
           (Some [("ids", VList [tid]);
                  ("bandwidthPriority",
                   VInt (if String.eqb s "high" then 1
                         else if String.eqb s "low" then -1 else 0))])
           w).
Proof.
  intros Ht Hp. unfold set_torrent_priority, dict_getitem.
  rewrite Ht, bind_lift_Ok, Hp, bind_lift_Ok.
  assert (E : priority_value (VStr s)
              = Ok (if String.eqb s "high" then 1
                    else if String.eqb s "low" then -1 else 0)).
  { unfold priority_value, priority_map. cbn.
    destruct (String.eqb s "high"); [ reflexivity | ].
    destruct (String.eqb s "normal") eqn:En.
    - apply String.eqb_eq in En. subst s. reflexivity.
    - destruct (String.eqb s "low"); reflexivity. }
  rewrite E, bind_lift_Ok.
  rewrite snd_bind_rpc; [ reflexivity | intro; pure ].
Qed.

Lemma set_speed_limits_reaches (arguments : dict) (down up : option Z)
    (w : World) :
  assoc "download_limit" arguments = option_map VInt down ->
  assoc "upload_limit" arguments = option_map VInt up ->
  snd (set_speed_limits cfg net arguments w)
  = snd (rpc cfg net "session-set"
           (Some (limit_fields "speed-limit-down-enabled" "speed-limit-down"
                    down
                  ++ limit_fields "speed-limit-up-enabled" "speed-limit-up"
                       up)%list)
           w).
Proof.
  intros Hd Hu. unfold set_speed_limits, add_limit, dict_contains, dict_getitem.
  rewrite Hd, Hu.
  assert (Egt : forall n, py_gt_int (VInt n) 0 = Ok (0 <? n)).
  { intros n. unfold py_gt_int, num_cmp_Z. rewrite Z.ltb_antisym.
    unfold Z.leb. destruct (n ?= 0); reflexivity. }
  destruct down as [d | ], up as [u | ]; cbn [option_map rbind limit_fields];
    rewrite ?Egt; cbn [rbind];
    rewrite ?bind_lift_Ok;
    cbn [dict_set String.eqb Ascii.eqb Bool.eqb app];
    (rewrite snd_bind_rpc; [ reflexivity | intro; pure ]).
Qed.

End Reach.

(** Every request of an RPC call carries the method and the arguments. *)
Lemma rpc_requests (cfg : Config) (net : Network) (method : string)
    (a : dict) (w : World) :
  let w' := snd (rpc cfg net method (Some a) w) in
  Forall (fun rq => body_field rq "method" = Some (VStr method)
                    /\ body_field rq "arguments" = Some (VDict a))
    (issued w w')
  /\ (1 <= length (issued w w') <= 2)%nat.
Proof.
  cbv zeta. unfold rpc.
  destruct (_make_request cfg net (transmission_client cfg) method (Some a)
              None w) as [res w'] eqn:H.
  assert (E1 : assoc "method" (build_payload method (Some a) None)
               = Some (VStr method)) by apply build_payload_method.
  assert (E2 : assoc "arguments" (build_payload method (Some a) None)
               = Some (VDict a)) by apply build_payload_arguments.
  call_cases H; cbn [snd]; rewrite issued_app;
    (split; [ repeat constructor; assumption | cbn; lia ]).
Qed.

Section ReachMore.

Context {R : Renderer}.
Variable cfg : Config.
Variable net : Network.

Lemma remove_torrent_reaches (arguments : dict) (tid : value) (w : World) :
  assoc "torrent_id" arguments = Some tid ->
  snd (remove_torrent cfg net arguments w)
  = snd (rpc cfg net "torrent-remove"
           (Some [("ids", VList [tid]);
                  ("delete-local-data",
                   dict_get arguments "delete_local_data" (VBool false))])
           w).
Proof.
  intros Ht. unfold remove_torrent, dict_getitem. rewrite Ht, bind_lift_Ok.
  cbv zeta. rewrite snd_bind_rpc; [ reflexivity | intro; pure ].
Qed.

Lemma start_torrent_reaches (arguments : dict) (tid : value) (w : World) :
  assoc "torrent_id" arguments = Some tid ->
  snd (start_torrent cfg net arguments w)
  = snd (rpc cfg net "torrent-start" (Some [("ids", VList [tid])]) w).
Proof.
  intros Ht. unfold start_torrent, dict_getitem. rewrite Ht, bind_lift_Ok.
  rewrite snd_bind_rpc; [ reflexivity | intro; pure ].
Qed.

Lemma stop_torrent_reaches (arguments : dict) (tid : value) (w : World) :
  assoc "torrent_id" arguments = Some tid ->
  snd (stop_torrent cfg net arguments w)
  = snd (rpc cfg net "torrent-stop" (Some [("ids", VList [tid])]) w).
Proof.
  intros Ht. unfold stop_torrent, dict_getitem. rewrite Ht, bind_lift_Ok.
  rewrite snd_bind_rpc; [ reflexivity | intro; pure ].
Qed.

Lemma get_torrent_info_reaches (arguments : dict) (tid : value) (w : World) :
  assoc "torrent_id" arguments = Some tid ->
  snd (get_torrent_info cfg net arguments w)
  = snd (rpc cfg net "torrent-get"
           (Some [("ids", VList [tid]); ("fields", VList info_fields)]) w).
Proof.
  intros Ht. unfold get_torrent_info, dict_getitem. rewrite Ht, bind_lift_Ok.
  rewrite snd_bind_rpc; [ reflexivity | intro; pure ].
Qed.

Lemma search_torrents_reaches (arguments : dict) (q : string) (w : World) :
  assoc "query" arguments = Some (VStr q) ->
  snd (search_torrents cfg net arguments w)
  = snd (rpc cfg net "torrent-get"
           (Some [("fields", VList search_fields)]) w).
Proof.
  intros Hq. unfold search_torrents, dict_getitem.
  rewrite Hq, bind_lift_Ok. cbn [py_lower]. rewrite bind_lift_Ok.
  cbv zeta. rewrite snd_bind_rpc; [ reflexivity | intro; pure ].
Qed.

Lemma get_session_stats_reaches (w : World) :
  snd (get_session_stats cfg net w)
  = snd (rpc cfg net "session-stats" None w).
Proof.
  unfold get_session_stats.
  rewrite snd_bind_rpc; [ reflexivity | intro; pure ].
Qed.

Lemma snd_handle_call_tool (name : string) (arguments : dict) (w : World) :
  snd (handle_call_tool cfg net name arguments w)
  = snd (dispatch cfg net name arguments w).
Proof. unfold handle_call_tool. apply snd_try_except_ret. Qed.

End ReachMore.

(** X11.  Arguments that fit the declared schema always reach the daemon.
    For every tool of the catalogue, when the arguments hold every
    required key and each declared argument has its declared type, the
    handler gets past its own checks: the state after [handle_call_tool]
    is the state after one [_make_request] with the method of the tool, so
    at least one POST is issued. *)
Theorem conforming_arguments_reach_daemon
    {R : Renderer} (cfg : Config) (net : Network)
    (t : Tool) (arguments : dict) (w : World) :
  In t handle_list_tools ->
  conforms t arguments ->
  exists method a,
    assoc (tool_name t) tool_methods = Some method
    /\ snd (handle_call_tool cfg net (tool_name t) arguments w)
       = snd (_make_request cfg net (transmission_client cfg) method a None w)
    /\ (1 <= length (issued w (snd (handle_call_tool cfg net (tool_name t)
                                      arguments w))))%nat.
Proof.
  intros Ht Hc.
  assert (Hgoal : exists method a,
            assoc (tool_name t) tool_methods = Some method
            /\ snd (handle_call_tool cfg net (tool_name t) arguments w)
               = snd (rpc cfg net method a w)).
  { rewrite snd_handle_call_tool. cbn in Ht.
    repeat (destruct Ht as [Ht | Ht]; [ subst t | ]); try contradiction;
      cbn [tool_name dispatch String.eqb Ascii.eqb Bool.eqb].
    - destruct (conforms_string _ _ "url" Hc) as (s & Hs);
        [ cbn; auto | reflexivity | ].
      do 2 eexists. split; [ reflexivity | ].
      apply (add_torrent_reaches cfg net arguments s w Hs).
    - destruct (conforms_present _ _ "torrent_id" Hc) as (v & Hv);
        [ cbn; auto | ].
      do 2 eexists. split; [ reflexivity | ].
      apply (remove_torrent_reaches cfg net arguments v w Hv).
    - destruct (conforms_present _ _ "torrent_id" Hc) as (v & Hv);
        [ cbn; auto | ].
      do 2 eexists. split; [ reflexivity | ].
      apply (start_torrent_reaches cfg net arguments v w Hv).
    - destruct (conforms_present _ _ "torrent_id" Hc) as (v & Hv);
        [ cbn; auto | ].
      do 2 eexists. split; [ reflexivity | ].
      apply (stop_torrent_reaches cfg net arguments v w Hv).
    - destruct (conforms_present _ _ "torrent_id" Hc) as (v & Hv);
        [ cbn; auto | ].
      do 2 eexists. split; [ reflexivity | ].
      apply (get_torrent_info_reaches cfg net arguments v w Hv).
    - destruct (conforms_present _ _ "torrent_id" Hc) as (v & Hv);
        [ cbn; auto | ].
      destruct (conforms_string _ _ "priority" Hc) as (s & Hs);
        [ cbn; auto | reflexivity | ].
      do 2 eexists. split; [ reflexivity | ].
      apply (set_torrent_priority_reaches cfg net arguments v s w Hv Hs).
    - assert (Hd : exists d, assoc "download_limit" arguments
                             = option_map VInt d).
      { destruct (conforms_optional_integer _ _ "download_limit" Hc eq_refl)
          as [E | (n & E)]; [ exists None | exists (Some n) ]; exact E. }
      assert (Hu : exists u, assoc "upload_limit" arguments
                             = option_map VInt u).
      { destruct (conforms_optional_integer _ _ "upload_limit" Hc eq_refl)
          as [E | (n & E)]; [ exists None | exists (Some n) ]; exact E. }
      destruct Hd as (d & Hd). destruct Hu as (u & Hu).
      do 2 eexists. split; [ reflexivity | ].
      apply (set_speed_limits_reaches cfg net arguments d u w Hd Hu).
    - destruct (conforms_string _ _ "query" Hc) as (s & Hs);
        [ cbn; auto | reflexivity | ].
      do 2 eexists. split; [ reflexivity | ].
      apply (search_torrents_reaches cfg net arguments s w Hs).
    - do 2 eexists. split; [ reflexivity | ].
      apply get_session_stats_reaches. }
  destruct Hgoal as (method & a & Hm & Hw).
  exists method, a. split; [ exact Hm | split; [ exact Hw | ] ].
  rewrite Hw. apply rpc_issues.
Qed.

(** ** What the tools send *)

(** X12.  [set_torrent_priority] sends the priority name as a number:
    ["high"] as 1, ["low"] as -1 and every other string as 0, so a name
    the schema does not list is sent as normal priority.  When the daemon
    reports success the answer repeats the name as it was given. *)
Theorem priority_sent_as_bandwidth
    {R : Renderer} (cfg : Config) (net : Network)
    (arguments : dict) (tid : value) (s : string) (w : World) :
  assoc "torrent_id" arguments = Some tid ->
  assoc "priority" arguments = Some (VStr s) ->
  let sent :=
    [("ids", VList [tid]);
     ("bandwidthPriority",
      VInt (if String.eqb s "high" then 1
            else if String.eqb s "low" then -1 else 0))] in
  let w' := snd (handle_call_tool cfg net "set_torrent_priority" arguments w) in
  Forall (fun rq => body_field rq "method" = Some (VStr "torrent-set")
                    /\ body_field rq "arguments" = Some (VDict sent))
    (issued w w')
  /\ (1 <= length (issued w w') <= 2)%nat
  /\ forall result w1,
       rpc cfg net "torrent-set" (Some sent) w = (Ok result, w1) ->
       is_success result = Ok true ->
       handle_call_tool cfg net "set_torrent_priority" arguments w
       = (Ok (text_content ("Torrent " ++ py_str tid ++ " priority set to "
                            ++ s)), w1).
Proof.
  intros Ht Hp. cbv zeta.
  rewrite snd_handle_call_tool.
  cbn [dispatch String.eqb Ascii.eqb Bool.eqb].
  rewrite (set_torrent_priority_reaches cfg net arguments tid s w Ht Hp).
  pose proof (rpc_requests cfg net "torrent-set"
                [("ids", VList [tid]);
                 ("bandwidthPriority",
                  VInt (if String.eqb s "high" then 1
                        else if String.eqb s "low" then -1 else 0))] w) as Hr.
  cbv zeta in Hr. destruct Hr as (Hf & Hl).
  split; [ exact Hf | split; [ exact Hl | ] ].
  intros result w1 Hrpc Hok.
  pose proof (handle_call_tool_cases cfg net "set_torrent_priority"
                arguments w) as Hc.
  cbn [dispatch String.eqb Ascii.eqb Bool.eqb] in Hc.
  unfold set_torrent_priority, dict_getitem in Hc.
  rewrite Ht, bind_lift_Ok, Hp, bind_lift_Ok in Hc.
  assert (E : priority_value (VStr s)
              = Ok (if String.eqb s "high" then 1
                    else if String.eqb s "low" then -1 else 0)).
  { unfold priority_value, priority_map. cbn.
    destruct (String.eqb s "high"); [ reflexivity | ].
    destruct (String.eqb s "normal") eqn:En.
    - apply String.eqb_eq in En. subst s. reflexivity.
    - destruct (String.eqb s "low"); reflexivity. }
  rewrite E, bind_lift_Ok in Hc.
  unfold bind at 1 in Hc. rewrite Hrpc in Hc.
  rewrite Hok, bind_lift_Ok in Hc. exact Hc.
Qed.

(** X13.  [set_speed_limits] sends, for each limit that is given, the
    limit itself and a flag that is on exactly when the limit is above 0:
    a limit of 0 or less switches the limit off and is still sent.  A
    limit that is not given sends nothing, and with neither limit the
    request goes out with empty arguments. *)
Theorem speed_limits_sent
    {R : Renderer} (cfg : Config) (net : Network)
    (arguments : dict) (down up : option Z) (w : World) :
  assoc "download_limit" arguments = option_map VInt down ->
  assoc "upload_limit" arguments = option_map VInt up ->
  let sent :=
    (limit_fields "speed-limit-down-enabled" "speed-limit-down" down
     ++ limit_fields "speed-limit-up-enabled" "speed-limit-up" up)%list in
  let w' := snd (handle_call_tool cfg net "set_speed_limits" arguments w) in
  Forall (fun rq => body_field rq "method" = Some (VStr "session-set")
                    /\ body_field rq "arguments" = Some (VDict sent))
    (issued w w')
  /\ (1 <= length (issued w w') <= 2)%nat.
Proof.
  intros Hd Hu. cbv zeta.
  rewrite snd_handle_call_tool.
  cbn [dispatch String.eqb Ascii.eqb Bool.eqb].
  rewrite (set_speed_limits_reaches cfg net arguments down up w Hd Hu).
  apply rpc_requests.
Qed.

(** X14.  [add_torrent] sends the URL as ["filename"] when it starts with
    ["magnet:"] or with ["http"] (the test is on the exact characters, so
    an upper-case scheme does not count) and as ["metainfo"] otherwise,
    never as both; ["download-dir"] goes along only when a non-empty
    directory is given, and ["paused"] always does, [false] by default. *)
Theorem add_torrent_sent
    {R : Renderer} (cfg : Config) (net : Network)
    (arguments : dict) (s : string) (w : World) :
  assoc "url" arguments = Some (VStr s) ->
  let download_dir := dict_get arguments "download_dir" VNone in
  let sent :=
    ([(if startswith s "magnet:" || startswith s "http"
       then "filename" else "metainfo", VStr s)]
     ++ (if py_truthy download_dir then [("download-dir", download_dir)]
         else [])
     ++ [("paused", dict_get arguments "paused" (VBool false))])%list in
  let w' := snd (handle_call_tool cfg net "add_torrent" arguments w) in
  Forall (fun rq => body_field rq "method" = Some (VStr "torrent-add")
                    /\ body_field rq "arguments" = Some (VDict sent))
    (issued w w')
  /\ (1 <= length (issued w w') <= 2)%nat.
Proof.
  intros Hs. cbv zeta.
  rewrite snd_handle_call_tool.
  cbn [dispatch String.eqb Ascii.eqb Bool.eqb].
  rewrite (add_torrent_reaches cfg net arguments s w Hs).
  apply rpc_requests.
Qed.

(** ** Edge cases of the search *)

Lemma bind_ext {A B} (m : M A) (k1 k2 : A -> M B) :
  (forall a w, k1 a w = k2 a w) -> forall w, bind m k1 w = bind m k2 w.
Proof.
  intros H w. unfold bind.
  destruct (m w) as [[a | e] w1]; [ apply H | reflexivity ].
Qed.

Lemma try_except_ext {A} (m1 m2 : M A) (hs : list (exc_class * (exc -> M A))) :
  (forall w, m1 w = m2 w) ->
  forall w, try_except m1 hs w = try_except m2 hs w.
Proof. intros H w. unfold try_except. rewrite H. reflexivity. Qed.

Lemma select_unknown_filter (query s : string) (torrents : list value) :
  assoc s filter_status_map = None ->
  select_torrents query (VStr s) torrents
  = filter_res (name_matches query) torrents.
Proof.
  intros Hs. unfold select_torrents. cbn [py_eq_str check_hashable rbind].
  rewrite Hs.
  destruct (filter_res (name_matches query) torrents) as [m | e];
    cbn [rbind]; [ | reflexivity ].
  destruct (negb (String.eqb s "all")); reflexivity.
Qed.

Lemma select_all (query : string) (torrents : list value) :
  select_torrents query (VStr "all") torrents
  = filter_res (name_matches query) torrents.
Proof.
  unfold select_torrents. cbn.
  destruct (filter_res (name_matches query) torrents); reflexivity.
Qed.

(** X15.  A status filter that is not one of the four names of the filter
    table is ignored without a word: the search answers exactly as with
    no status filter at all (which is ["all"]).  So ["Seeding"] with a
    capital, or ["stopped"], filters nothing. *)
Theorem unknown_status_filter_is_ignored
    {R : Renderer} (cfg : Config) (net : Network)
    (a1 a2 : dict) (s : string) (w : World) :
  assoc "query" a1 = assoc "query" a2 ->
  assoc "status_filter" a1 = Some (VStr s) ->
  assoc s filter_status_map = None ->
  assoc "status_filter" a2 = None ->
  handle_call_tool cfg net "search_torrents" a1 w
  = handle_call_tool cfg net "search_torrents" a2 w.
Proof.
  intros Hq H1 Hs H2. revert w.
  unfold handle_call_tool. apply try_except_ext.
  cbn [dispatch String.eqb Ascii.eqb Bool.eqb].
  unfold search_torrents, dict_getitem, dict_get.
  rewrite Hq, H1, H2.
  intros w.
  repeat first
    [ apply bind_ext; intros ? ?
    | match goal with
      | |- (if ?b then _ else _) _ = (if ?b then _ else _) _ => destruct b
      end
    | reflexivity ].
  rewrite select_unknown_filter by assumption.
  rewrite select_all. reflexivity.
Qed.

Lemma name_matches_ok_or_attribute_error (query : string) (t : value) :
  match name_matches query t with
  | Ok _ => True
  | Raise e => exc_cls e = AttributeError
  end.
Proof.
  unfold name_matches, py_get, py_lower.
  destruct t; cbn; try reflexivity.
  destruct (dict_get d "name" (VStr "")); cbn; try reflexivity; exact I.
Qed.

Lemma filter_res_raises {A} (p : A -> Res bool) (l : list A) (x : A) (e : exc)
    (P : exc -> Prop) :
  (forall y e', p y = Raise e' -> P e') ->
  In x l -> p x = Raise e ->
  exists e', filter_res p l = Raise e' /\ P e'.
Proof.
  intros HP. induction l as [ | y l IH ]; intros Hin Hx; [ contradiction | ].
  cbn [filter_res].
  destruct (p y) as [b | ey] eqn:Ey; cbn [rbind].
  - destruct Hin as [E | Hin]; [ subst y; congruence | ].
    destruct (IH Hin Hx) as (e' & He' & HPe'). rewrite He'. cbn. eauto.
  - exists ey. split; [ reflexivity | eauto ].
Qed.

(** X16.  One malformed entry fails the whole search.  When the torrent
    list holds an entry that is no object, or whose ["name"] is no string,
    the selection raises an [AttributeError] whatever the query and the
    status filter, also when the entry would not have matched. *)
Theorem malformed_torrent_fails_search
    (query : string) (status_filter : value) (torrents : list value)
    (t : value) :
  In t torrents ->
  (forall d, t <> VDict d)
  \/ (exists d v, t = VDict d /\ assoc "name" d = Some v
                  /\ forall s, v <> VStr s) ->
  exists e,
    select_torrents query status_filter torrents = Raise e
    /\ exc_cls e = AttributeError.
Proof.
  intros Hin Hbad.
  assert (Hr : exists e, name_matches query t = Raise e).
  { unfold name_matches, py_get, py_lower.
    destruct Hbad as [Hnd | (d & v & Ht & Hn & Hv)].
    - destruct t; cbn; eauto. exfalso. exact (Hnd d eq_refl).
    - subst t. cbn. unfold dict_get. rewrite Hn.
      destruct v; cbn; eauto. exfalso. exact (Hv s eq_refl). }
  destruct Hr as (e & He).
  destruct (filter_res_raises (name_matches query) torrents t e
              (fun e' => exc_cls e' = AttributeError)) as (e' & He' & Hc);
    [ | assumption | assumption | ].
  - intros y e0 Hy.
    pose proof (name_matches_ok_or_attribute_error query y) as H.
    rewrite Hy in H. exact H.
  - exists e'. unfold select_torrents. rewrite He'. cbn. auto.
Qed.

Lemma filter_res_is_filter {A} (p : A -> Res bool) (l kept : list A) :
  filter_res p l = Ok kept ->
  kept = filter (fun x => match p x with Ok true => true | _ => false end) l.
Proof.
  revert kept. induction l as [ | x l IH ]; cbn; intros kept H.
  - inversion H. reflexivity.
  - destruct (p x) as [b | e]; cbn in H; [ | discriminate H ].
    destruct (filter_res p l) as [r | e]; cbn in H; [ | discriminate H ].
    inversion H; subst. rewrite (IH r eq_refl). destruct b; reflexivity.
Qed.

Lemma filter_filter {A} (f g : A -> bool) (l : list A) :
  filter g (filter f l) = filter (fun x => f x && g x) l.
Proof.
  induction l as [ | x l IH ]; cbn; [ reflexivity | ].
  destruct (f x); cbn; [ destruct (g x) | ]; rewrite IH; reflexivity.
Qed.

(** X17.  The search shows torrents of the daemon's list and nothing
    else: what [select_torrents] keeps is the list filtered by a test on
    the single torrent, so the kept torrents stand in the order of the
    list and none is made up or shown twice over. *)
Theorem selection_is_a_filter
    (query : string) (status_filter : value) (torrents kept : list value) :
  select_torrents query status_filter torrents = Ok kept ->
  exists keep : value -> bool,
    kept = filter keep torrents
    /\ forall t, keep t = true -> name_matches query t = Ok true.
Proof.
  unfold select_torrents. intros H.
  destruct (filter_res (name_matches query) torrents) as [m | e] eqn:Em;
    cbn [rbind] in H; [ | discriminate H ].
  pose proof (filter_res_is_filter _ _ _ Em) as Hm.
  set (f := fun x => match name_matches query x with
                     | Ok true => true | _ => false end) in *.
  assert (Hf : forall t, f t = true -> name_matches query t = Ok true).
  { intros t. unfold f. destruct (name_matches query t) as [[ | ] | ];
      congruence. }
  assert (Hsame : kept = m -> exists keep : value -> bool,
            kept = filter keep torrents
            /\ forall t, keep t = true -> name_matches query t = Ok true).
  { intros E. exists f. subst. auto. }
  destruct (negb (py_eq_str status_filter "all"));
    [ | inversion H; auto ].
  destruct (check_hashable status_filter); cbn [rbind] in H;
    [ | discriminate H ].
  destruct status_filter; try (inversion H; auto; fail).
  destruct (assoc s filter_status_map) as [codes | ];
    [ | inversion H; auto ].
  pose proof (filter_res_is_filter _ _ _ H) as Hk.
  exists (fun x => f x && match status_in codes x with
                          | Ok true => true | _ => false end).
  split.
  - rewrite Hk, Hm. apply filter_filter.
  - intros t Ht. apply andb_true_iff in Ht. apply Hf. tauto.
Qed.

(** X18.  The empty query matches every name.  On a list whose entries
    are objects with a string name or with no name, the search for [""]
    with no status filter keeps the whole list. *)
Theorem empty_query_keeps_all
    (torrents : list value) :
  (forall t, In t torrents ->
     exists d, t = VDict d
               /\ (assoc "name" d = None
                   \/ exists s, assoc "name" d = Some (VStr s))) ->
  select_torrents "" (VStr "all") torrents = Ok torrents.
Proof.
  intros H. rewrite select_all.
  induction torrents as [ | t ts IH ]; [ reflexivity | ].
  cbn [filter_res].
  assert (Ht : name_matches "" t = Ok true).
  { destruct (H t (or_introl eq_refl)) as (d & E & Hn). subst t.
    unfold name_matches, py_get, dict_get. cbn [rbind].
    destruct Hn as [Hn | (s & Hn)]; rewrite Hn; cbn [py_lower rbind].
    - reflexivity.
    - destruct (lower s); reflexivity. }
  rewrite Ht. cbn [rbind].
  rewrite IH; [ reflexivity | ].
  intros t' Hin. apply H. right. exact Hin.
Qed.

(** ** The further properties of the tool layer on sample inputs *)

Lemma tool_issues_one_rpc_or_none_witness :
  Forall (fun rq => body_field rq "method" = Some (VStr "torrent-get"))
    (issued initial_world
       (snd (handle_call_tool Sample.cfg Sample.net_challenge
               "search_torrents" [("query", VStr "ubuntu")] initial_world)))
  /\ length
       (issued initial_world
          (snd (handle_call_tool Sample.cfg Sample.net_challenge
                  "search_torrents" [("query", VStr "ubuntu")]
                  initial_world))) = 2%nat.
Proof.
  split; [ | reflexivity ].
  apply (proj1 (proj2
    (tool_issues_one_rpc_or_none Sample.cfg Sample.net_challenge
       "search_torrents" "torrent-get" [("query", VStr "ubuntu")]
       initial_world eq_refl))).
Defined.

Lemma missing_required_argument_witness :
  exists k',
    In k' (required_keys Samples.priority_tool)
    /\ assoc k' [("torrent_id", VInt 3)] = None
    /\ handle_call_tool Sample.cfg Sample.net_ok "set_torrent_priority"
         [("torrent_id", VInt 3)] initial_world
       = (Ok (text_content
                ("Error executing set_torrent_priority: '" ++ k' ++ "'")),
          initial_world).
Proof.
  apply (missing_required_argument Sample.cfg Sample.net_ok
           Samples.priority_tool [("torrent_id", VInt 3)] "priority"
           initial_world).
  - cbn. tauto.
  - cbn. tauto.
  - reflexivity.
Defined.

Lemma priority_arguments_conform :
  conforms Samples.priority_tool Samples.priority_arguments.
Proof.
  split.
  - intros k Hk. cbn in Hk.
    destruct Hk as [E | [E | []]]; subst k; discriminate.
  - intros k v ty Ha Hp. cbn in Ha.
    destruct (String.eqb_spec k "torrent_id") as [E | _].
    + subst k. inversion Ha; subst v. cbn in Hp. inversion Hp; subst ty.
      reflexivity.
    + destruct (String.eqb_spec k "priority") as [E | _].
      * subst k. inversion Ha; subst v. cbn in Hp. inversion Hp; subst ty.
        reflexivity.
      * discriminate Ha.
Defined.

Lemma conforming_arguments_reach_daemon_witness :
  exists method a,
    assoc "set_torrent_priority" tool_methods = Some method
    /\ snd (handle_call_tool Sample.cfg Sample.net_ok "set_torrent_priority"
              Samples.priority_arguments initial_world)
       = snd (_make_request Sample.cfg Sample.net_ok
                (transmission_client Sample.cfg) method a None initial_world)
    /\ (1 <= length
              (issued initial_world
                 (snd (handle_call_tool Sample.cfg Sample.net_ok
                         "set_torrent_priority" Samples.priority_arguments
                         initial_world))))%nat.
Proof.
  apply (conforming_arguments_reach_daemon Sample.cfg Sample.net_ok
           Samples.priority_tool Samples.priority_arguments initial_world).
  - cbn. tauto.
  - exact priority_arguments_conform.
Defined.

Lemma priority_sent_as_bandwidth_witness :
  Forall (fun rq =>
            body_field rq "method" = Some (VStr "torrent-set")
            /\ body_field rq "arguments"
               = Some (VDict [("ids", VList [VInt 3]);
                              ("bandwidthPriority", VInt 0)]))
    (issued initial_world
       (snd (handle_call_tool Sample.cfg (Samples.net_result "success" [])
               "set_torrent_priority"
               [("torrent_id", VInt 3); ("priority", VStr "urgent")]
               initial_world)))
  /\ fst (handle_call_tool Sample.cfg (Samples.net_result "success" [])
            "set_torrent_priority"
            [("torrent_id", VInt 3); ("priority", VStr "urgent")]
            initial_world)
     = Ok (text_content "Torrent 3 priority set to urgent").
Proof.
  split; [ | reflexivity ].
  apply (proj1
    (priority_sent_as_bandwidth Sample.cfg (Samples.net_result "success" [])
       [("torrent_id", VInt 3); ("priority", VStr "urgent")] (VInt 3)
       "urgent" initial_world eq_refl eq_refl)).
Defined.

Lemma speed_limits_sent_witness :
  Forall (fun rq =>
            body_field rq "method" = Some (VStr "session-set")
            /\ body_field rq "arguments"
               = Some (VDict [("speed-limit-down-enabled", VBool false);
                              ("speed-limit-down", VInt 0)]))
    (issued initial_world
       (snd (handle_call_tool Sample.cfg Sample.net_ok "set_speed_limits"
               [("download_limit", VInt 0)] initial_world))).
Proof.
  apply (proj1
    (speed_limits_sent Sample.cfg Sample.net_ok [("download_limit", VInt 0)]
       (Some 0) None initial_world eq_refl eq_refl)).
Defined.

Lemma add_torrent_sent_witness :
  Forall (fun rq =>
            body_field rq "method" = Some (VStr "torrent-add")
            /\ body_field rq "arguments"
               = Some (VDict [("metainfo", VStr "HTTP://EXAMPLE.ORG/a.torrent");
                              ("paused", VBool false)]))
    (issued initial_world
       (snd (handle_call_tool Sample.cfg Sample.net_ok "add_torrent"
               [("url", VStr "HTTP://EXAMPLE.ORG/a.torrent");
                ("download_dir", VStr "")] initial_world))).
Proof.
  apply (proj1
    (add_torrent_sent Sample.cfg Sample.net_ok
       [("url", VStr "HTTP://EXAMPLE.ORG/a.torrent");
        ("download_dir", VStr "")]
       "HTTP://EXAMPLE.ORG/a.torrent" initial_world eq_refl)).
Defined.

Lemma unknown_status_filter_is_ignored_witness :
  handle_call_tool Sample.cfg Sample.net_ok "search_torrents"
    [("query", VStr ""); ("status_filter", VStr "Seeding")] initial_world
  = handle_call_tool Sample.cfg Sample.net_ok "search_torrents"
      [("query", VStr "")] initial_world
  /\ select_torrents "" (VStr "Seeding") Sample.torrents = Ok Sample.torrents.
Proof.
  split; [ | reflexivity ].
  apply (unknown_status_filter_is_ignored Sample.cfg Sample.net_ok
           [("query", VStr ""); ("status_filter", VStr "Seeding")]
           [("query", VStr "")] "Seeding" initial_world);
    reflexivity.
Defined.

Lemma malformed_torrent_fails_search_witness :
  exists e,
    select_torrents "ubuntu" (VStr "all")
      (Sample.torrents ++ [VDict [("id", VInt 9); ("name", VNone)]])%list
    = Raise e
    /\ exc_cls e = AttributeError.
Proof.
  apply (malformed_torrent_fails_search "ubuntu" (VStr "all")
           (Sample.torrents ++ [VDict [("id", VInt 9); ("name", VNone)]])%list
           (VDict [("id", VInt 9); ("name", VNone)])).
  - cbn. tauto.
  - right. exists [("id", VInt 9); ("name", VNone)], VNone.
    split; [ reflexivity | split; [ reflexivity | discriminate ] ].
Defined.

Lemma selection_is_a_filter_witness :
  exists keep : value -> bool,
    [VDict [("id", VInt 1); ("name", VStr "Ubuntu ISO"); ("status", VInt 6)]]
    = filter keep Sample.torrents
    /\ forall t, keep t = true -> name_matches "u" t = Ok true.
Proof.
  apply (selection_is_a_filter "u" (VStr "seeding") Sample.torrents).
  reflexivity.
Defined.

Lemma empty_query_keeps_all_witness :
  select_torrents "" (VStr "all") Sample.torrents = Ok Sample.torrents.
Proof.
  apply (empty_query_keeps_all Sample.torrents).
  intros t Hin. cbn in Hin.
  destruct Hin as [E | [E | []]]; subst t; eexists;
    (split; [ reflexivity | right; eexists; reflexivity ]).
Defined.

(** * Properties of the resources *)

Section ResourceFacts.

Context {R : Renderer}.
Variable cfg : Config.
Variable net : Network.

Lemma rc_dump_arguments (result : value) :
  raises_catchable (dump_arguments result).
Proof. unfold dump_arguments. catch. Qed.

Lemma rc_read_resource (u : string) :
  raises_catchable (read_resource cfg net u).
Proof.
  unfold read_resource.
  repeat match goal with
         | |- raises_catchable (if ?b then _ else _) => destruct b
         end;
    try (apply rc_bind; [ apply rc_rpc | intro; apply rc_dump_arguments ]).
  intros w. exact (eq_refl true).
Qed.

(** What [except Exception] makes of the [try] block. *)
Lemma handle_read_resource_cases (u : string) (w : World) :
  match read_resource cfg net u w with
  | (Ok s, w') => handle_read_resource cfg net u w = (Ok s, w')
  | (Raise e, w') =>
      handle_read_resource cfg net u w
      = (Ok ("Error reading resource " ++ u ++ ": " ++ exc_msg e), w')
  end.
Proof.
  pose proof (rc_read_resource u w) as Hc.
  unfold handle_read_resource, try_except.
  destruct (read_resource cfg net u w) as [[s | e] w']; [ reflexivity | ].
  cbn in Hc. unfold catchable in Hc. cbn [select_handler]. rewrite Hc.
  reflexivity.
Qed.

Lemma pure_dump_arguments (result : value) : pure_M (dump_arguments result).
Proof. unfold dump_arguments. pure. Qed.

(** The RPC call behind a listed resource, and what becomes of its
    result. *)
Lemma read_resource_is_rpc (u method : string) :
  assoc u resource_methods = Some method ->
  exists a,
    read_resource cfg net u
    = bind (rpc cfg net method a) dump_arguments.
Proof.
  unfold resource_methods, read_resource. cbn [assoc].
  repeat match goal with
         | |- context [String.eqb u ?s] =>
             destruct (String.eqb u s);
             [ intros H; inversion H; subst; eexists; reflexivity | ]
         end.
  discriminate.
Qed.

End ResourceFacts.

(** X19.  [handle_read_resource] answers every URI with a string and
    raises nothing.  A URI that [handle_list_resources] does not list is
    answered ["Error reading resource <uri>: Unknown resource: <uri>"]
    and no request goes to the daemon. *)
Theorem read_resource_never_raises
    {R : Renderer} (cfg : Config) (net : Network) (u : string) (w : World) :
  (exists s w', handle_read_resource cfg net u w = (Ok s, w'))
  /\ (~ In u (map uri handle_list_resources) ->
      handle_read_resource cfg net u w
      = (Ok ("Error reading resource " ++ u ++ ": Unknown resource: " ++ u),
         w)).
Proof.
  pose proof (handle_read_resource_cases cfg net u w) as Hc.
  split.
  - destruct (read_resource cfg net u w) as [[s | e] w']; eauto.
  - intros Hn. cbn in Hn.
    assert (Hr : read_resource cfg net u w
                 = (Raise (Exc ValueError ("Unknown resource: " ++ u) None
                             None), w)).
    { unfold read_resource.
      repeat match goal with
             | |- context [String.eqb u ?s] =>
                 destruct (String.eqb_spec u s) as [E | _];
                 [ exfalso; apply Hn; rewrite E; tauto | ]
             end.
      reflexivity. }
    rewrite Hr in Hc. exact Hc.
Qed.

(** X20.  Reading a listed resource is one RPC call that only reads:
    [session-get] for the session, [torrent-get] for the torrents,
    [session-stats] for the statistics.  The state after
    [handle_read_resource] is the state after that single
    [_make_request]; one or two POSTs go out and each carries that
    method. *)
Theorem read_resource_issues_one_rpc
    {R : Renderer} (cfg : Config) (net : Network) (r : Resource) (w : World) :
  In r handle_list_resources ->
  exists method a,
    assoc (uri r) resource_methods = Some method
    /\ In method ["session-get"; "torrent-get"; "session-stats"]
    /\ snd (handle_read_resource cfg net (uri r) w)
       = snd (_make_request cfg net (transmission_client cfg) method a None w)
    /\ Forall (fun rq => body_field rq "method" = Some (VStr method))
         (issued w (snd (handle_read_resource cfg net (uri r) w)))
    /\ (1 <= length (issued w (snd (handle_read_resource cfg net (uri r) w)))
        <= 2)%nat.
Proof.
  intros Hr.
  assert (Hm : exists method,
            assoc (uri r) resource_methods = Some method
            /\ In method ["session-get"; "torrent-get"; "session-stats"]).
  { cbn in Hr.
    repeat (destruct Hr as [Hr | Hr]; [ subst r | ]); try contradiction;
      eexists; (split; [ reflexivity | cbn; tauto ]). }
  destruct Hm as (method & Hm & Hin).
  destruct (read_resource_is_rpc cfg net (uri r) method Hm) as (a & Ha).
  exists method, a.
  assert (Hw : snd (handle_read_resource cfg net (uri r) w)
               = snd (_make_request cfg net (transmission_client cfg) method
                        a None w)).
  { unfold handle_read_resource. rewrite snd_try_except_ret, Ha.
    rewrite snd_bind_rpc; [ reflexivity | ].
    intros v. apply pure_dump_arguments. }
  split; [ exact Hm | split; [ exact Hin | split; [ exact Hw | ] ] ].
  rewrite Hw.
  apply (call_requests_method cfg net (transmission_client cfg) method a
           None w).
Qed.

(** X21.  What a read gives back.  For a listed resource, when the RPC
    call returns a JSON object the answer is the [arguments] of that
    object written by [json.dumps(..., indent=2)], and ["{}"] when the
    object has no [arguments]; when it returns JSON that is no object, or
    raises, the answer is the error text and not an exception. *)
Theorem read_resource_result
    {R : Renderer} (cfg : Config) (net : Network) (r : Resource) (w : World) :
  In r handle_list_resources ->
  exists method a,
    assoc (uri r) resource_methods = Some method
    /\ (forall d w1,
          rpc cfg net method a w = (Ok (VDict d), w1) ->
          handle_read_resource cfg net (uri r) w
          = (Ok (json_dumps (dict_get d "arguments" (VDict []))), w1))
    /\ (forall d w1,
          rpc cfg net method a w = (Ok (VDict d), w1) ->
          assoc "arguments" d = None ->
          handle_read_resource cfg net (uri r) w = (Ok "{}", w1))
    /\ (forall v w1,
          rpc cfg net method a w = (Ok v, w1) ->
          (forall d, v <> VDict d) ->
          handle_read_resource cfg net (uri r) w
          = (Ok ("Error reading resource " ++ uri r ++ ": '" ++ type_name v
                 ++ "' object has no attribute 'get'"), w1))
    /\ (forall e w1,
          rpc cfg net method a w = (Raise e, w1) ->
          handle_read_resource cfg net (uri r) w
          = (Ok ("Error reading resource " ++ uri r ++ ": " ++ exc_msg e),
             w1)).
Proof.
  intros Hr.
  assert (Hm : exists method, assoc (uri r) resource_methods = Some method).
  { cbn in Hr.
    repeat (destruct Hr as [Hr | Hr]; [ subst r | ]); try contradiction;
      eexists; reflexivity. }
  destruct Hm as (method & Hm).
  destruct (read_resource_is_rpc cfg net (uri r) method Hm) as (a & Ha).
  exists method, a. split; [ exact Hm | ].
  pose proof (handle_read_resource_cases cfg net (uri r) w) as Hc.
  rewrite Ha in Hc. unfold bind at 1 in Hc.
  assert (Hobj : forall d w1,
            rpc cfg net method a w = (Ok (VDict d), w1) ->
            handle_read_resource cfg net (uri r) w
            = (Ok (json_dumps (dict_get d "arguments" (VDict []))), w1)).
  { intros d w1 Hrpc. rewrite Hrpc in Hc. exact Hc. }
  split; [ exact Hobj | split; [ | split ] ].
  - intros d w1 Hrpc Hnone. rewrite (Hobj d w1 Hrpc).
    unfold dict_get. rewrite Hnone. reflexivity.
  - intros v w1 Hrpc Hv. rewrite Hrpc in Hc.
    destruct v; try exact Hc. exfalso. exact (Hv d eq_refl).
  - intros e w1 Hrpc. rewrite Hrpc in Hc. exact Hc.
Qed.

(** ** The properties of the resources on sample inputs *)

Lemma read_resource_never_raises_witness :
  ~ In "transmission://peers" (map uri handle_list_resources)
  /\ handle_read_resource Sample.cfg Sample.net_ok "transmission://peers"
       initial_world
     = (Ok ("Error reading resource transmission://peers: "
            ++ "Unknown resource: transmission://peers"),
        initial_world).
Proof.
  assert (Hn : ~ In "transmission://peers" (map uri handle_list_resources)).
  { cbn. intros [H | [H | [H | []]]]; discriminate H. }
  split; [ exact Hn | ].
  exact (proj2 (read_resource_never_raises Sample.cfg Sample.net_ok
                  "transmission://peers" initial_world) Hn).
Defined.

Lemma read_resource_issues_one_rpc_witness :
  exists method a,
    assoc "transmission://torrents" resource_methods = Some method
    /\ In method ["session-get"; "torrent-get"; "session-stats"]
    /\ snd (handle_read_resource Sample.cfg Sample.net_challenge
              "transmission://torrents" initial_world)
       = snd (_make_request Sample.cfg Sample.net_challenge
                (transmission_client Sample.cfg) method a None initial_world)
    /\ Forall (fun rq => body_field rq "method" = Some (VStr method))
         (issued initial_world
            (snd (handle_read_resource Sample.cfg Sample.net_challenge
                    "transmission://torrents" initial_world)))
    /\ (1 <= length
              (issued initial_world
                 (snd (handle_read_resource Sample.cfg Sample.net_challenge
                         "transmission://torrents" initial_world)))
        <= 2)%nat.
Proof.
  apply (read_resource_issues_one_rpc Sample.cfg Sample.net_challenge
           (Samples.torrents_resource) initial_world).
  cbn. tauto.
Defined.

Lemma read_resource_result_witness :
  exists method a,
    assoc "transmission://stats" resource_methods = Some method
    /\ (forall d w1,
          rpc Sample.cfg Samples.net_list method a initial_world
          = (Ok (VDict d), w1) ->
          handle_read_resource Sample.cfg Samples.net_list
            "transmission://stats" initial_world
          = (Ok (json_dumps (dict_get d "arguments" (VDict []))), w1))
    /\ (forall d w1,
          rpc Sample.cfg Samples.net_list method a initial_world
          = (Ok (VDict d), w1) ->
          assoc "arguments" d = None ->
          handle_read_resource Sample.cfg Samples.net_list
            "transmission://stats" initial_world
          = (Ok "{}", w1))
    /\ (forall v w1,
          rpc Sample.cfg Samples.net_list method a initial_world
          = (Ok v, w1) ->
          (forall d, v <> VDict d) ->
          handle_read_resource Sample.cfg Samples.net_list
            "transmission://stats" initial_world
          = (Ok ("Error reading resource transmission://stats: '"
                 ++ type_name v ++ "' object has no attribute 'get'"), w1))
    /\ (forall e w1,
          rpc Sample.cfg Samples.net_list method a initial_world
          = (Raise e, w1) ->
          handle_read_resource Sample.cfg Samples.net_list
            "transmission://stats" initial_world
          = (Ok ("Error reading resource transmission://stats: "
                 ++ exc_msg e), w1)).
Proof.
  apply (read_resource_result Sample.cfg Samples.net_list
           Samples.stats_resource initial_world).
  cbn. tauto.
Defined.

(** The daemon answers with a JSON list: the read reports the missing
    [get]. *)
Example read_resource_on_a_list :
  fst (handle_read_resource Sample.cfg Samples.net_list
         "transmission://stats" initial_world)
  = Ok ("Error reading resource transmission://stats: "
        ++ "'list' object has no attribute 'get'").
Proof. reflexivity. Qed.

(** The session resource of the sample daemon, as [json.dumps] writes
    it. *)
Example read_resource_session :
  fst (handle_read_resource Sample.cfg
         (Samples.net_result "success"
            [("version", VStr "4.0.5"); ("rpc-version", VInt 17)])
         "transmission://session" initial_world)
  = Ok ("{" ++ nl ++ "  " ++ dquote ++ "version" ++ dquote ++ ": "
        ++ dquote ++ "4.0.5" ++ dquote ++ "," ++ nl
        ++ "  " ++ dquote ++ "rpc-version" ++ dquote ++ ": 17" ++ nl ++ "}").
Proof. reflexivity. Qed.

(** * What a tool answers when the RPC call does not succeed *)

Section Reported.

Context {R : Renderer}.
Variable cfg : Config.
Variable net : Network.

(** A tool that is an RPC call followed by the test of [result] and, in
    the [else] branch, the shared failure message. *)
Lemma rpc_then_report (name : string) (arguments : dict) (method : string)
    (a : option dict) (what : string)
    (k_ok : value -> M (list types.TextContent)) (w : World) :
  dispatch cfg net name arguments
  = bind (rpc cfg net method a)
      (fun result =>
         bind (lift (is_success result))
           (fun ok : bool =>
              if ok then k_ok result else failure what result)) ->
  (forall v, pure_M (k_ok v)) ->
  snd (handle_call_tool cfg net name arguments w)
  = snd (rpc cfg net method a w)
  /\ (forall e w1,
      rpc cfg net method a w = (Raise e, w1) ->
      handle_call_tool cfg net name arguments w
      = (Ok (text_content ("Error executing " ++ name ++ ": " ++ exc_msg e)),
         w1))
  /\ (forall v w1,
        rpc cfg net method a w = (Ok v, w1) ->
        (forall d, v <> VDict d) ->
        handle_call_tool cfg net name arguments w
        = (Ok (text_content ("Error executing " ++ name ++ ": '"
                             ++ type_name v
                             ++ "' object has no attribute 'get'")), w1))
  /\ (forall d w1,
        rpc cfg net method a w = (Ok (VDict d), w1) ->
        assoc "result" d <> Some (VStr "success") ->
        handle_call_tool cfg net name arguments w
        = (Ok (text_content
                 (what ++ ": "
                  ++ py_str (dict_get d "result" (VStr "Unknown error")))),
           w1)).
Proof.
  intros Hd Hp.
  pose proof (handle_call_tool_cases cfg net name arguments w) as Hc.
  rewrite Hd in Hc. unfold bind at 1 in Hc.
  refine (conj _ (conj _ (conj _ _))).
  - rewrite snd_handle_call_tool, Hd.
    apply snd_bind_rpc. intros v. pure.
  - intros e w1 Hrpc. rewrite Hrpc in Hc. exact Hc.
  - intros v w1 Hrpc Hv. rewrite Hrpc in Hc.
    destruct v; try exact Hc. exfalso. exact (Hv d eq_refl).
  - intros d w1 Hrpc Hns. rewrite Hrpc in Hc.
    assert (Hok : is_success (VDict d) = Ok false).
    { unfold is_success, py_get, dict_get. cbn [rbind].
      destruct (assoc "result" d) as [v | ]; [ | reflexivity ].
      destruct v; try reflexivity.
      cbn [py_eq_str]. destruct (String.eqb_spec s "success") as [E | _];
        [ subst s; exfalso; apply Hns; reflexivity | reflexivity ]. }
    rewrite Hok, bind_lift_Ok in Hc. exact Hc.
Qed.

End Reported.

(** X22.  A call that does not succeed is reported as text.  For every
    tool of the catalogue and arguments that fit its schema, one RPC call
    is made (the state after the tool is the state after that call), and: when it raises, the answer is
    ["Error executing <tool>: <message>"]; when it returns JSON that is no
    object, the answer is the same with the message of the missing [get];
    when it returns an object whose [result] is not ["success"], the answer
    is the failure text of the tool followed by that [result], or by
    ["Unknown error"] when the object has no [result]. *)
Theorem rpc_failure_is_reported
    {R : Renderer} (cfg : Config) (net : Network)
    (t : Tool) (arguments : dict) (w : World) :
  In t handle_list_tools ->
  conforms t arguments ->
  exists method a what,
    assoc (tool_name t) tool_methods = Some method
    /\ assoc (tool_name t) failure_texts = Some what
    /\ snd (handle_call_tool cfg net (tool_name t) arguments w)
       = snd (rpc cfg net method a w)
    /\ (forall e w1,
          rpc cfg net method a w = (Raise e, w1) ->
          handle_call_tool cfg net (tool_name t) arguments w
          = (Ok (text_content ("Error executing " ++ tool_name t ++ ": "
                               ++ exc_msg e)), w1))
    /\ (forall v w1,
          rpc cfg net method a w = (Ok v, w1) ->
          (forall d, v <> VDict d) ->
          handle_call_tool cfg net (tool_name t) arguments w
          = (Ok (text_content ("Error executing " ++ tool_name t ++ ": '"
                               ++ type_name v
                               ++ "' object has no attribute 'get'")), w1))
    /\ (forall d w1,
          rpc cfg net method a w = (Ok (VDict d), w1) ->
          assoc "result" d <> Some (VStr "success") ->
          handle_call_tool cfg net (tool_name t) arguments w
          = (Ok (text_content
                   (what ++ ": "
                    ++ py_str (dict_get d "result" (VStr "Unknown error")))),
             w1)).
Proof.
  intros Ht Hc. cbn in Ht.
  repeat (destruct Ht as [Ht | Ht]; [ subst t | ]); try contradiction;
    cbn [tool_name].
  - (* add_torrent *)
    destruct (conforms_string _ _ "url" Hc) as (s & Hs);
      [ cbn; auto | reflexivity | ].
    assert (Hd : dispatch cfg net "add_torrent" arguments
                 = add_torrent cfg net arguments) by reflexivity.
    unfold add_torrent, dict_getitem in Hd. rewrite Hs, bind_lift_Ok in Hd.
    cbn [py_startswith] in Hd. rewrite bind_lift_Ok in Hd.
    destruct (startswith s "magnet:");
      [ | rewrite bind_lift_Ok in Hd; destruct (startswith s "http") ];
      rewrite bind_ret in Hd;
      do 3 eexists;
      (split; [ reflexivity | split; [ reflexivity | ] ]);
      (eapply rpc_then_report; [ exact Hd | intro; cbv beta; pure ]).
  - (* remove_torrent *)
    destruct (conforms_present _ _ "torrent_id" Hc) as (v & Hv);
      [ cbn; auto | ].
    assert (Hd : dispatch cfg net "remove_torrent" arguments
                 = remove_torrent cfg net arguments) by reflexivity.
    unfold remove_torrent, dict_getitem in Hd. rewrite Hv, bind_lift_Ok in Hd.
    do 3 eexists. split; [ reflexivity | split; [ reflexivity | ] ].
    eapply rpc_then_report; [ exact Hd | intro; cbv beta; pure ].
  - (* start_torrent *)
    destruct (conforms_present _ _ "torrent_id" Hc) as (v & Hv);
      [ cbn; auto | ].
    assert (Hd : dispatch cfg net "start_torrent" arguments
                 = start_torrent cfg net arguments) by reflexivity.
    unfold start_torrent, dict_getitem in Hd. rewrite Hv, bind_lift_Ok in Hd.
    do 3 eexists. split; [ reflexivity | split; [ reflexivity | ] ].
    eapply rpc_then_report; [ exact Hd | intro; cbv beta; pure ].
  - (* stop_torrent *)
    destruct (conforms_present _ _ "torrent_id" Hc) as (v & Hv);
      [ cbn; auto | ].
    assert (Hd : dispatch cfg net "stop_torrent" arguments
                 = stop_torrent cfg net arguments) by reflexivity.
    unfold stop_torrent, dict_getitem in Hd. rewrite Hv, bind_lift_Ok in Hd.
    do 3 eexists. split; [ reflexivity | split; [ reflexivity | ] ].
    eapply rpc_then_report; [ exact Hd | intro; cbv beta; pure ].
  - (* get_torrent_info *)
    destruct (conforms_present _ _ "torrent_id" Hc) as (v & Hv);
      [ cbn; auto | ].
    assert (Hd : dispatch cfg net "get_torrent_info" arguments
                 = get_torrent_info cfg net arguments) by reflexivity.
    unfold get_torrent_info, dict_getitem in Hd.
    rewrite Hv, bind_lift_Ok in Hd.
    do 3 eexists. split; [ reflexivity | split; [ reflexivity | ] ].
    eapply rpc_then_report; [ exact Hd | intro; cbv beta; pure ].
  - (* set_torrent_priority *)
    destruct (conforms_present _ _ "torrent_id" Hc) as (v & Hv);
      [ cbn; auto | ].
    destruct (conforms_string _ _ "priority" Hc) as (s & Hs);
      [ cbn; auto | reflexivity | ].
    assert (Hd : dispatch cfg net "set_torrent_priority" arguments
                 = set_torrent_priority cfg net arguments) by reflexivity.
    unfold set_torrent_priority, dict_getitem in Hd.
    rewrite Hv, bind_lift_Ok, Hs, bind_lift_Ok in Hd.
    change (priority_value (VStr s))
      with (Ok (match assoc s priority_map with Some n => n | None => 0 end))
      in Hd.
    rewrite bind_lift_Ok in Hd.
    do 3 eexists. split; [ reflexivity | split; [ reflexivity | ] ].
    eapply rpc_then_report; [ exact Hd | intro; cbv beta; pure ].
  - (* set_speed_limits *)
    assert (Egt : forall n, py_gt_int (VInt n) 0 = Ok (0 <? n)).
    { intros n. unfold py_gt_int, num_cmp_Z. rewrite Z.ltb_antisym.
      unfold Z.leb. destruct (n ?= 0); reflexivity. }
    assert (Hd : dispatch cfg net "set_speed_limits" arguments
                 = set_speed_limits cfg net arguments) by reflexivity.
    unfold set_speed_limits, add_limit, dict_contains, dict_getitem in Hd.
    destruct (conforms_optional_integer _ _ "download_limit" Hc eq_refl)
      as [E1 | (n1 & E1)];
      destruct (conforms_optional_integer _ _ "upload_limit" Hc eq_refl)
        as [E2 | (n2 & E2)];
      rewrite E1, E2 in Hd; cbn [rbind] in Hd; rewrite ?Egt in Hd;
      cbn [rbind] in Hd; rewrite ?bind_lift_Ok in Hd;
      do 3 eexists;
      (split; [ reflexivity | split; [ reflexivity | ] ]);
      (eapply rpc_then_report; [ exact Hd | intro; cbv beta; pure ]).
  - (* search_torrents *)
    destruct (conforms_string _ _ "query" Hc) as (s & Hs);
      [ cbn; auto | reflexivity | ].
    assert (Hd : dispatch cfg net "search_torrents" arguments
                 = search_torrents cfg net arguments) by reflexivity.
    unfold search_torrents, dict_getitem in Hd.
    rewrite Hs, bind_lift_Ok in Hd. cbn [py_lower] in Hd.
    rewrite bind_lift_Ok in Hd.
    do 3 eexists. split; [ reflexivity | split; [ reflexivity | ] ].
    eapply rpc_then_report; [ exact Hd | intro; cbv beta; pure ].
  - (* get_session_stats *)
    do 3 eexists. split; [ reflexivity | split; [ reflexivity | ] ].
    eapply rpc_then_report; [ reflexivity | intro; cbv beta; pure ].
Qed.

(** * What two of the tools answer on success *)

Lemma if_ret {A} (b : bool) (x y : A) :
  (if b then ret x else ret y) = ret (if b then x else y).
Proof. destruct b; reflexivity. Qed.

Lemma is_success_true (d : dict) :
  assoc "result" d = Some (VStr "success") ->
  is_success (VDict d) = Ok true.
Proof.
  intros H. unfold is_success, py_get, dict_get. rewrite H. reflexivity.
Qed.

Lemma truthy_dict (t : dict) : t <> [] -> py_truthy (VDict t) = true.
Proof. destruct t; [ congruence | reflexivity ]. Qed.

(** X23.  A torrent the daemon does not report is answered "not found".
    When [get_torrent_info] is called with a [torrent_id] and the daemon
    answers with success but its [arguments] hold no [torrents], an empty
    list of them or any other falsy value, the answer is
    ["Torrent <id> not found"]. *)
Theorem unknown_torrent_not_found
    {R : Renderer} (cfg : Config) (net : Network)
    (arguments : dict) (tid : value) (w : World)
    (d a : dict) (w1 : World) :
  assoc "torrent_id" arguments = Some tid ->
  rpc cfg net "torrent-get"
    (Some [("ids", VList [tid]); ("fields", VList info_fields)]) w
  = (Ok (VDict d), w1) ->
  assoc "result" d = Some (VStr "success") ->
  dict_get d "arguments" (VDict []) = VDict a ->
  py_truthy (dict_get a "torrents" (VList [])) = false ->
  handle_call_tool cfg net "get_torrent_info" arguments w
  = (Ok (text_content ("Torrent " ++ py_str tid ++ " not found")), w1).
Proof.
  intros Ht Hrpc Hres Ha Hfalsy.
  pose proof (handle_call_tool_cases cfg net "get_torrent_info" arguments w)
    as Hc.
  cbn [dispatch String.eqb Ascii.eqb Bool.eqb] in Hc.
  unfold get_torrent_info, dict_getitem in Hc.
  rewrite Ht, bind_lift_Ok in Hc.
  unfold bind at 1 in Hc. rewrite Hrpc in Hc.
  rewrite (is_success_true d Hres), bind_lift_Ok in Hc.
  cbn [py_get] in Hc. rewrite Ha, bind_lift_Ok in Hc.
  cbn [py_get] in Hc. rewrite bind_lift_Ok, Hfalsy in Hc.
  exact Hc.
Qed.

(** X24.  What [add_torrent] answers when the daemon reports success.  It
    names the torrent of [torrent-added] when the daemon sent one; failing
    that, it says that the torrent already exists and names the one of
    [torrent-duplicate]; with neither it only says that the torrent was
    added. *)
Theorem add_torrent_answer
    {R : Renderer} (cfg : Config) (net : Network)
    (arguments : dict) (s : string) (w : World) :
  assoc "url" arguments = Some (VStr s) ->
  exists sent,
    snd (handle_call_tool cfg net "add_torrent" arguments w)
    = snd (rpc cfg net "torrent-add" sent w)
    /\ forall d a w1,
         rpc cfg net "torrent-add" sent w = (Ok (VDict d), w1) ->
         assoc "result" d = Some (VStr "success") ->
         dict_get d "arguments" (VDict []) = VDict a ->
         let added := dict_get a "torrent-added" VNone in
         let duplicate := dict_get a "torrent-duplicate" VNone in
         (forall t n i,
             added = VDict t -> t <> [] ->
             assoc "name" t = Some n -> assoc "id" t = Some i ->
             handle_call_tool cfg net "add_torrent" arguments w
             = (Ok (text_content
                      ("Successfully added torrent '" ++ py_str n
                       ++ "' (ID: " ++ py_str i ++ ")")), w1))
         /\ (forall t n i,
               py_truthy added = false ->
               duplicate = VDict t -> t <> [] ->
               assoc "name" t = Some n -> assoc "id" t = Some i ->
               handle_call_tool cfg net "add_torrent" arguments w
               = (Ok (text_content
                        ("Torrent already exists: '" ++ py_str n
                         ++ "' (ID: " ++ py_str i ++ ")")), w1))
         /\ (py_truthy added = false ->
             py_truthy duplicate = false ->
             handle_call_tool cfg net "add_torrent" arguments w
             = (Ok (text_content "Torrent added successfully"), w1)).
Proof.
  intros Hs.
  assert (Hd : dispatch cfg net "add_torrent" arguments
               = add_torrent cfg net arguments) by reflexivity.
  unfold add_torrent, dict_getitem in Hd. rewrite Hs, bind_lift_Ok in Hd.
  cbn [py_startswith] in Hd. rewrite !bind_lift_Ok in Hd.
  rewrite !if_ret, bind_ret in Hd.
  eexists. split.
  - rewrite snd_handle_call_tool, Hd.
    apply snd_bind_rpc. intros v. pure.
  - intros d a w1 Hrpc Hres Ha. cbv zeta.
    pose proof (handle_call_tool_cases cfg net "add_torrent" arguments w)
      as Hc.
    rewrite Hd in Hc. unfold bind at 1 in Hc. rewrite Hrpc in Hc.
    rewrite (is_success_true d Hres), bind_lift_Ok in Hc.
    cbn [py_get] in Hc. rewrite Ha, bind_lift_Ok in Hc.
    cbn [py_get] in Hc. rewrite !bind_lift_Ok in Hc.
    cbn [py_get] in Hc. rewrite bind_lift_Ok in Hc.
    refine (conj _ (conj _ _)).
    + intros t n i Hadd Hne Hn Hi.
      rewrite Hadd, (truthy_dict t Hne) in Hc.
      cbn [py_getitem_str] in Hc. unfold dict_getitem in Hc.
      rewrite Hn, bind_lift_Ok, Hi, bind_lift_Ok in Hc. exact Hc.
    + intros t n i Hadd Hdup Hne Hn Hi.
      rewrite Hadd, Hdup, (truthy_dict t Hne) in Hc.
      cbn [py_getitem_str] in Hc. unfold dict_getitem in Hc.
      rewrite Hn, bind_lift_Ok, Hi, bind_lift_Ok in Hc. exact Hc.
    + intros Hadd Hdup. rewrite Hadd, Hdup in Hc. exact Hc.
Qed.

(** ** These properties on sample inputs *)

Lemma rpc_failure_is_reported_witness :
  exists method a what,
    assoc "set_torrent_priority" tool_methods = Some method
    /\ assoc "set_torrent_priority" failure_texts = Some what
    /\ snd (handle_call_tool Sample.cfg Sample.net_500 "set_torrent_priority"
              Samples.priority_arguments initial_world)
       = snd (rpc Sample.cfg Sample.net_500 method a initial_world)
    /\ (forall e w1,
          rpc Sample.cfg Sample.net_500 method a initial_world
          = (Raise e, w1) ->
          handle_call_tool Sample.cfg Sample.net_500 "set_torrent_priority"
            Samples.priority_arguments initial_world
          = (Ok (text_content ("Error executing set_torrent_priority: "
                               ++ exc_msg e)), w1))
    /\ (forall v w1,
          rpc Sample.cfg Sample.net_500 method a initial_world = (Ok v, w1) ->
          (forall d, v <> VDict d) ->
          handle_call_tool Sample.cfg Sample.net_500 "set_torrent_priority"
            Samples.priority_arguments initial_world
          = (Ok (text_content ("Error executing set_torrent_priority: '"
                               ++ type_name v
                               ++ "' object has no attribute 'get'")), w1))
    /\ (forall d w1,
          rpc Sample.cfg Sample.net_500 method a initial_world
          = (Ok (VDict d), w1) ->
          assoc "result" d <> Some (VStr "success") ->
          handle_call_tool Sample.cfg Sample.net_500 "set_torrent_priority"
            Samples.priority_arguments initial_world
          = (Ok (text_content
                   (what ++ ": "
                    ++ py_str (dict_get d "result" (VStr "Unknown error")))),
             w1)).
Proof.
  apply (rpc_failure_is_reported Sample.cfg Sample.net_500
           Samples.priority_tool Samples.priority_arguments initial_world).
  - cbn. tauto.
  - exact priority_arguments_conform.
Defined.

(** The daemon refuses: its word is passed on. *)
Example start_torrent_refused :
  fst (handle_call_tool Sample.cfg (Samples.net_result "invalid argument" [])
         "start_torrent" [("torrent_id", VInt 3)] initial_world)
  = Ok (text_content "Failed to start torrent: invalid argument").
Proof. reflexivity. Qed.

(** The daemon is down. *)
Example stop_torrent_daemon_down :
  fst (handle_call_tool Sample.cfg Sample.net_refused "stop_torrent"
         [("torrent_id", VInt 3)] initial_world)
  = Ok (text_content
          "Error executing stop_torrent: Network error: Connection refused").
Proof. reflexivity. Qed.

Lemma unknown_torrent_not_found_witness :
  handle_call_tool Sample.cfg (Samples.net_result "success" [])
    "get_torrent_info" [("torrent_id", VInt 42)] initial_world
  = (Ok (text_content ("Torrent " ++ py_str (VInt 42) ++ " not found")),
     snd (rpc Sample.cfg (Samples.net_result "success" []) "torrent-get"
            (Some [("ids", VList [VInt 42]); ("fields", VList info_fields)])
            initial_world)).
Proof.
  apply (unknown_torrent_not_found Sample.cfg (Samples.net_result "success" [])
           [("torrent_id", VInt 42)] (VInt 42) initial_world
           [("result", VStr "success"); ("arguments", VDict [])] []);
    reflexivity.
Defined.

Lemma add_torrent_answer_witness :
  exists sent,
    snd (handle_call_tool Sample.cfg Samples.net_added "add_torrent"
           [("url", VStr "magnet:?xt=urn:btih:abc")] initial_world)
    = snd (rpc Sample.cfg Samples.net_added "torrent-add" sent initial_world)
    /\ forall d a w1,
         rpc Sample.cfg Samples.net_added "torrent-add" sent initial_world
         = (Ok (VDict d), w1) ->
         assoc "result" d = Some (VStr "success") ->
         dict_get d "arguments" (VDict []) = VDict a ->
         let added := dict_get a "torrent-added" VNone in
         let duplicate := dict_get a "torrent-duplicate" VNone in
         (forall t n i,
             added = VDict t -> t <> [] ->
             assoc "name" t = Some n -> assoc "id" t = Some i ->
             handle_call_tool Sample.cfg Samples.net_added "add_torrent"
               [("url", VStr "magnet:?xt=urn:btih:abc")] initial_world
             = (Ok (text_content
                      ("Successfully added torrent '" ++ py_str n
                       ++ "' (ID: " ++ py_str i ++ ")")), w1))
         /\ (forall t n i,
               py_truthy added = false ->
               duplicate = VDict t -> t <> [] ->
               assoc "name" t = Some n -> assoc "id" t = Some i ->
               handle_call_tool Sample.cfg Samples.net_added "add_torrent"
                 [("url", VStr "magnet:?xt=urn:btih:abc")] initial_world
               = (Ok (text_content
                        ("Torrent already exists: '" ++ py_str n
                         ++ "' (ID: " ++ py_str i ++ ")")), w1))
         /\ (py_truthy added = false ->
             py_truthy duplicate = false ->
             handle_call_tool Sample.cfg Samples.net_added "add_torrent"
               [("url", VStr "magnet:?xt=urn:btih:abc")] initial_world
             = (Ok (text_content "Torrent added successfully"), w1)).
Proof.
  apply (add_torrent_answer Sample.cfg Samples.net_added
           [("url", VStr "magnet:?xt=urn:btih:abc")]
           "magnet:?xt=urn:btih:abc" initial_world).
  reflexivity.
Defined.

Example add_torrent_names_the_torrent :
  fst (handle_call_tool Sample.cfg Samples.net_added "add_torrent"
         [("url", VStr "magnet:?xt=urn:btih:abc")] initial_world)
  = Ok (text_content "Successfully added torrent 'debian.iso' (ID: 5)").
Proof. reflexivity. Qed.

(** * Properties of the connectivity script *)

(** ** Steps of a script *)

Lemma sbind_print {B} (s : string) (k : unit -> Script B) (r : Run) :
  sbind (py_print s) k r = k tt (mkRun (printed r ++ [s])%list (world r)).
Proof. reflexivity. Qed.

Lemma sbind_await_Ok {A B} (m : M A) (k : A -> Script B) (r : Run)
    (a : A) (w1 : World) :
  m (world r) = (Ok a, w1) ->
  sbind (await m) k r = k a (mkRun (printed r) w1).
Proof. intros H. unfold sbind, await. rewrite H. reflexivity. Qed.

Lemma sbind_await_Raise {A B} (m : M A) (k : A -> Script B) (r : Run)
    (e : exc) (w1 : World) :
  m (world r) = (Raise e, w1) ->
  sbind (await m) k r = (Raise e, mkRun (printed r) w1).
Proof. intros H. unfold sbind, await. rewrite H. reflexivity. Qed.

(** ** The exceptions of a script *)

Lemma sc_ret {A} (a : A) : script_catchable (sret a).
Proof. intros r. exact I. Qed.

Lemma sc_print (s : string) : script_catchable (py_print s).
Proof. intros r. exact I. Qed.

Lemma sc_await {A} (m : M A) :
  raises_catchable m -> script_catchable (await m).
Proof.
  intros H r. unfold await. specialize (H (world r)).
  destruct (m (world r)) as [res w1]. exact H.
Qed.

Lemma sc_slift {A} (x : Res A) : res_catchable x -> script_catchable (slift x).
Proof. intros H r. exact H. Qed.

Lemma sc_bind {A B} (m : Script A) (k : A -> Script B) :
  script_catchable m -> (forall a, script_catchable (k a)) ->
  script_catchable (sbind m k).
Proof.
  intros Hm Hk r. unfold sbind. specialize (Hm r).
  destruct (m r) as [[a | e] r1]; cbn in *; [ apply Hk | exact Hm ].
Qed.

Lemma rc_py_len (v : value) : res_catchable (py_len v).
Proof. unfold py_len. catch. Qed.

Lemma rc_py_slice_to_3 (v : value) : res_catchable (py_slice_to_3 v).
Proof. unfold py_slice_to_3. catch. Qed.

#[export] Hint Resolve rc_py_len rc_py_slice_to_3 : catch.

(** ** The world of a script *)

Lemma kw_ret {A} (a : A) : keeps_world (sret a).
Proof. intros r. reflexivity. Qed.

Lemma kw_print (s : string) : keeps_world (py_print s).
Proof. intros r. reflexivity. Qed.

Lemma kw_slift {A} (x : Res A) : keeps_world (slift x).
Proof. intros r. reflexivity. Qed.

Lemma kw_bind {A B} (m : Script A) (k : A -> Script B) :
  keeps_world m -> (forall a, keeps_world (k a)) -> keeps_world (sbind m k).
Proof.
  intros Hm Hk r. unfold sbind. specialize (Hm r).
  destruct (m r) as [[a | e] r1]; cbn in *;
    [ rewrite Hk; exact Hm | exact Hm ].
Qed.

(** Takes a goal [keeps_world] apart along the binds. *)
Ltac keeps :=
  repeat (cbv beta zeta;
    lazymatch goal with
    | |- keeps_world (sret _) => apply kw_ret
    | |- keeps_world (py_print _) => apply kw_print
    | |- keeps_world (slift _) => apply kw_slift
    | |- keeps_world (sbind _ _) => apply kw_bind; [ | intro ]
    | |- _ => solve [ auto with keeps ]
    end).

Create HintDb keeps.

(** ** The output of a script *)

Lemma eo_ret {A} (a : A) : extends_output (sret a).
Proof. intros r. exists []. symmetry. apply app_nil_r. Qed.

Lemma eo_print (s : string) : extends_output (py_print s).
Proof. intros r. exists [s]. reflexivity. Qed.

Lemma eo_slift {A} (x : Res A) : extends_output (slift x).
Proof. intros r. exists []. symmetry. apply app_nil_r. Qed.

Lemma eo_await {A} (m : M A) : extends_output (await m).
Proof.
  intros r. exists []. unfold await.
  destruct (m (world r)) as [res w1]. symmetry. apply app_nil_r.
Qed.

Lemma eo_bind {A B} (m : Script A) (k : A -> Script B) :
  extends_output m -> (forall a, extends_output (k a)) ->
  extends_output (sbind m k).
Proof.
  intros Hm Hk r. unfold sbind. destruct (Hm r) as (out1 & H1).
  destruct (m r) as [[a | e] r1]; cbn in *.
  - destruct (Hk a r1) as (out2 & H2).
    exists (out1 ++ out2)%list. rewrite H2, H1. symmetry. apply app_assoc.
  - exists out1. exact H1.
Qed.

Lemma eo_try {A} (m : Script A) (h : exc -> Script A) :
  extends_output m -> (forall e, extends_output (h e)) ->
  extends_output (try_except_Exception m h).
Proof.
  intros Hm Hh r. unfold try_except_Exception. destruct (Hm r) as (out1 & H1).
  destruct (m r) as [[a | e] r1]; cbn in *.
  - exists out1. exact H1.
  - destruct (isinstance e Exception).
    + destruct (Hh e r1) as (out2 & H2).
      exists (out1 ++ out2)%list. rewrite H2, H1. symmetry. apply app_assoc.
    + exists out1. exact H1.
Qed.

Create HintDb extends.

(** Takes a goal [extends_output] apart along the binds. *)
Ltac extends :=
  repeat (cbv beta zeta;
    lazymatch goal with
    | |- extends_output (sret _) => apply eo_ret
    | |- extends_output (py_print _) => apply eo_print
    | |- extends_output (slift _) => apply eo_slift
    | |- extends_output (await _) => apply eo_await
    | |- extends_output (sbind _ _) => apply eo_bind; [ | intro ]
    | |- extends_output (try_except_Exception _ _) =>
        apply eo_try; [ | intro ]
    | |- _ => solve [ auto with extends ]
    end).

Section ScriptFacts.

Context {R : Renderer}.
Variable cfg : Config.
Variable net : Network.

Lemma rc_torrent_line (i : Z) (torrent : value) :
  res_catchable (torrent_line i torrent).
Proof. unfold torrent_line. catch. Qed.

Lemma sc_print_torrents (i : Z) (items : list value) :
  script_catchable (print_torrents i items).
Proof.
  revert i. induction items as [ | t items IH ]; intros i;
    cbn [print_torrents].
  - apply sc_ret.
  - apply sc_bind; [ apply sc_slift, rc_torrent_line | intros line ].
    apply sc_bind; [ apply sc_print | intros _; apply IH ].
Qed.

Lemma kw_print_torrents (i : Z) (items : list value) :
  keeps_world (print_torrents i items).
Proof.
  revert i. induction items as [ | t items IH ]; intros i;
    cbn [print_torrents]; keeps.
Qed.

Lemma eo_print_torrents (i : Z) (items : list value) :
  extends_output (print_torrents i items).
Proof.
  revert i. induction items as [ | t items IH ]; intros i;
    cbn [print_torrents]; extends.
Qed.

(** *** The calls of a script *)

Lemma cm_keeps {A} (cs : list Call) (m : Script A) :
  keeps_world m -> calls_made cfg net 0 cs m.
Proof. intros H r. exists 0%nat. split; [ lia | apply H ]. Qed.

Lemma cm_print_then {B} (lo : nat) (cs : list Call) (s : string)
    (k : unit -> Script B) :
  calls_made cfg net lo cs (k tt) ->
  calls_made cfg net lo cs (sbind (py_print s) k).
Proof.
  intros H r. rewrite sbind_print.
  exact (H (mkRun (printed r ++ [s])%list (world r))).
Qed.

Lemma cm_keeps_then {A B} (cs : list Call) (m : Script A)
    (k : A -> Script B) :
  keeps_world m -> (forall a, calls_made cfg net 0 cs (k a)) ->
  calls_made cfg net 0 cs (sbind m k).
Proof.
  intros Hm Hk r. unfold sbind. specialize (Hm r).
  destruct (m r) as [[a | e] r1]; cbn in *.
  - destruct (Hk a r1) as (n & Hn & Hw). exists n. rewrite Hw, Hm. auto.
  - exists 0%nat. split; [ lia | exact Hm ].
Qed.

Lemma cm_await_then {B} (c : Call) (cs : list Call)
    (k : value -> Script B) :
  (forall a, calls_made cfg net 0 cs (k a)) ->
  calls_made cfg net 1 (c :: cs)
    (sbind (await (_make_request cfg net (call_self c) (call_method c)
                     (call_arguments c) (call_tag c))) k).
Proof.
  intros Hk r. unfold sbind, await.
  destruct (_make_request cfg net (call_self c) (call_method c)
              (call_arguments c) (call_tag c) (world r))
    as [[a | e] w1] eqn:E.
  - destruct (Hk a (mkRun (printed r) w1)) as (n & _ & Hw).
    exists (S n). split; [ lia | ]. rewrite Hw. cbn [world firstn run_calls fold_left].
    unfold run_call. rewrite E. reflexivity.
  - exists 1%nat. split; [ lia | ]. cbn [snd world firstn run_calls fold_left].
    unfold run_call. rewrite E. reflexivity.
Qed.

Lemma cm_weaken {A} (lo : nat) (cs : list Call) (m : Script A) :
  calls_made cfg net lo cs m -> calls_made cfg net 0 cs m.
Proof.
  intros H r. destruct (H r) as (k & _ & Hw). exists k. split; [ lia | auto ].
Qed.

Lemma cm_try {A} (lo : nat) (cs : list Call) (m : Script A)
    (h : exc -> Script A) :
  calls_made cfg net lo cs m -> (forall e, keeps_world (h e)) ->
  calls_made cfg net lo cs (try_except_Exception m h).
Proof.
  intros Hm Hh r. unfold try_except_Exception.
  destruct (Hm r) as (k & Hk & Hw).
  destruct (m r) as [[a | e] r1]; cbn in *.
  - exists k. auto.
  - destruct (isinstance e Exception); [ | exists k; auto ].
    exists k. rewrite Hh. auto.
Qed.

(** The calls of the script: the first is always made, the next ones as
    long as nothing raises. *)
Lemma test_transmission_calls :
  calls_made cfg net 1 (test_calls cfg) (test_transmission cfg net).
Proof.
  unfold test_transmission, test_calls. cbv zeta.
  apply cm_print_then. apply cm_try; [ | intros e; keeps ].
  apply cm_print_then.
  apply (cm_await_then
           (mkCall (new_client (TRANSMISSION_URL cfg)) "session-get" None None)).
  intros _. do 2 apply cm_print_then.
  apply cm_weaken with (lo := 1%nat).
  apply (cm_await_then
           (mkCall (new_client (TRANSMISSION_URL cfg)) "torrent-get"
              (Some [("fields", VList test_fields)]) None)).
  intros result.
  do 3 (apply cm_keeps_then; [ keeps | intro ]).
  apply cm_keeps_then; [ keeps | intros _ ].
  do 2 (apply cm_keeps_then; [ keeps | intro ]).
  apply cm_keeps_then; [ apply kw_print_torrents | intros _ ].
  apply cm_weaken with (lo := 1%nat).
  apply (cm_await_then
           (mkCall (new_client (TRANSMISSION_URL cfg)) "session-stats"
              None None)).
  intros result3. apply cm_keeps. keeps.
Qed.

Lemma test_transmission_catchable_body (k : Script unit)
    (h : exc -> Script unit) :
  script_catchable k ->
  (forall e r, exists r', h e r = (Ok tt, r')) ->
  forall r, exists r', try_except_Exception k h r = (Ok tt, r').
Proof.
  intros Hk Hh r. unfold try_except_Exception. specialize (Hk r).
  destruct (k r) as [[[] | e] r1]; cbn in Hk; [ eauto | ].
  unfold catchable in Hk. rewrite Hk. apply Hh.
Qed.

Lemma test_transmission_returns (r : Run) :
  exists r', test_transmission cfg net r = (Ok tt, r').
Proof.
  unfold test_transmission. cbv zeta. rewrite sbind_print.
  apply test_transmission_catchable_body.
  - repeat (cbv beta;
      lazymatch goal with
      | |- script_catchable (sbind _ _) => apply sc_bind; [ | intro ]
      | |- script_catchable (py_print _) => apply sc_print
      | |- script_catchable (await _) => apply sc_await, rc_make_request
      | |- script_catchable (slift _) => apply sc_slift; auto with catch
      | |- script_catchable (print_torrents _ _) => apply sc_print_torrents
      end).
  - intros e r0. eexists. reflexivity.
Qed.

End ScriptFacts.

(** The requests of a run of calls: the log is extended, by one or two
    requests for each call, each with the method of one of the calls. *)
Lemma run_calls_requests (cfg : Config) (net : Network) (cs : list Call)
    (w : World) :
  exists new,
    posts (run_calls cfg net cs w) = (posts w ++ new)%list
    /\ Forall (fun rq => exists c, In c cs
                 /\ body_field rq "method" = Some (VStr (call_method c))) new
    /\ (length cs <= length new <= 2 * length cs)%nat.
Proof.
  revert w. induction cs as [ | c cs IH ]; intros w;
    cbn [run_calls fold_left].
  - exists []. rewrite app_nil_r. cbn. split; [ reflexivity | ].
    split; [ constructor | lia ].
  - destruct (run_call_posts cfg net c w) as (new1 & Hp1 & Hl1 & _).
    pose proof (call_requests_method cfg net (call_self c) (call_method c)
                  (call_arguments c) (call_tag c) w) as Hm.
    cbv zeta in Hm. destruct Hm as (Hm & _).
    fold (run_call cfg net c w) in Hm.
    rewrite (issued_eq _ _ _ Hp1) in Hm.
    destruct (IH (run_call cfg net c w)) as (new2 & Hp2 & Hf2 & Hl2).
    exists (new1 ++ new2)%list.
    fold (run_calls cfg net cs (run_call cfg net c w)).
    rewrite Hp2, Hp1, <- app_assoc. split; [ reflexivity | ].
    split.
    + apply Forall_app. split.
      * eapply Forall_impl; [ | exact Hm ]. intros rq Hrq.
        exists c. split; [ left; reflexivity | exact Hrq ].
      * eapply Forall_impl; [ | exact Hf2 ]. intros rq (c' & Hin & Hrq).
        exists c'. split; [ right; exact Hin | exact Hrq ].
    + rewrite length_app. cbn [length]. lia.
Qed.

Lemma In_firstn {A} (n : nat) (l : list A) (x : A) :
  In x (firstn n l) -> In x l.
Proof.
  revert l. induction n as [ | n IH ]; intros [ | y l ]; cbn; try tauto.
  intros [E | H]; [ left; exact E | right; apply IH; exact H ].
Qed.

(** X25.  The script ends normally whatever the daemon does, and it only
    reads.  It makes the calls [session-get], [torrent-get] and
    [session-stats] in this order and stops calling at the first failure:
    the world after the run is the world after the first [k] of these
    calls, with [k] from 1 to 3.  So between 1 and 6 POSTs are issued, and
    none carries a method that changes the daemon. *)
Theorem script_ends_and_only_reads
    {R : Renderer} (cfg : Config) (net : Network) (r : Run) :
  exists r' k,
    test_transmission cfg net r = (Ok tt, r')
    /\ (1 <= k <= 3)%nat
    /\ world r' = run_calls cfg net (firstn k (test_calls cfg)) (world r)
    /\ Forall reads_only (issued (world r) (world r'))
    /\ (1 <= length (issued (world r) (world r')) <= 6)%nat.
Proof.
  destruct (test_transmission_returns cfg net r) as (r' & Hr).
  destruct (test_transmission_calls cfg net r) as (k & Hk & Hw).
  rewrite Hr in Hw. cbn [snd] in Hw.
  exists r', (Nat.min k 3).
  assert (Hf : firstn k (test_calls cfg)
               = firstn (Nat.min k 3) (test_calls cfg)).
  { destruct k as [ | [ | [ | [ | k ] ] ] ]; reflexivity. }
  rewrite Hf in Hw.
  destruct (run_calls_requests cfg net
              (firstn (Nat.min k 3) (test_calls cfg)) (world r))
    as (new & Hp & Hm & Hl).
  rewrite <- Hw in Hp. rewrite (issued_eq _ _ _ Hp).
  assert (Hlen : length (firstn (Nat.min k 3) (test_calls cfg))
                 = Nat.min k 3).
  { rewrite length_firstn. cbn [test_calls length]. lia. }
  rewrite Hlen in Hl.
  refine (conj Hr (conj _ (conj Hw (conj _ _)))); [ lia | | lia ].
  eapply Forall_impl; [ | exact Hm ].
  intros rq (c & Hin & Hrq). apply In_firstn in Hin.
  exists (call_method c). split; [ | exact Hrq ].
  cbn in Hin. destruct Hin as [E | [E | [E | []]]]; subst c; cbn; tauto.
Qed.

(** ** What the script prints *)

Lemma output_eq (r r' : Run) (out : list string) :
  printed r' = (printed r ++ out)%list -> output r r' = out.
Proof.
  intros H. unfold output. rewrite H.
  rewrite skipn_app, skipn_all, Nat.sub_diag. reflexivity.
Qed.

(** What a [try] prints, when its body has printed [pre] and more. *)
Lemma try_output {A} (m : Script A) (h : exc -> Script A) (r : Run)
    (pre : list string) :
  (forall e, extends_output (h e)) ->
  (exists out, printed (snd (m r)) = (pre ++ out)%list) ->
  exists out, printed (snd (try_except_Exception m h r)) = (pre ++ out)%list.
Proof.
  intros Hh (out1 & H1). unfold try_except_Exception.
  destruct (m r) as [[a | e] r1]; cbn in *; [ eauto | ].
  destruct (isinstance e Exception); [ | eauto ].
  destruct (Hh e r1) as (out2 & H2).
  exists (out1 ++ out2)%list. rewrite H2, H1. symmetry. apply app_assoc.
Qed.

(** X26.  The script never reports a session ID.  When its first call
    returns, the fourth text it prints is ["Session ID obtained: False"],
    whatever the daemon answered and whether or not the call has just
    obtained a session token: the script looks at the attribute
    [session_id] of its client, which no call ever sets. *)
Theorem session_id_never_reported
    {R : Renderer} (cfg : Config) (net : Network) (r : Run)
    (v : value) (w1 : World) :
  _make_request cfg net (new_client (TRANSMISSION_URL cfg)) "session-get"
    None None (world r) = (Ok v, w1) ->
  exists rest,
    output r (snd (test_transmission cfg net r))
    = app ["Testing connection to: " ++ TRANSMISSION_URL cfg;
           "Testing Transmission connection...";
           "✅ Session connection successful!";
           "Session ID obtained: False"] rest.
Proof.
  intros H.
  assert (Hp : exists rest,
            printed (snd (test_transmission cfg net r))
            = app (app (printed r)
                     ["Testing connection to: " ++ TRANSMISSION_URL cfg;
                      "Testing Transmission connection...";
                      "✅ Session connection successful!";
                      "Session ID obtained: False"]) rest).
  { unfold test_transmission. cbv zeta. rewrite sbind_print.
    apply try_output; [ intros e; extends | ].
    rewrite sbind_print.
    erewrite sbind_await_Ok by (cbn [world]; exact H).
    rewrite !sbind_print. cbn [printed world].
    match goal with
    | |- exists out, printed (snd (?tail ?r4)) = _ =>
        assert (Ht : extends_output tail)
          by (extends; apply eo_print_torrents);
        destruct (Ht r4) as (out & Ho)
    end.
    exists out. rewrite Ho. cbn [printed]. rewrite <- !app_assoc.
    reflexivity. }
  destruct Hp as (rest & Hp). exists rest.
  apply output_eq. rewrite Hp. symmetry. apply app_assoc.
Qed.

(** X27.  When the first call fails, the script prints the error and the
    hints and makes no further call: after the two opening texts come the
    message of the exception and the five lines of [help_lines], and the
    world is the one the failed call left. *)
Theorem first_call_failure_is_reported
    {R : Renderer} (cfg : Config) (net : Network) (r : Run)
    (e : exc) (w1 : World) :
  _make_request cfg net (new_client (TRANSMISSION_URL cfg)) "session-get"
    None None (world r) = (Raise e, w1) ->
  test_transmission cfg net r
  = (Ok tt,
     mkRun (app (printed r)
              (app ["Testing connection to: " ++ TRANSMISSION_URL cfg;
                    "Testing Transmission connection...";
                    "❌ Error testing Transmission connection: "
                    ++ exc_msg e]
                 (help_lines cfg)))
       w1).
Proof.
  intros H.
  pose proof (rc_make_request cfg net (new_client (TRANSMISSION_URL cfg))
                "session-get" None None (world r)) as Hc.
  rewrite H in Hc. cbn in Hc. unfold catchable in Hc.
  unfold test_transmission. cbv zeta. rewrite sbind_print.
  unfold try_except_Exception. rewrite sbind_print.
  erewrite sbind_await_Raise by (cbn [world]; exact H).
  rewrite Hc. rewrite !sbind_print. unfold py_print, help_lines.
  cbn [printed world]. rewrite <- !app_assoc. reflexivity.
Qed.

(** *** How much a script prints *)

Lemma pam_print (s : string) : prints_at_most 1 None (py_print s).
Proof. intros r. exists [s]. split; [ reflexivity | cbn; lia ]. Qed.

Lemma pam_print_then {B} (s : string) (k : unit -> Script B) (n : nat)
    (o : option nat) :
  prints_at_most n o (k tt) ->
  prints_at_most (S n) (option_map S o) (sbind (py_print s) k).
Proof.
  intros H r. rewrite sbind_print.
  destruct (H (mkRun (printed r ++ [s])%list (world r))) as (out & Hp & Hl).
  exists (s :: out). split.
  - rewrite Hp. cbn [printed]. rewrite <- app_assoc. reflexivity.
  - destruct (fst (k tt _)); [ cbn; lia | ].
    destruct o; cbn in *; [ lia | exact Hl ].
Qed.

Lemma pam_await_then {A B} (m : M A) (k : A -> Script B) (n : nat)
    (o : option nat) :
  (forall a, prints_at_most n o (k a)) ->
  prints_at_most n (Some (bound_or_0 o)) (sbind (await m) k).
Proof.
  intros H r. unfold sbind, await.
  destruct (m (world r)) as [[a | e] w1].
  - destruct (H a (mkRun (printed r) w1)) as (out & Hp & Hl).
    exists out. split; [ exact Hp | ].
    destruct (fst (k a _)); [ exact Hl | ].
    destruct o; cbn in *; [ exact Hl | contradiction ].
  - exists []. split; [ symmetry; apply app_nil_r | cbn; lia ].
Qed.

Lemma pam_slift_then {A B} (x : Res A) (k : A -> Script B) (n : nat)
    (o : option nat) :
  (forall a, x = Ok a -> prints_at_most n o (k a)) ->
  prints_at_most n (Some (bound_or_0 o)) (sbind (slift x) k).
Proof.
  intros H r. unfold sbind, slift.
  destruct x as [a | e].
  - destruct (H a eq_refl r) as (out & Hp & Hl).
    exists out. split; [ exact Hp | ].
    destruct (fst (k a _)); [ exact Hl | ].
    destruct o; cbn in *; [ exact Hl | contradiction ].
  - exists []. split; [ symmetry; apply app_nil_r | cbn; lia ].
Qed.

Lemma pam_slift_Ok {A B} (a : A) (k : A -> Script B) (n : nat)
    (o : option nat) :
  prints_at_most n o (k a) -> prints_at_most n o (sbind (slift (Ok a)) k).
Proof. intros H r. exact (H r). Qed.

Lemma pam_bind {A B} (m : Script A) (k : A -> Script B) (n p : nat)
    (o q : option nat) :
  prints_at_most n o m -> (forall a, prints_at_most p q (k a)) ->
  prints_at_most (n + p)
    (Some (Nat.max (bound_or_0 o) (n + bound_or_0 q))) (sbind m k).
Proof.
  intros Hm Hk r. unfold sbind. destruct (Hm r) as (out1 & Hp1 & Hl1).
  destruct (m r) as [[a | e] r1]; cbn [fst snd] in *.
  - destruct (Hk a r1) as (out2 & Hp2 & Hl2).
    exists (out1 ++ out2)%list. split.
    + rewrite Hp2, Hp1. symmetry. apply app_assoc.
    + rewrite length_app. destruct (fst (k a r1)); [ lia | ].
      destruct q; cbn in *; [ lia | contradiction ].
  - exists out1. split; [ exact Hp1 | ].
    destruct o; cbn in *; [ lia | contradiction ].
Qed.

Lemma pam_weaken {A} (m : Script A) (n : nat) (o : option nat)
    (p p' : nat) :
  prints_at_most n o m -> (n <= p)%nat -> (bound_or_0 o <= p')%nat ->
  prints_at_most p (Some p') m.
Proof.
  intros H Hn Hn' r. destruct (H r) as (out & Hp & Hl).
  exists out. split; [ exact Hp | ].
  destruct (fst (m r)); [ lia | ].
  destruct o; cbn in *; [ lia | contradiction ].
Qed.

(** A [try] whose handler prints at most [p] texts and does not raise. *)
Lemma pam_try {A} (m : Script A) (h : exc -> Script A) (n p : nat)
    (o : option nat) (r : Run) :
  prints_at_most n o m -> (forall e, prints_at_most p None (h e)) ->
  exists out,
    printed (snd (try_except_Exception m h r)) = (printed r ++ out)%list
    /\ (length out <= Nat.max n (bound_or_0 o + p))%nat.
Proof.
  intros Hm Hh. unfold try_except_Exception.
  destruct (Hm r) as (out1 & Hp1 & Hl1).
  destruct (m r) as [[a | e] r1]; cbn [fst snd] in *.
  - exists out1. split; [ exact Hp1 | lia ].
  - assert (Hb : (length out1 <= bound_or_0 o)%nat)
      by (destruct o; cbn in *; [ lia | contradiction ]).
    destruct (isinstance e Exception).
    + destruct (Hh e r1) as (out2 & Hp2 & Hl2).
      exists (out1 ++ out2)%list. split.
      * rewrite Hp2, Hp1. symmetry. apply app_assoc.
      * rewrite length_app. destruct (fst (h e r1)); [ lia | contradiction ].
    + exists out1. split; [ exact Hp1 | lia ].
Qed.

Section ScriptOutput.

Context {R : Renderer}.
Variable cfg : Config.
Variable net : Network.

Lemma pam_print_torrents (i : Z) (items : list value) :
  prints_at_most (length items) (Some (length items))
    (print_torrents i items).
Proof.
  revert i. induction items as [ | t items IH ]; intros i r;
    cbn [print_torrents].
  - exists []. split; [ symmetry; apply app_nil_r | cbn; lia ].
  - unfold sbind at 1, slift.
    destruct (torrent_line i t) as [line | e].
    + rewrite sbind_print.
      destruct (IH (i + 1) (mkRun (printed r ++ [line])%list (world r)))
        as (out & Hp & Hl).
      exists (line :: out). split.
      * rewrite Hp. cbn [printed]. rewrite <- app_assoc. reflexivity.
      * revert Hl. cbv beta.
        repeat match goal with
               | |- context [match fst ?x with _ => _ end] =>
                   destruct (fst x)
               end; cbn; lia.
    + exists []. split; [ symmetry; apply app_nil_r | cbn; lia ].
Qed.

(** The loop runs over three items at most. *)
Lemma slice_items (torrents first : value) (items : list value) :
  py_slice_to_3 torrents = Ok first ->
  py_iter first = Ok items ->
  (length items <= 3)%nat.
Proof.
  intros Hs Hi. destruct torrents; try discriminate Hs;
    cbn in Hs; inversion Hs; subst first; cbn in Hi; inversion Hi; subst items.
  - rewrite length_map.
    assert (Hl : forall n s,
              (length (list_ascii_of_string (substring 0 n s)) <= n)%nat).
    { induction n as [ | n IH ]; intros [ | c s0 ]; cbn; try lia.
      specialize (IH s0). lia. }
    apply Hl.
  - destruct l as [ | x1 [ | x2 [ | x3 l ] ] ]; cbn; lia.
Qed.

End ScriptOutput.

(** X28.  The script prints at most fifteen texts, however many torrents
    the daemon reports: it lists the first three only, and a run that
    fails part of the way prints the error report in place of the rest.
    What was printed before the run stays as it is. *)
Theorem script_prints_at_most_15
    {R : Renderer} (cfg : Config) (net : Network) (r : Run) :
  exists out,
    printed (snd (test_transmission cfg net r)) = (printed r ++ out)%list
    /\ (length out <= 15)%nat.
Proof.
  unfold test_transmission. cbv zeta. rewrite sbind_print.
  match goal with
  | |- context [try_except_Exception ?m ?h ?r1] =>
      assert (Hm : prints_at_most 11 (Some 8%nat) m);
      [ | assert (Hh : forall e, prints_at_most 6 None (h e));
          [ | destruct (pam_try m h 11 6 (Some 8%nat) r1 Hm Hh)
                as (out & Hp & Hl) ] ]
  end.
  - eapply pam_weaken.
    + eapply pam_print_then.
      eapply pam_await_then; intros _.
      do 2 eapply pam_print_then.
      eapply pam_await_then; intros result.
      eapply pam_slift_then; intros a _.
      eapply pam_slift_then; intros torrents _.
      eapply pam_slift_then; intros n _.
      eapply pam_print_then.
      eapply pam_slift_then; intros first Hfirst.
      eapply pam_slift_then; intros items Hitems.
      eapply pam_bind;
        [ eapply (pam_weaken _ _ _ 3%nat 3%nat);
          [ apply pam_print_torrents
          | exact (slice_items torrents first items Hfirst Hitems)
          | exact (slice_items torrents first items Hfirst Hitems) ]
        | intros _ ].
      eapply pam_await_then; intros result3.
      eapply pam_slift_then; intros stats _.
      eapply pam_print_then.
      eapply pam_slift_then; intros active Hactive.
      destruct stats; try discriminate Hactive.
      eapply pam_print_then.
      cbn [py_get]. eapply pam_slift_Ok.
      eapply pam_print_then. apply pam_print.
    + cbn. lia.
    + cbn. lia.
  - intros e. do 5 apply (pam_print_then _ _ _ None). apply pam_print.
  - exists (("Testing connection to: " ++ "http://" ++ TRANSMISSION_HOST cfg
             ++ ":" ++ string_of_Z (TRANSMISSION_PORT cfg)
             ++ "/transmission/rpc") :: out).
    split.
    + rewrite Hp. cbn [printed]. rewrite <- app_assoc. reflexivity.
    + cbn [length]. cbn in Hl. lia.
Qed.

(** ** The script on the sample daemons *)

Lemma session_id_never_reported_witness :
  transmission_session_id (snd (Sample.run Sample.net_challenge))
  = Some "abc123"
  /\ exists rest,
       output initial_run
         (snd (test_transmission Sample.cfg Sample.net_challenge initial_run))
       = app ["Testing connection to: " ++ TRANSMISSION_URL Sample.cfg;
              "Testing Transmission connection...";
              "✅ Session connection successful!";
              "Session ID obtained: False"] rest.
Proof.
  split; [ reflexivity | ].
  apply (session_id_never_reported Sample.cfg Sample.net_challenge
           initial_run Sample.success_body
           (snd (Sample.run Sample.net_challenge))).
  reflexivity.
Defined.

Lemma first_call_failure_is_reported_witness :
  test_transmission Sample.cfg Sample.net_refused initial_run
  = (Ok tt,
     mkRun (app (printed initial_run)
              (app ["Testing connection to: " ++ TRANSMISSION_URL Sample.cfg;
                    "Testing Transmission connection...";
                    "❌ Error testing Transmission connection: "
                    ++ exc_msg (network_error "Connection refused")]
                 (help_lines Sample.cfg)))
       (snd (Sample.run Sample.net_refused))).
Proof.
  apply (first_call_failure_is_reported Sample.cfg Sample.net_refused
           initial_run (network_error "Connection refused")
           (snd (Sample.run Sample.net_refused))).
  reflexivity.
Defined.

(** A full run against a daemon that asks for the session token first:
    four POSTs for three calls. *)
Example script_run_with_challenge :
  printed (snd (test_transmission Sample.cfg Sample.net_challenge
                  initial_run))
  = ["Testing connection to: http://localhost:9091/transmission/rpc";
     "Testing Transmission connection...";
     "✅ Session connection successful!";
     "Session ID obtained: False";
     "✅ Found 2 torrents";
     "  1. Ubuntu ISO - Seeding - 0.0%";
     "  2. debian - Downloading - 0.0%";
     "✅ Session stats retrieved";
     "  Active torrents: 0";
     "  Total torrents: 0";
     nl ++ "🎉 All tests passed! Transmission MCP server should work correctly."]
  /\ length (posts (world (snd (test_transmission Sample.cfg
                                  Sample.net_challenge initial_run))))
     = 4%nat.
Proof. split; reflexivity. Qed.

(** The daemon answers with a JSON list: the second call returns, and
    its result has no [get]. *)
Example script_run_on_a_list :
  printed (snd (test_transmission Sample.cfg Samples.net_list initial_run))
  = app ["Testing connection to: http://localhost:9091/transmission/rpc";
         "Testing Transmission connection...";
         "✅ Session connection successful!";
         "Session ID obtained: False";
         "❌ Error testing Transmission connection: "
         ++ "'list' object has no attribute 'get'"]
      (help_lines Sample.cfg).
Proof. reflexivity. Qed.
